(** * hivexml: conversion of a Windows Registry hive to forensic XML

    A shallow embedding of [xml/hivexml.c] and the properties of its
    serialization callbacks.

    Layout:
    - [LibC]: the parts of the C library the program calls ([strlen],
      [isprint], [printf]-style decimal conversion, [gmtime], [strftime]);
    - [Xml]: the state machine of libxml2's [xmlTextWriter], as far as the
      program drives it;
    - [Hivex]: the interface of the hive-parsing library (oracles);
    - [Hivexml]: the program itself, function by function;
    - the vocabulary of the properties, and what each function writes as
      a function of its arguments;
    - the lemmas and theorems: the C library, the timestamp converter,
      the encoding safety classifier, the serializers, the document. *)

From Stdlib Require Import ZArith List String Ascii Bool Lia.
Import ListNotations.

Local Open Scope string_scope.
Local Open Scope list_scope.
Local Open Scope Z_scope.

(* ================================================================== *)
(** ** The C library *)
(* ================================================================== *)

Module LibC.

(** A [const char *] that is not NULL is the sequence of bytes found from
    the pointer on; the C string it denotes ends before the first NUL byte
    (or where the modelled buffer ends). *)
Definition NUL : ascii := "000"%char.

Fixpoint strlen (s : string) : nat :=
  match s with
  | EmptyString => O
  | String c rest => if Ascii.eqb c NUL then O else S (strlen rest)
  end.

(** The C string at a pointer: the bytes before the first NUL. *)
Definition c_string (s : string) : string := substring 0 (strlen s) s.

(** [strcmp]: negative, zero or positive as the first C string sorts
    before, with or after the second one. *)
Definition strcmp (a b : string) : Z :=
  match String.compare (c_string a) (c_string b) with
  | Lt => -1
  | Eq => 0
  | Gt => 1
  end.

(** [data[i]], read as a (signed) [char] and promoted to [int]. *)
Definition wrap_signed (bits : Z) (x : Z) : Z :=
  let m := x mod 2 ^ bits in
  if m <? 2 ^ (bits - 1) then m else m - 2 ^ bits.

Definition char_to_int (c : ascii) : Z :=
  wrap_signed 8 (Z.of_N (N_of_ascii c)).

Definition char_at (data : string) (i : nat) : ascii :=
  match String.get i data with
  | Some c => c
  | None => NUL
  end.

(** [isprint] in the "C" locale: the printable ASCII range, space
    included. ([main] selects the locale of the environment; in the
    UTF-8 locales, as in "C", no byte above 126 is printable.) *)
Definition isprint (c : Z) : bool := (32 <=? c) && (c <=? 126).

(** Decimal conversion as [printf] does it. *)
Definition digit_char (d : Z) : ascii := ascii_of_N (Z.to_N (48 + d)).

Fixpoint dec_digits (fuel : nat) (n : Z) (acc : string) : string :=
  match fuel with
  | O => acc
  | S fuel' =>
      let acc' := String (digit_char (n mod 10)) acc in
      if n / 10 =? 0 then acc' else dec_digits fuel' (n / 10) acc'
  end.

(** A number below [2^k] has at most [k] decimal digits, so the fuel
    below is never exhausted. *)
Definition dec_of_Z (n : Z) : string :=
  if n <? 0
  then String "-" (dec_digits (S (Z.to_nat (Z.log2 (- n)))) (- n) "")
  else dec_digits (S (Z.to_nat (Z.log2 n))) n "".

(** ["%d"] applied to an argument wider than [int] (the program passes
    [size_t] values): the low 32 bits, read as signed. *)
Definition printf_d (x : Z) : string := dec_of_Z (wrap_signed 32 x).
(** ["%" PRIi32] and ["%" PRIi64]. *)
Definition printf_i32 (x : Z) : string := dec_of_Z (wrap_signed 32 x).
Definition printf_i64 (x : Z) : string := dec_of_Z (wrap_signed 64 x).

(** ["%02d"]-like fields of [strftime]. *)
Definition dec2 (n : Z) : string :=
  let s := dec_of_Z n in
  if (String.length s <? 2)%nat then String "0" s else s.

(** *** Broken-down time *)

Record tm := mk_tm {
  tm_sec : Z;
  tm_min : Z;
  tm_hour : Z;
  tm_mday : Z;
  tm_mon : Z;    (* months since January, 0..11 *)
  tm_year : Z;   (* years since 1900 *)
  tm_wday : Z;   (* days since Sunday, 0..6 *)
  tm_yday : Z;   (* days since January 1, 0..365 *)
  tm_isdst : Z
}.

(** Days since 1970-01-01 of a date of the proleptic Gregorian calendar
    ([m] in 1..12). Years are counted from March, in 400-year eras of
    146097 days. *)
Definition days_from_civil (y m d : Z) : Z :=
  let y' := if m <=? 2 then y - 1 else y in
  let era := y' / 400 in
  let yoe := y' mod 400 in
  let mp := if 2 <? m then m - 3 else m + 9 in
  let doy := (153 * mp + 2) / 5 + d - 1 in
  let doe := yoe * 365 + yoe / 4 - yoe / 100 + doy in
  era * 146097 + doe - 719468.

(** The inverse: year, month (1..12) and day of the month. *)
Definition civil_from_days (z : Z) : Z * Z * Z :=
  let z' := z + 719468 in
  let era := z' / 146097 in
  let doe := z' mod 146097 in
  let yoe := (doe - doe / 1460 + doe / 36524 - doe / 146096) / 365 in
  let doy := doe - (365 * yoe + yoe / 4 - yoe / 100) in
  let mp := (5 * doy + 2) / 153 in
  let d := doy - (153 * mp + 2) / 5 + 1 in
  let m := if mp <? 10 then mp + 3 else mp - 9 in
  let y := yoe + era * 400 + (if m <=? 2 then 1 else 0) in
  (y, m, d).

Definition INT_MIN : Z := - 2 ^ 31.
Definition INT_MAX : Z := 2 ^ 31 - 1.

(** [gmtime] on a 64-bit [time_t]: seconds since the Epoch to UTC
    broken-down time; NULL ([None]) when the year does not fit
    [tm_year]. *)
Definition gmtime (t : Z) : option tm :=
  let days := t / 86400 in
  let rem := t mod 86400 in
  let '(y, m, d) := civil_from_days days in
  if (INT_MIN <=? y - 1900) && (y - 1900 <=? INT_MAX) then
    Some {| tm_sec := rem mod 60;
            tm_min := (rem mod 3600) / 60;
            tm_hour := rem / 3600;
            tm_mday := d;
            tm_mon := m - 1;
            tm_year := y - 1900;
            tm_wday := (4 + days) mod 7;
            tm_yday := days - days_from_civil y 1 1;
            tm_isdst := 0 |}
  else None.

(** The instant a broken-down UTC time denotes (what [timegm] computes):
    POSIX "Seconds Since the Epoch". *)
Definition timegm (b : tm) : Z :=
  days_from_civil (tm_year b + 1900) (tm_mon b + 1) (tm_mday b) * 86400
  + tm_hour b * 3600 + tm_min b * 60 + tm_sec b.

(** The same instant by the formula of POSIX ("Seconds Since the
    Epoch"), which is stated for times from 1970 on. *)
Definition posix_seconds (b : tm) : Z :=
  tm_sec b + tm_min b * 60 + tm_hour b * 3600 + tm_yday b * 86400
  + (tm_year b - 70) * 31536000 + ((tm_year b - 69) / 4) * 86400
  - ((tm_year b - 1) / 100) * 86400 + ((tm_year b + 299) / 400) * 86400.

(** [strftime]: the conversions the program's format uses. [%Y] is the
    year as a decimal number, the other fields take two digits; [%F] is
    [%Y-%m-%d] and [%T] is [%H:%M:%S]. A conversion outside this set is not
    modelled ([None]). *)
Definition strftime_conv (c : ascii) (b : tm) : option string :=
  match c with
  | "Y"%char => Some (dec_of_Z (tm_year b + 1900))
  | "m"%char => Some (dec2 (tm_mon b + 1))
  | "d"%char => Some (dec2 (tm_mday b))
  | "H"%char => Some (dec2 (tm_hour b))
  | "M"%char => Some (dec2 (tm_min b))
  | "S"%char => Some (dec2 (tm_sec b))
  | "F"%char =>
      Some (dec_of_Z (tm_year b + 1900) ++ "-" ++ dec2 (tm_mon b + 1)
            ++ "-" ++ dec2 (tm_mday b))%string
  | "T"%char =>
      Some (dec2 (tm_hour b) ++ ":" ++ dec2 (tm_min b)
            ++ ":" ++ dec2 (tm_sec b))%string
  | _ => None
  end.

Fixpoint strftime_expand (format : string) (b : tm) : option string :=
  match format with
  | EmptyString => Some EmptyString
  | String "%" (String c rest) =>
      match strftime_conv c b, strftime_expand rest b with
      | Some s1, Some s2 => Some (s1 ++ s2)%string
      | _, _ => None
      end
  | String c rest =>
      match strftime_expand rest b with
      | Some s => Some (String c s)
      | None => None
      end
  end.

(** [strftime (buf, maxsize, format, tm)]: the number of bytes placed in
    [buf], not counting the terminating NUL, and the contents of [buf]; 0
    when the result with its NUL does not fit [maxsize] bytes. *)
Definition strftime (maxsize : Z) (format : string) (b : tm) : Z * string :=
  match strftime_expand format b with
  | Some s =>
      if Z.of_nat (String.length s) + 1 <=? maxsize
      then (Z.of_nat (String.length s), s)
      else (0, EmptyString)
  | None => (0, EmptyString)
  end.

End LibC.

(* ================================================================== *)
(** ** libxml2's text writer *)
(* ================================================================== *)

Module Xml.
Import LibC.

(** What the writer was asked to put in an attribute value or in an
    element: characters to be escaped by the writer, or bytes to be
    base64-encoded by it. *)
Inductive content :=
| Chars (s : string)
| Base64 (bytes : string).

Definition attribute : Type := string * list content.

#[warnings="-register-all"]
Inductive node :=
| Element (name : string) (attrs : list attribute) (children : list node)
| Text (c : content).

(** The states of an open element ([xmlTextWriterStates]): the start tag
    is still open, an attribute value is being written, or the start tag
    is closed and content follows. *)
Inductive state :=
| XML_TEXTWRITER_NAME
| XML_TEXTWRITER_ATTRIBUTE (name : string) (value : list content)
| XML_TEXTWRITER_TEXT.

Record stack_entry := mk_entry {
  e_name : string;
  e_attrs : list attribute;
  e_children : list node;
  e_state : state
}.

(** The stack of open elements (innermost first) and what has been
    written at the top level of the document. *)
Record xmlTextWriter := mk_writer {
  nodes : list stack_entry;
  document : list node
}.

Definition xmlNewTextWriter : xmlTextWriter :=
  {| nodes := []; document := [] |}.

Definition fresh (name : string) : stack_entry :=
  {| e_name := name; e_attrs := []; e_children := [];
     e_state := XML_TEXTWRITER_NAME |}.

Definition with_state (s : state) (e : stack_entry) : stack_entry :=
  {| e_name := e_name e; e_attrs := e_attrs e;
     e_children := e_children e; e_state := s |}.

Definition add_attr (a : attribute) (e : stack_entry) : stack_entry :=
  {| e_name := e_name e; e_attrs := e_attrs e ++ [a];
     e_children := e_children e; e_state := XML_TEXTWRITER_NAME |}.

Definition add_content (n : node) (e : stack_entry) : stack_entry :=
  {| e_name := e_name e; e_attrs := e_attrs e;
     e_children := e_children e ++ [n]; e_state := XML_TEXTWRITER_TEXT |}.

(** An attribute that is still open is ended ahead of anything that
    cannot be part of it. *)
Definition end_pending_attribute (e : stack_entry) : stack_entry :=
  match e_state e with
  | XML_TEXTWRITER_ATTRIBUTE n v => add_attr (n, v) e
  | _ => e
  end.

(** The start tag of the innermost open element is closed. *)
Definition close_start_tag (ns : list stack_entry) : list stack_entry :=
  match ns with
  | [] => []
  | p :: ps => with_state XML_TEXTWRITER_TEXT (end_pending_attribute p) :: ps
  end.

(** A finished node becomes the last child of the innermost open element,
    or a top-level node of the document. *)
Definition emit (n : node) (w : xmlTextWriter) : xmlTextWriter :=
  match nodes w with
  | [] => {| nodes := []; document := document w ++ [n] |}
  | p :: ps => {| nodes := add_content n p :: ps; document := document w |}
  end.

(** Every function returns -1 on error and a count that is not negative
    otherwise (0 here: the program only tests for -1). *)

Definition xmlTextWriterStartDocument (w : xmlTextWriter)
  : Z * xmlTextWriter :=
  match nodes w with
  | [] => (0, w)
  | _ :: _ => (-1, w)
  end.

Definition xmlTextWriterStartElement (name : string) (w : xmlTextWriter)
  : Z * xmlTextWriter :=
  (0, {| nodes := fresh name :: close_start_tag (nodes w);
         document := document w |}).

Definition xmlTextWriterEndElement (w : xmlTextWriter)
  : Z * xmlTextWriter :=
  match nodes w with
  | [] => (-1, w)
  | p :: ps =>
      let p' := end_pending_attribute p in
      (0, emit (Element (e_name p') (e_attrs p') (e_children p'))
               {| nodes := ps; document := document w |})
  end.

Definition xmlTextWriterStartAttribute (name : string) (w : xmlTextWriter)
  : Z * xmlTextWriter :=
  match nodes w with
  | [] => (-1, w)
  | p :: ps =>
      match e_state p with
      | XML_TEXTWRITER_TEXT => (-1, w)
      | _ =>
          (0, {| nodes :=
                   with_state (XML_TEXTWRITER_ATTRIBUTE name [])
                              (end_pending_attribute p) :: ps;
                 document := document w |})
      end
  end.

Definition xmlTextWriterEndAttribute (w : xmlTextWriter)
  : Z * xmlTextWriter :=
  match nodes w with
  | [] => (-1, w)
  | p :: ps =>
      match e_state p with
      | XML_TEXTWRITER_ATTRIBUTE _ _ =>
          (0, {| nodes := end_pending_attribute p :: ps;
                 document := document w |})
      | _ => (-1, w)
      end
  end.

(** Content goes into the open attribute, or else closes the start tag
    and becomes a child. *)
Definition write_content (c : content) (w : xmlTextWriter)
  : xmlTextWriter :=
  match nodes w with
  | [] => emit (Text c) w
  | p :: ps =>
      match e_state p with
      | XML_TEXTWRITER_ATTRIBUTE n v =>
          {| nodes := with_state (XML_TEXTWRITER_ATTRIBUTE n (v ++ [c])) p
                      :: ps;
             document := document w |}
      | _ => emit (Text c) w
      end
  end.

(** The pointers [content] and [data] below may be NULL ([None]);
    [content] is a C string, [data] a buffer of which [len] bytes from
    [start] on are taken. *)
Definition xmlTextWriterWriteString (content : option string)
  (w : xmlTextWriter) : Z * xmlTextWriter :=
  match content with
  | None => (-1, w)
  | Some s => (0, write_content (Chars (c_string s)) w)
  end.

Definition xmlTextWriterWriteBase64 (data : option string) (start len : Z)
  (w : xmlTextWriter) : Z * xmlTextWriter :=
  match data with
  | None => (-1, w)
  | Some d =>
      if (start <? 0) || (len <? 0) then (-1, w)
      else (0, write_content
                 (Base64 (substring (Z.to_nat start) (Z.to_nat len) d)) w)
  end.

(** [xmlTextWriterWriteAttribute] is start, string, end; it gives up at
    the first step that fails. *)
Definition xmlTextWriterWriteAttribute (name : string)
  (content : option string) (w : xmlTextWriter) : Z * xmlTextWriter :=
  let '(r1, w1) := xmlTextWriterStartAttribute name w in
  if r1 <? 0 then (-1, w1) else
  let '(r2, w2) := xmlTextWriterWriteString content w1 in
  if r2 <? 0 then (-1, w2) else
  let '(r3, w3) := xmlTextWriterEndAttribute w2 in
  if r3 <? 0 then (-1, w3) else (0, w3).

(** [xmlTextWriterWriteFormatAttribute], with the formatted string already
    built by the caller's format. *)
Definition xmlTextWriterWriteFormatAttribute (name : string)
  (formatted : string) (w : xmlTextWriter) : Z * xmlTextWriter :=
  xmlTextWriterWriteAttribute name (Some formatted) w.

(** [xmlTextWriterEndDocument] ends every element that is still open. *)
Fixpoint end_all (n : nat) (w : xmlTextWriter) : Z * xmlTextWriter :=
  match n with
  | O => (0, w)
  | S n' =>
      let '(r, w') := xmlTextWriterEndElement w in
      if r <? 0 then (-1, w') else end_all n' w'
  end.

Definition xmlTextWriterEndDocument (w : xmlTextWriter)
  : Z * xmlTextWriter :=
  end_all (List.length (nodes w)) w.

(** *** Reading a finished element *)

Definition lookup (name : string) (attrs : list attribute)
  : option (list content) :=
  match find (fun a => String.eqb (fst a) name) attrs with
  | Some a => Some (snd a)
  | None => None
  end.

Definition has_attr (name : string) (attrs : list attribute) : bool :=
  existsb (fun a => String.eqb (fst a) name) attrs.

Definition is_element (name : string) (n : node) : bool :=
  match n with
  | Element n' _ _ => String.eqb n' name
  | Text _ => false
  end.

Definition children_named (name : string) (ns : list node) : list node :=
  filter (is_element name) ns.

Definition is_base64 (v : list content) : bool :=
  match v with
  | [Base64 _] => true
  | _ => false
  end.

End Xml.

(* ================================================================== *)
(** ** The hive-parsing library *)
(* ================================================================== *)

Module Hivex.

(** [hive_node_h] and [hive_value_h] are [size_t] offsets. *)
Definition hive_node_h := Z.
Definition hive_value_h := Z.

(** Modelled from the spec: [enum hive_type] is declared in [hivex.h].
    Its twelve tags are the type vocabulary of the value callbacks,
    numbered as the registry numbers its types (REG_NONE is 0, REG_QWORD
    is 11). The library hands over whatever 32-bit type code the hive
    stores, so a [hive_type] can be any number. *)
Definition hive_type := Z.
Definition hive_t_none : hive_type := 0.
Definition hive_t_string : hive_type := 1.
Definition hive_t_expand_string : hive_type := 2.
Definition hive_t_binary : hive_type := 3.
Definition hive_t_dword : hive_type := 4.
Definition hive_t_dword_be : hive_type := 5.
Definition hive_t_link : hive_type := 6.
Definition hive_t_multiple_strings : hive_type := 7.
Definition hive_t_resource_list : hive_type := 8.
Definition hive_t_full_resource_description : hive_type := 9.
Definition hive_t_resource_requirements_list : hive_type := 10.
Definition hive_t_qword : hive_type := 11.

(** Modelled from the spec: an open hive, seen through the queries of
    the library the program makes ([hivex.h]); each is an oracle. A
    query that reports through [errno] gives the value [errno] has once
    it returns, next to its result. *)
Record hive_h := mk_hive {
  hivex_root : hive_node_h;
  hivex_last_modified : Z;
  hivex_node_timestamp : hive_node_h -> Z;
  hivex_node_struct_length : hive_node_h -> Z * Z;
  hivex_value_struct_length : hive_value_h -> Z * Z;
  (** errno, then the offset returned and the length stored in [*len] *)
  hivex_value_data_cell_offset : hive_value_h -> Z * (Z * Z);
  hivex_close : Z
}.

End Hivex.

(* ================================================================== *)
(** ** The program *)
(* ================================================================== *)

Module Hivexml.
Import LibC Xml Hivex.

(** *** Effects

    The program writes to one XML writer and ends in one of three ways:
    a function returns, the process leaves through [exit (EXIT_FAILURE)],
    or it is killed by [abort ()]. The state also keeps a record of the
    tick counts [filetime_to_8601] was called with (ghost state: the
    program does not read it). Messages on [stderr] are left out, and
    [malloc] is taken to succeed. *)

Record world := mk_world {
  writer : xmlTextWriter;
  filetime_calls : list Z
}.

Inductive outcome (A : Type) :=
| Done (a : A) (w : world)
| Exit_failure (w : world)
| Abort (w : world).
Arguments Done {A} a w.
Arguments Exit_failure {A} w.
Arguments Abort {A} w.

Definition M (A : Type) : Type := world -> outcome A.

Definition ret {A} (a : A) : M A := fun w => Done a w.

Definition bind {A B} (m : M A) (k : A -> M B) : M B :=
  fun w =>
    match m w with
    | Done a w' => k a w'
    | Exit_failure w' => Exit_failure w'
    | Abort w' => Abort w'
    end.

Notation "x <- m ;; k" := (bind m (fun x => k))
  (at level 61, m at next level, right associativity).
Notation "m ;; k" := (bind m (fun _ => k))
  (at level 61, right associativity).

Definition exit_failure {A} : M A := fun w => Exit_failure w.
Definition abort {A} : M A := fun w => Abort w.

Definition with_writer (x : xmlTextWriter) (w : world) : world :=
  {| writer := x; filetime_calls := filetime_calls w |}.

(** [XML_CHECK (proc, args)] *)
Definition XML_CHECK (proc : xmlTextWriter -> Z * xmlTextWriter) : M unit :=
  fun w =>
    let '(r, x) := proc (writer w) in
    if r =? -1 then Exit_failure (with_writer x w)
    else Done tt (with_writer x w).

Definition record_filetime_call (ticks : Z) : M unit :=
  fun w => Done tt {| writer := writer w;
                      filetime_calls := filetime_calls w ++ [ticks] |}.

(** A [size_t] passed for an [int] parameter. *)
Definition size_t_to_int (n : Z) : Z := wrap_signed 32 n.

(** *** [filetime_to_8601] *)

Definition WINDOWS_TICK : Z := 10000000.
Definition SEC_TO_UNIX_EPOCH : Z := 11644473600.
Definition TIMESTAMP_BUF_LEN : Z := 32.

(** The result is a pointer: NULL is [None]. The division is C's, which
    truncates ([Z.quot]). *)
Definition filetime_to_8601 (windows_ticks : Z) : M (option string) :=
  record_filetime_call windows_ticks ;;
  if windows_ticks =? 0 then ret None
  else
    let t := Z.quot windows_ticks WINDOWS_TICK - SEC_TO_UNIX_EPOCH in
    match gmtime t with
    | None => ret None
    | Some tm =>
        let '(n, buf) := strftime TIMESTAMP_BUF_LEN "%FT%TZ" tm in
        if n =? 0 then exit_failure else ret (Some buf)
    end.

(** *** [node_byte_runs] *)

Definition node_byte_runs (h : hive_h) (node : hive_node_h) : M Z :=
  let '(errno, node_struct_length) := hivex_node_struct_length h node in
  if negb (errno =? 0) then ret (-1)
  else
    (* A node has one byte run. *)
    XML_CHECK (xmlTextWriterStartElement "byte_runs") ;;
    XML_CHECK (xmlTextWriterStartElement "byte_run") ;;
    XML_CHECK (xmlTextWriterWriteAttribute "file_offset"
                 (Some (printf_d node))) ;;
    XML_CHECK (xmlTextWriterWriteAttribute "len"
                 (Some (printf_d node_struct_length))) ;;
    XML_CHECK xmlTextWriterEndElement ;;
    XML_CHECK xmlTextWriterEndElement ;;
    ret 0.

(** *** [encoding_recommendation] *)

(** The [for] loop: [i] is the index, [todo] is [data_len - i], and
    [is_printable] is the flag as the previous iteration left it. *)
Fixpoint encoding_recommendation_loop (data : string) (i todo : nat)
  (is_printable : bool) : bool :=
  match todo with
  | O => is_printable
  | S todo' =>
      let is_printable := isprint (char_to_int (char_at data i)) in
      if negb is_printable then is_printable   (* break *)
      else encoding_recommendation_loop data (S i) todo' is_printable
  end.

Definition encoding_recommendation (data : string) : string :=
  let is_printable := false in
  let data_len := strlen data in
  let is_printable :=
    encoding_recommendation_loop data 0 data_len is_printable in
  if is_printable then "none" else "base64".

(** *** [safe_print_string_attribute] *)

Definition safe_print_string_attribute
  (attr_name attr_encoding attr_data : option string) : M Z :=
  match attr_name, attr_data, attr_encoding with
  | Some attr_name, Some attr_data, Some attr_encoding =>
      let encoding_to_use := encoding_recommendation attr_data in
      if strcmp encoding_to_use "none" =? 0 then
        XML_CHECK (xmlTextWriterWriteAttribute attr_name (Some attr_data)) ;;
        ret 0
      else if strcmp encoding_to_use "base64" =? 0 then
        XML_CHECK (xmlTextWriterWriteAttribute attr_encoding
                     (Some "base64")) ;;
        XML_CHECK (xmlTextWriterStartAttribute attr_name) ;;
        XML_CHECK (xmlTextWriterWriteBase64 (Some attr_data) 0
                     (size_t_to_int (Z.of_nat (strlen attr_data)))) ;;
        XML_CHECK xmlTextWriterEndAttribute ;;
        ret 0
      else ret (-1)
  | _, _, _ => ret (-1)
  end.

(** *** [node_start] and [node_end] *)

Definition node_start (h : hive_h) (node : hive_node_h)
  (name : option string) : M Z :=
  XML_CHECK (xmlTextWriterStartElement "node") ;;
  _ <- safe_print_string_attribute (Some "name") (Some "name_encoding")
         name ;;
  (if node =? hivex_root h
   then XML_CHECK (xmlTextWriterWriteAttribute "root" (Some "1"))
   else ret tt) ;;
  let last_modified := hivex_node_timestamp h node in
  (if 0 <=? last_modified then
     timebuf <- filetime_to_8601 last_modified ;;
     match timebuf with
     | Some _ =>
         XML_CHECK (xmlTextWriterStartElement "mtime") ;;
         XML_CHECK (xmlTextWriterWriteString timebuf) ;;
         XML_CHECK xmlTextWriterEndElement
     | None => ret tt
     end
   else ret tt) ;;
  node_byte_runs h node.

Definition node_end (h : hive_h) (node : hive_node_h)
  (name : option string) : M Z :=
  XML_CHECK xmlTextWriterEndElement ;;
  ret 0.

(** *** [start_value] and [end_value] *)

Definition start_value (key : string) (type : string)
  (encoding : option string) : M unit :=
  XML_CHECK (xmlTextWriterStartElement "value") ;;
  XML_CHECK (xmlTextWriterWriteAttribute "type" (Some type)) ;;
  (match encoding with
   | Some _ => XML_CHECK (xmlTextWriterWriteAttribute "value_encoding"
                            encoding)
   | None => ret tt
   end) ;;
  if negb (Ascii.eqb (char_at key 0) NUL) then
    _ <- safe_print_string_attribute (Some "key") (Some "key_encoding")
           (Some key) ;;
    ret tt
  else                          (* default key *)
    XML_CHECK (xmlTextWriterWriteAttribute "default" (Some "1")).

Definition end_value : M unit :=
  XML_CHECK xmlTextWriterEndElement.

(** *** [value_byte_runs] *)

Definition value_byte_runs (h : hive_h) (value : hive_value_h) : M Z :=
  let '(errno, value_data_structure_length) :=
    hivex_value_struct_length h value in
  if negb (errno =? 0) then ret (-1)
  else
    let '(errno, (value_data_cell_offset, value_data_cell_length)) :=
      hivex_value_data_cell_offset h value in
    if negb (errno =? 0) then ret (-1)
    else
      XML_CHECK (xmlTextWriterStartElement "byte_runs") ;;
      (* Write first byte run for data structure *)
      XML_CHECK (xmlTextWriterStartElement "byte_run") ;;
      XML_CHECK (xmlTextWriterWriteAttribute "file_offset"
                   (Some (printf_d value))) ;;
      XML_CHECK (xmlTextWriterWriteAttribute "len"
                   (Some (printf_d value_data_structure_length))) ;;
      XML_CHECK xmlTextWriterEndElement ;;
      (* Write second byte run for longer values *)
      (if 4 <? value_data_cell_length then
         XML_CHECK (xmlTextWriterStartElement "byte_run") ;;
         XML_CHECK (xmlTextWriterWriteAttribute "file_offset"
                      (Some (printf_d value_data_cell_offset))) ;;
         XML_CHECK (xmlTextWriterWriteAttribute "len"
                      (Some (printf_d value_data_cell_length))) ;;
         XML_CHECK xmlTextWriterEndElement
       else ret tt) ;;
      XML_CHECK xmlTextWriterEndElement ;;
      ret 0.

(** *** The value callbacks

    Every callback has the parameters
    [(h, writer_v, node, value, t, len, key, <payload>)]. *)

Definition one_of (t : hive_type) (cases : list hive_type) : bool :=
  existsb (Z.eqb t) cases.

Definition value_string (h : hive_h) (node : hive_node_h)
  (value : hive_value_h) (t : hive_type) (len : Z) (key : string)
  (str : option string) : M Z :=
  type <-
    (if t =? hive_t_string then ret "string"
     else if t =? hive_t_expand_string then ret "expand"
     else if t =? hive_t_link then ret "link"
     else if one_of t [hive_t_none; hive_t_binary; hive_t_dword;
                       hive_t_dword_be; hive_t_multiple_strings;
                       hive_t_resource_list;
                       hive_t_full_resource_description;
                       hive_t_resource_requirements_list; hive_t_qword]
     then abort                 (* internal error - should not happen *)
     else ret "unknown") ;;
  start_value key type None ;;
  _ <- safe_print_string_attribute (Some "value") (Some "value_encoding")
         str ;;
  ret <- value_byte_runs h value ;;
  end_value ;;
  Hivexml.ret ret.

Fixpoint value_multiple_strings_loop (argv : list string) (ret : Z)
  : M Z :=
  match argv with
  | [] => Hivexml.ret ret
  | s :: argv' =>
      XML_CHECK (xmlTextWriterStartElement "string") ;;
      ret <- safe_print_string_attribute (Some "value")
               (Some "value_encoding") (Some s) ;;
      XML_CHECK xmlTextWriterEndElement ;;
      value_multiple_strings_loop argv' ret
  end.

(** [argv] is the array up to its NULL entry. *)
Definition value_multiple_strings (h : hive_h) (node : hive_node_h)
  (value : hive_value_h) (t : hive_type) (len : Z) (key : string)
  (argv : list string) : M Z :=
  start_value key "string-list" None ;;
  _ <- value_multiple_strings_loop argv 0 ;;
  ret <- value_byte_runs h value ;;
  end_value ;;
  Hivexml.ret ret.

Definition value_string_invalid_utf16 (h : hive_h) (node : hive_node_h)
  (value : hive_value_h) (t : hive_type) (len : Z) (key : string)
  (str : option string (* original data *)) : M Z :=
  type <-
    (if t =? hive_t_string then ret "bad-string"
     else if t =? hive_t_expand_string then ret "bad-expand"
     else if t =? hive_t_link then ret "bad-link"
     else if t =? hive_t_multiple_strings then ret "bad-string-list"
     else if one_of t [hive_t_none; hive_t_binary; hive_t_dword;
                       hive_t_dword_be; hive_t_resource_list;
                       hive_t_full_resource_description;
                       hive_t_resource_requirements_list; hive_t_qword]
     then abort                 (* internal error - should not happen *)
     else ret "unknown") ;;
  start_value key type (Some "base64") ;;
  XML_CHECK (xmlTextWriterStartAttribute "value") ;;
  XML_CHECK (xmlTextWriterWriteBase64 str 0 (size_t_to_int len)) ;;
  XML_CHECK xmlTextWriterEndAttribute ;;
  ret <- value_byte_runs h value ;;
  end_value ;;
  Hivexml.ret ret.

Definition value_dword (h : hive_h) (node : hive_node_h)
  (value : hive_value_h) (t : hive_type) (len : Z) (key : string)
  (v : Z) : M Z :=
  start_value key "int32" None ;;
  XML_CHECK (xmlTextWriterWriteFormatAttribute "value" (printf_i32 v)) ;;
  ret <- value_byte_runs h value ;;
  end_value ;;
  Hivexml.ret ret.

Definition value_qword (h : hive_h) (node : hive_node_h)
  (value : hive_value_h) (t : hive_type) (len : Z) (key : string)
  (v : Z) : M Z :=
  start_value key "int64" None ;;
  XML_CHECK (xmlTextWriterWriteFormatAttribute "value" (printf_i64 v)) ;;
  ret <- value_byte_runs h value ;;
  end_value ;;
  Hivexml.ret ret.

Definition value_binary (h : hive_h) (node : hive_node_h)
  (value : hive_value_h) (t : hive_type) (len : Z) (key : string)
  (v : option string) : M Z :=
  start_value key "binary" (Some "base64") ;;
  XML_CHECK (xmlTextWriterStartAttribute "value") ;;
  XML_CHECK (xmlTextWriterWriteBase64 v 0 (size_t_to_int len)) ;;
  XML_CHECK xmlTextWriterEndAttribute ;;
  ret <- value_byte_runs h value ;;
  end_value ;;
  Hivexml.ret ret.

Definition value_none (h : hive_h) (node : hive_node_h)
  (value : hive_value_h) (t : hive_type) (len : Z) (key : string)
  (v : option string) : M Z :=
  start_value key "none" (Some "base64") ;;
  ret <-
    (if 0 <? len then
       XML_CHECK (xmlTextWriterStartAttribute "value") ;;
       XML_CHECK (xmlTextWriterWriteBase64 v 0 (size_t_to_int len)) ;;
       XML_CHECK xmlTextWriterEndAttribute ;;
       value_byte_runs h value
     else ret 0) ;;
  end_value ;;
  Hivexml.ret ret.

Definition value_other (h : hive_h) (node : hive_node_h)
  (value : hive_value_h) (t : hive_type) (len : Z) (key : string)
  (v : option string) : M Z :=
  type <-
    (if one_of t [hive_t_none; hive_t_binary; hive_t_dword;
                  hive_t_dword_be; hive_t_qword; hive_t_string;
                  hive_t_expand_string; hive_t_link;
                  hive_t_multiple_strings]
     then abort                 (* internal error - should not happen *)
     else if t =? hive_t_resource_list then ret "resource-list"
     else if t =? hive_t_full_resource_description
     then ret "resource-description"
     else if t =? hive_t_resource_requirements_list
     then ret "resource-requirements"
     else ret "unknown") ;;
  start_value key type (Some "base64") ;;
  ret <-
    (if 0 <? len then
       XML_CHECK (xmlTextWriterStartAttribute "value") ;;
       XML_CHECK (xmlTextWriterWriteBase64 v 0 (size_t_to_int len)) ;;
       XML_CHECK xmlTextWriterEndAttribute ;;
       value_byte_runs h value
     else ret 0) ;;
  end_value ;;
  Hivexml.ret ret.

(** *** The visitor

    [struct hivex_visitor visitor] assigns one function to each kind of
    call the library makes during a visit. *)

(** The arguments every value callback receives. *)
Record value_args := mk_value_args {
  va_node : hive_node_h;
  va_value : hive_value_h;
  va_type : hive_type;
  va_len : Z;
  va_key : string
}.

Inductive visitor_call :=
| call_node_start (node : hive_node_h) (name : option string)
| call_node_end (node : hive_node_h) (name : option string)
| call_value_string (a : value_args) (str : option string)
| call_value_multiple_strings (a : value_args) (argv : list string)
| call_value_string_invalid_utf16 (a : value_args) (str : option string)
| call_value_dword (a : value_args) (v : Z)
| call_value_qword (a : value_args) (v : Z)
| call_value_binary (a : value_args) (v : option string)
| call_value_none (a : value_args) (v : option string)
| call_value_other (a : value_args) (v : option string).

Definition apply_value {P : Type}
  (f : hive_h -> hive_node_h -> hive_value_h -> hive_type -> Z -> string
       -> P -> M Z)
  (h : hive_h) (a : value_args) (payload : P) : M Z :=
  f h (va_node a) (va_value a) (va_type a) (va_len a) (va_key a) payload.

Definition visitor (h : hive_h) (c : visitor_call) : M Z :=
  match c with
  | call_node_start node name => node_start h node name
  | call_node_end node name => node_end h node name
  | call_value_string a str => apply_value value_string h a str
  | call_value_multiple_strings a argv =>
      apply_value value_multiple_strings h a argv
  | call_value_string_invalid_utf16 a str =>
      apply_value value_string_invalid_utf16 h a str
  | call_value_dword a v => apply_value value_dword h a v
  | call_value_qword a v => apply_value value_qword h a v
  | call_value_binary a v => apply_value value_binary h a v
  | call_value_none a v => apply_value value_none h a v
  | call_value_other a v => apply_value value_other h a v
  end.

(** Modelled from the spec: [hivex_visit] belongs to the hive-parsing
    library. It walks the tree depth-first and makes one call per node
    entered, value observed and node left; here the walk is the sequence
    of calls it makes. The first callback that returns -1 ends the visit
    with -1. *)
Fixpoint hivex_visit (h : hive_h) (calls : list visitor_call) : M Z :=
  match calls with
  | [] => ret 0
  | c :: calls' =>
      r <- visitor h c ;;
      if r =? -1 then ret (-1) else hivex_visit h calls'
  end.

(** *** [main]

    From the point where the hive [h] is open and the writer has been
    created; option parsing and [hivex_open] come before. [calls] is the
    walk [hivex_visit] makes of [h]. The result is the exit status. *)
Definition EXIT_SUCCESS : Z := 0.

Definition main (h : hive_h) (calls : list visitor_call) : M Z :=
  XML_CHECK xmlTextWriterStartDocument ;;
  XML_CHECK (xmlTextWriterStartElement "hive") ;;
  let hive_mtime := hivex_last_modified h in
  (if 0 <=? hive_mtime then
     timebuf <- filetime_to_8601 hive_mtime ;;
     match timebuf with
     | Some _ =>
         XML_CHECK (xmlTextWriterStartElement "mtime") ;;
         XML_CHECK (xmlTextWriterWriteString timebuf) ;;
         XML_CHECK xmlTextWriterEndElement
     | None => ret tt
     end
   else ret tt) ;;
  r <- hivex_visit h calls ;;
  if r =? -1 then exit_failure
  else if hivex_close h =? -1 then exit_failure
  else
    XML_CHECK xmlTextWriterEndElement ;;
    XML_CHECK xmlTextWriterEndDocument ;;
    ret EXIT_SUCCESS.

Definition initial_world : world :=
  {| writer := xmlNewTextWriter; filetime_calls := [] |}.

End Hivexml.

(* ================================================================== *)
(** ** Vocabulary of the properties *)
(* ================================================================== *)

Import LibC Xml Hivex Hivexml.

(** *** Timestamps *)

Definition INT64_MIN : Z := - 2 ^ 63.
Definition INT64_MAX : Z := 2 ^ 63 - 1.

Definition is_digit (c : ascii) : bool :=
  let n := Z.of_N (N_of_ascii c) in (48 <=? n) && (n <=? 57).

Definition digit_value (c : ascii) : Z := Z.of_N (N_of_ascii c) - 48.

Definition number_of (cs : list ascii) : Z :=
  fold_left (fun acc c => 10 * acc + digit_value c) cs 0.

(** The fields of a string of the form
    [^\d{4}-\d{2}-\d{2}T\d{2}:\d{2}:\d{2}Z$]: year, month, day, hour, minute
    and second. Any other string has none. *)
Definition iso8601_fields (s : string) : option (Z * Z * Z * Z * Z * Z) :=
  match list_ascii_of_string s with
  | [y1; y2; y3; y4; p1; m1; m2; p2; d1; d2; p3;
     h1; h2; p4; n1; n2; p5; s1; s2; p6] =>
      if forallb is_digit [y1; y2; y3; y4; m1; m2; d1; d2;
                           h1; h2; n1; n2; s1; s2]
         && Ascii.eqb p1 "-" && Ascii.eqb p2 "-" && Ascii.eqb p3 "T"
         && Ascii.eqb p4 ":" && Ascii.eqb p5 ":" && Ascii.eqb p6 "Z"
      then Some (number_of [y1; y2; y3; y4], number_of [m1; m2],
                 number_of [d1; d2], number_of [h1; h2],
                 number_of [n1; n2], number_of [s1; s2])
      else None
  | _ => None
  end.

Definition iso8601_strict (s : string) : bool :=
  match iso8601_fields s with
  | Some _ => true
  | None => false
  end.

(** The Unix-epoch second a strict string names. *)
Definition iso8601_instant (s : string) : option Z :=
  match iso8601_fields s with
  | Some (y, m, d, hh, mm, ss) =>
      Some (days_from_civil y m d * 86400 + hh * 3600 + mm * 60 + ss)
  | None => None
  end.

(** The reference formula of the converter, with C's division. *)
Definition unix_second_of_ticks (t : Z) : Z :=
  Z.quot t 10000000 - 11644473600.

(** What [filetime_to_8601] returns when it returns. *)
Definition timestamp_string (ticks : Z) : option string :=
  if ticks =? 0 then None
  else
    match gmtime (Z.quot ticks WINDOWS_TICK - SEC_TO_UNIX_EPOCH) with
    | None => None
    | Some b => Some (snd (strftime TIMESTAMP_BUF_LEN "%FT%TZ" b))
    end.

Definition two_digits (n : Z) : Prop := 0 <= n <= 99.

(** The world once [filetime_to_8601] has been entered with [ticks]. *)
Definition logged (ticks : Z) (w : world) : world :=
  {| writer := writer w; filetime_calls := filetime_calls w ++ [ticks] |}.

(** *** Strings *)

(** Every byte before the terminator is printable. *)
Definition all_printable (data : string) : Prop :=
  forall i, (i < strlen data)%nat ->
            isprint (char_to_int (char_at data i)) = true.

Definition some_unprintable (data : string) : Prop :=
  exists i, (i < strlen data)%nat
            /\ isprint (char_to_int (char_at data i)) = false.

(** *** What the callbacks write

    The attributes and children of the elements, as functions of the
    arguments of the callbacks; the lemmas below show that the callbacks
    write exactly these. *)

Definition base64_of (data : string) (len : Z) : content :=
  Base64 (substring 0 (Z.to_nat len) data).

(** Written by [safe_print_string_attribute]. *)
Definition string_attribute (name enc : string) (data : option string)
  : list attribute :=
  match data with
  | None => []
  | Some d =>
      if String.eqb (encoding_recommendation d) "none"
      then [(name, [Chars (c_string d)])]
      else [(enc, [Chars "base64"]);
            (name, [base64_of d (size_t_to_int (Z.of_nat (strlen d)))])]
  end.

Definition key_attribute (key : string) : list attribute :=
  if Ascii.eqb (char_at key 0) NUL
  then [("default", [Chars "1"])]
  else string_attribute "key" "key_encoding" (Some key).

(** Written by [start_value]. *)
Definition start_value_attributes (key type : string)
  (encoding : option string) : list attribute :=
  ("type", [Chars (c_string type)])
  :: match encoding with
     | Some e => [("value_encoding", [Chars (c_string e)])]
     | None => []
     end
  ++ key_attribute key.

Definition byte_run (offset len : Z) : node :=
  Element "byte_run"
    [("file_offset", [Chars (c_string (printf_d offset))]);
     ("len", [Chars (c_string (printf_d len))])] [].

(** Written by [value_byte_runs]: nothing when a query of the library
    fails. *)
Definition value_byte_runs_nodes (h : hive_h) (value : hive_value_h)
  : list node :=
  let '(errno1, struct_length) := hivex_value_struct_length h value in
  let '(errno2, (cell_offset, cell_length)) :=
    hivex_value_data_cell_offset h value in
  if negb (errno1 =? 0) || negb (errno2 =? 0) then []
  else [Element "byte_runs" []
          (byte_run value struct_length
           :: if 4 <? cell_length then [byte_run cell_offset cell_length]
              else [])].

Definition node_byte_runs_nodes (h : hive_h) (node : hive_node_h)
  : list Xml.node :=
  let '(errno, struct_length) := hivex_node_struct_length h node in
  if negb (errno =? 0) then []
  else [Element "byte_runs" [] [byte_run node struct_length]].

(** The [value] attribute written as base64. *)
Definition base64_value (d : string) (len : Z) : list attribute :=
  [("value", [base64_of d (size_t_to_int len)])].

(** The type tags the three checking callbacks choose; [None] stands for
    [abort ()]. *)
Definition value_string_type (t : hive_type) : option string :=
  if t =? hive_t_string then Some "string"
  else if t =? hive_t_expand_string then Some "expand"
  else if t =? hive_t_link then Some "link"
  else if one_of t [hive_t_none; hive_t_binary; hive_t_dword;
                    hive_t_dword_be; hive_t_multiple_strings;
                    hive_t_resource_list; hive_t_full_resource_description;
                    hive_t_resource_requirements_list; hive_t_qword]
  then None
  else Some "unknown".

Definition value_string_invalid_utf16_type (t : hive_type)
  : option string :=
  if t =? hive_t_string then Some "bad-string"
  else if t =? hive_t_expand_string then Some "bad-expand"
  else if t =? hive_t_link then Some "bad-link"
  else if t =? hive_t_multiple_strings then Some "bad-string-list"
  else if one_of t [hive_t_none; hive_t_binary; hive_t_dword;
                    hive_t_dword_be; hive_t_resource_list;
                    hive_t_full_resource_description;
                    hive_t_resource_requirements_list; hive_t_qword]
  then None
  else Some "unknown".

Definition value_other_type (t : hive_type) : option string :=
  if one_of t [hive_t_none; hive_t_binary; hive_t_dword; hive_t_dword_be;
               hive_t_qword; hive_t_string; hive_t_expand_string;
               hive_t_link; hive_t_multiple_strings]
  then None
  else if t =? hive_t_resource_list then Some "resource-list"
  else if t =? hive_t_full_resource_description
  then Some "resource-description"
  else if t =? hive_t_resource_requirements_list
  then Some "resource-requirements"
  else Some "unknown".

Definition string_element (s : string) : node :=
  Element "string" (string_attribute "value" "value_encoding" (Some s)) [].

(** An element with a base64 [value] attribute at the end of its
    attributes: written when the data pointer [v] is not NULL (whoever
    writes it with a NULL pointer does not return). *)
Definition value_element_base64 (attrs : list attribute)
  (v : option string) (len : Z) (children : list node) : option node :=
  match v with
  | Some d => Some (Element "value" (attrs ++ base64_value d len) children)
  | None => None
  end.

(** The element of [value_none] and [value_other], which write the
    [value] attribute and the byte runs, or neither. *)
Definition value_element_optional (h : hive_h) (value : hive_value_h)
  (attrs : list attribute) (v : option string) (len : Z) : option node :=
  if 0 <? len
  then value_element_base64 attrs v len (value_byte_runs_nodes h value)
  else Some (Element "value" attrs []).

(** The [value] element a value callback writes when it returns. *)
Definition value_element (h : hive_h) (c : visitor_call) : option node :=
  match c with
  | call_node_start _ _ | call_node_end _ _ => None
  | call_value_string a str =>
      match value_string_type (va_type a) with
      | None => None
      | Some type =>
          Some (Element "value"
                  (start_value_attributes (va_key a) type None
                   ++ string_attribute "value" "value_encoding" str)
                  (value_byte_runs_nodes h (va_value a)))
      end
  | call_value_multiple_strings a argv =>
      Some (Element "value"
              (start_value_attributes (va_key a) "string-list" None)
              (map string_element argv
               ++ value_byte_runs_nodes h (va_value a)))
  | call_value_string_invalid_utf16 a str =>
      match value_string_invalid_utf16_type (va_type a) with
      | None => None
      | Some type =>
          value_element_base64
            (start_value_attributes (va_key a) type (Some "base64"))
            str (va_len a) (value_byte_runs_nodes h (va_value a))
      end
  | call_value_dword a v =>
      Some (Element "value"
              (start_value_attributes (va_key a) "int32" None
               ++ [("value", [Chars (c_string (printf_i32 v))])])
              (value_byte_runs_nodes h (va_value a)))
  | call_value_qword a v =>
      Some (Element "value"
              (start_value_attributes (va_key a) "int64" None
               ++ [("value", [Chars (c_string (printf_i64 v))])])
              (value_byte_runs_nodes h (va_value a)))
  | call_value_binary a v =>
      value_element_base64
        (start_value_attributes (va_key a) "binary" (Some "base64"))
        v (va_len a) (value_byte_runs_nodes h (va_value a))
  | call_value_none a v =>
      value_element_optional h (va_value a)
        (start_value_attributes (va_key a) "none" (Some "base64"))
        v (va_len a)
  | call_value_other a v =>
      match value_other_type (va_type a) with
      | None => None
      | Some type =>
          value_element_optional h (va_value a)
            (start_value_attributes (va_key a) type (Some "base64"))
            v (va_len a)
      end
  end.

Definition value_call_args (c : visitor_call) : option value_args :=
  match c with
  | call_node_start _ _ | call_node_end _ _ => None
  | call_value_string a _ | call_value_multiple_strings a _
  | call_value_string_invalid_utf16 a _ | call_value_dword a _
  | call_value_qword a _ | call_value_binary a _ | call_value_none a _
  | call_value_other a _ => Some a
  end.

(** The writer once a finished element has been added: the start tag of
    the enclosing element is closed first. *)
Definition closed (w : xmlTextWriter) : xmlTextWriter :=
  {| nodes := close_start_tag (nodes w); document := document w |}.

Definition after_element (e : node) (w : world) : world :=
  {| writer := emit e (closed (writer w));
     filetime_calls := filetime_calls w |}.

(** The [node] element [node_start] opens. *)
Definition node_attributes (h : hive_h) (node : hive_node_h)
  (name : option string) : list attribute :=
  string_attribute "name" "name_encoding" name
  ++ (if node =? hivex_root h then [("root", [Chars "1"])] else []).

Definition mtime_nodes (ticks : Z) : list node :=
  if 0 <=? ticks then
    match timestamp_string ticks with
    | Some s => [Element "mtime" [] [Text (Chars (c_string s))]]
    | None => []
    end
  else [].

Definition node_children (h : hive_h) (node : hive_node_h)
  : list Xml.node :=
  mtime_nodes (hivex_node_timestamp h node) ++ node_byte_runs_nodes h node.

Definition state_after (children : list node) : state :=
  match children with
  | [] => XML_TEXTWRITER_NAME
  | _ :: _ => XML_TEXTWRITER_TEXT
  end.

Definition after_node_start (h : hive_h) (node : hive_node_h)
  (name : option string) (w : world) : world :=
  {| writer :=
       {| nodes :=
            {| e_name := "node";
               e_attrs := node_attributes h node name;
               e_children := node_children h node;
               e_state := state_after (node_children h node) |}
            :: close_start_tag (nodes (writer w));
          document := document (writer w) |};
     filetime_calls :=
       filetime_calls w
       ++ (if 0 <=? hivex_node_timestamp h node
           then [hivex_node_timestamp h node] else []) |}.

(** The world an outcome ends in. *)
Definition final_world {A} (o : outcome A) : world :=
  match o with
  | Done _ w | Exit_failure w | Abort w => w
  end.

(** *** Example inputs *)

(** A hive whose root node is at offset 4128; the node at 4400 has no
    readable timestamp; the value at 5000 is stored inline, every other
    value has a data cell of 24 bytes at offset 6000. *)
Definition example_hive : hive_h :=
  {| hivex_root := 4128;
     hivex_last_modified := 116444736000000000;
     hivex_node_timestamp :=
       fun node => if node =? 4128 then 129782121007374460 else -1;
     hivex_node_struct_length := fun _ => (0, 88);
     hivex_value_struct_length := fun _ => (0, 32);
     hivex_value_data_cell_offset :=
       fun value => if value =? 5000 then (0, (0, 0)) else (0, (6000, 24));
     hivex_close := 0 |}.

(** The same hive with a header timestamp that cannot be read. *)
Definition example_hive_no_mtime : hive_h :=
  {| hivex_root := 4128;
     hivex_last_modified := -1;
     hivex_node_timestamp := hivex_node_timestamp example_hive;
     hivex_node_struct_length := hivex_node_struct_length example_hive;
     hivex_value_struct_length := hivex_value_struct_length example_hive;
     hivex_value_data_cell_offset :=
       hivex_value_data_cell_offset example_hive;
     hivex_close := 0 |}.

Definition example_args (value : hive_value_h) (t : hive_type) (len : Z)
  (key : string) : value_args :=
  {| va_node := 4128; va_value := value; va_type := t; va_len := len;
     va_key := key |}.

Definition example_walk : list visitor_call :=
  [call_node_start 4128 (Some "ROOT");
   call_value_dword (example_args 5000 hive_t_dword 4 "Foo") (-1);
   call_value_string (example_args 5001 hive_t_string 22 "")
     (Some "C:\Windows");
   call_node_start 4400 (Some "Child");
   call_value_none (example_args 5000 hive_t_none 0 "Empty") None;
   call_node_end 4400 (Some "Child");
   call_node_end 4128 (Some "ROOT")].

(** A string value under the default key, and a value of type none with
    no data. *)
Definition example_default_value : visitor_call :=
  call_value_string (example_args 5001 hive_t_string 22 "")
    (Some "C:\Windows").

Definition example_empty_value : visitor_call :=
  call_value_none (example_args 5000 hive_t_none 0 "Empty") None.


(** Calls with a type tag the callback is not meant for. *)
Definition example_dword_with_string_type : visitor_call :=
  call_value_dword (example_args 5000 hive_t_string 4 "Foo") 7.

Definition example_string_with_dword_type : visitor_call :=
  call_value_string (example_args 5001 hive_t_dword 4 "Foo") (Some "x").

(** C1 as the claim states it, for an element [e] written for a value
    of payload length [len]: one [byte_runs] child, with two [byte_run]
    children when [len] exceeds 4 and one otherwise. *)
Definition byte_runs_by_payload_length (e : node) (len : Z) : bool :=
  match e with
  | Element _ _ children =>
      match children_named "byte_runs" children with
      | [Element _ _ runs] =>
          Nat.eqb (List.length (children_named "byte_run" runs))
            (if 4 <? len then 2%nat else 1%nat)
      | _ => false
      end
  | Text _ => false
  end.

(** No attribute is open. *)
Definition plain (s : state) : Prop :=
  match s with
  | XML_TEXTWRITER_ATTRIBUTE _ _ => False
  | _ => True
  end.

(** *** Reading attributes *)

(** The attribute [name] is present and was written as base64. *)
Definition base64_content (name : string) (attrs : list attribute) : bool :=
  match lookup name attrs with
  | Some v => is_base64 v
  | None => false
  end.

(** The encoding attribute [enc] is present exactly when the content
    attribute [name] is present and base64. *)
Definition encoding_exact (name enc : string) (attrs : list attribute)
  : bool :=
  Bool.eqb (has_attr enc attrs) (base64_content name attrs).

(** An encoding attribute that is present says "base64". *)
Definition encoding_says_base64 (enc : string) (attrs : list attribute)
  : bool :=
  match lookup enc attrs with
  | Some v =>
      match v with
      | [Chars s] => String.eqb s "base64"
      | _ => false
      end
  | None => true
  end.

(** The encoding attributes of an element agree with its content
    attributes; with [lone_value_encoding], [value_encoding] may also
    stand without a [value] attribute. *)
Definition encoding_attributes_ok (lone_value_encoding : bool) (n : node)
  : bool :=
  match n with
  | Element _ attrs _ =>
      encoding_exact "name" "name_encoding" attrs
      && encoding_exact "key" "key_encoding" attrs
      && Bool.eqb (has_attr "value_encoding" attrs)
           (base64_content "value" attrs
            || (lone_value_encoding && negb (has_attr "value" attrs)))
      && encoding_says_base64 "name_encoding" attrs
      && encoding_says_base64 "key_encoding" attrs
      && encoding_says_base64 "value_encoding" attrs
  | Text _ => true
  end.

(** An element and the elements inside it. *)
Fixpoint elements (n : node) : list node :=
  match n with
  | Element _ _ children => n :: flat_map elements children
  | Text _ => []
  end.

(** The encoding attributes of an element agree with its content
    attributes, a lone [value_encoding] being let through. *)
Definition encoding_consistent (n : node) : bool :=
  encoding_attributes_ok false n || encoding_attributes_ok true n.

(** A writer in which every element, finished or open, has consistent
    encoding attributes, and in which no attribute is left open. *)
Definition good_node (n : node) : Prop :=
  Forall (fun x => encoding_consistent x = true) (elements n).

Definition good_entry (e : stack_entry) : Prop :=
  plain (e_state e)
  /\ encoding_consistent (Element (e_name e) (e_attrs e) []) = true
  /\ Forall good_node (e_children e).

Definition good_writer (w : xmlTextWriter) : Prop :=
  Forall good_entry (nodes w) /\ Forall good_node (document w).

(** [value_none] and [value_other] called with an empty payload. *)
Definition empty_none_or_other (c : visitor_call) : bool :=
  match c with
  | call_value_none a _ | call_value_other a _ => negb (0 <? va_len a)
  | _ => false
  end.

(** A query [value_byte_runs] makes of the library fails. *)
Definition byte_run_queries_fail (h : hive_h) (value : hive_value_h)
  : bool :=
  negb (fst (hivex_value_struct_length h value) =? 0)
  || negb (fst (hivex_value_data_cell_offset h value) =? 0).

(** The byte runs of a [value] element are left out. *)
Definition byte_runs_omitted (h : hive_h) (c : visitor_call)
  (value : hive_value_h) : bool :=
  empty_none_or_other c || byte_run_queries_fail h value.

(** The length the library reports for the data cell of a value. *)
Definition data_cell_length (h : hive_h) (value : hive_value_h) : Z :=
  snd (snd (hivex_value_data_cell_offset h value)).

(** The attributes a value callback writes after those of
    [start_value], given the encoding it announced there; [lone] tells
    that it is [value_none] or [value_other] with an empty payload. *)
Definition value_rest_shape (lone : bool) (encoding : option string)
  (rest : list attribute) : Prop :=
  (rest = [] /\ encoding = None /\ lone = false)
  \/ (rest = [] /\ encoding = Some "base64" /\ lone = true)
  \/ (exists s, rest = [("value", [Chars s])]
                /\ encoding = None /\ lone = false)
  \/ (exists b, rest = [("value", [Base64 b])]
                /\ encoding = Some "base64" /\ lone = false)
  \/ (exists b, rest = [("value_encoding", [Chars "base64"]);
                        ("value", [Base64 b])]
                /\ encoding = None /\ lone = false).

(** *** Type tags *)

Definition known_type (t : hive_type) : bool := (0 <=? t) && (t <=? 11).

(** The callbacks that look at the type tag. *)
Definition checks_type (c : visitor_call) : bool :=
  match c with
  | call_value_string _ _ | call_value_string_invalid_utf16 _ _
  | call_value_other _ _ => true
  | _ => false
  end.

(** The types the library documents for each value callback ([hivex.h]):
    strings for [value_string], string lists for
    [value_multiple_strings], both for [value_string_invalid_utf16], the
    two 32-bit integers for [value_dword], and so on; [value_other] takes
    what no other callback takes. *)
Definition expected_type (c : visitor_call) : bool :=
  match c with
  | call_node_start _ _ | call_node_end _ _ => true
  | call_value_string a _ =>
      one_of (va_type a) [hive_t_string; hive_t_expand_string; hive_t_link]
  | call_value_multiple_strings a _ =>
      one_of (va_type a) [hive_t_multiple_strings]
  | call_value_string_invalid_utf16 a _ =>
      one_of (va_type a) [hive_t_string; hive_t_expand_string; hive_t_link;
                          hive_t_multiple_strings]
  | call_value_dword a _ =>
      one_of (va_type a) [hive_t_dword; hive_t_dword_be]
  | call_value_qword a _ => one_of (va_type a) [hive_t_qword]
  | call_value_binary a _ => one_of (va_type a) [hive_t_binary]
  | call_value_none a _ => one_of (va_type a) [hive_t_none]
  | call_value_other a _ =>
      negb (one_of (va_type a)
              [hive_t_none; hive_t_string; hive_t_expand_string;
               hive_t_binary; hive_t_dword; hive_t_dword_be; hive_t_link;
               hive_t_multiple_strings; hive_t_qword])
  end.

(** The name of a text type, which "bad-" is put in front of. *)
Definition text_type_name (t : hive_type) : option string :=
  if t =? hive_t_string then Some "string"
  else if t =? hive_t_expand_string then Some "expand"
  else if t =? hive_t_link then Some "link"
  else if t =? hive_t_multiple_strings then Some "string-list"
  else None.

(** *** Effects that do not happen *)

Definition never_aborts {A} (m : M A) : Prop :=
  forall w w', m w <> Abort w'.

(** Whatever the outcome, the calls of [filetime_to_8601] made during [m]
    had tick counts that are not negative. *)
Definition converts_nonnegative {A} (m : M A) : Prop :=
  forall w, exists l,
    filetime_calls (final_world (m w)) = filetime_calls w ++ l
    /\ Forall (fun ticks => 0 <= ticks) l.

(** [main] after the hive-level [mtime] has been dealt with. *)
Definition main_after_mtime (h : hive_h) (calls : list visitor_call)
  : M Z :=
  r <- hivex_visit h calls ;;
  if r =? -1 then exit_failure
  else if hivex_close h =? -1 then exit_failure
  else
    XML_CHECK xmlTextWriterEndElement ;;
    XML_CHECK xmlTextWriterEndDocument ;;
    ret EXIT_SUCCESS.

(** A string whose length can be passed as an [int]. *)
Definition fits_int (s : string) : Prop := Z.of_nat (strlen s) <= INT_MAX.

(** A payload that [xmlTextWriterWriteBase64] accepts. *)
Definition payload_ready (v : option string) (len : Z) : Prop :=
  v <> None /\ 0 <= len <= INT_MAX.

(** What a callback needs in order to return: a type tag its [switch]
    lets through, pointers that are not NULL where the writer needs
    them, lengths that fit an [int], a timestamp that is a 64-bit
    number, and, for [node_end], an element to end. *)
Definition call_ready (h : hive_h) (c : visitor_call) (w : world) : Prop :=
  match c with
  | call_node_start node name =>
      (forall s, name = Some s -> fits_int s)
      /\ hivex_node_timestamp h node <= INT64_MAX
  | call_node_end _ _ => nodes (writer w) <> []
  | call_value_string a str =>
      value_string_type (va_type a) <> None
      /\ fits_int (va_key a)
      /\ (forall s, str = Some s -> fits_int s)
  | call_value_multiple_strings a argv =>
      fits_int (va_key a) /\ Forall fits_int argv
  | call_value_string_invalid_utf16 a str =>
      value_string_invalid_utf16_type (va_type a) <> None
      /\ fits_int (va_key a)
      /\ payload_ready str (va_len a)
  | call_value_dword a _ | call_value_qword a _ => fits_int (va_key a)
  | call_value_binary a v =>
      fits_int (va_key a) /\ payload_ready v (va_len a)
  | call_value_none a v =>
      fits_int (va_key a) /\ (0 < va_len a -> payload_ready v (va_len a))
  | call_value_other a v =>
      value_other_type (va_type a) <> None
      /\ fits_int (va_key a)
      /\ (0 < va_len a -> payload_ready v (va_len a))
  end.


(** *** Decimal numerals *)

(** The number a string of decimal digits denotes when read after the
    digits that gave [acc]; no number when a byte is not a digit. *)
Fixpoint read_digits (s : string) (acc : Z) : option Z :=
  match s with
  | EmptyString => Some acc
  | String c rest =>
      if is_digit c then read_digits rest (10 * acc + digit_value c)
      else None
  end.

(** The number a decimal numeral denotes: digits, with a minus sign in
    front of them or without. *)
Definition read_decimal (s : string) : option Z :=
  match s with
  | EmptyString => None
  | String c rest =>
      if Ascii.eqb c "-" then
        match rest with
        | EmptyString => None
        | String _ _ => option_map Z.opp (read_digits rest 0)
        end
      else read_digits s 0
  end.

(** A buffer that holds no NUL byte: the C string at its start is the
    whole buffer. *)
Definition no_NUL (s : string) : Prop := strlen s = String.length s.

(** *** Return values *)

(** Every run of [m] that returns, returns [v]. *)
Definition returns_only (m : M Z) (v : Z) : Prop :=
  forall w r w', m w = Done r w' -> r = v.

(** The length query [node_byte_runs] makes of the library succeeds. *)
Definition node_query_ok (h : hive_h) (node : hive_node_h) : bool :=
  fst (hivex_node_struct_length h node) =? 0.

(** What a callback hands back to the library: -1 when a query made for
    its byte runs fails, 0 in every other case. *)
Definition callback_result (h : hive_h) (c : visitor_call) : Z :=
  match c with
  | call_node_start node _ => if node_query_ok h node then 0 else -1
  | call_node_end _ _ => 0
  | call_value_string a _ | call_value_multiple_strings a _
  | call_value_string_invalid_utf16 a _ | call_value_dword a _
  | call_value_qword a _ | call_value_binary a _ | call_value_none a _
  | call_value_other a _ =>
      if empty_none_or_other c then 0
      else if byte_run_queries_fail h (va_value a) then -1 else 0
  end.

(** *** Attributes of one element *)

Definition attribute_names (attrs : list attribute) : list string :=
  map fst attrs.

(** The element of a string: its bytes up to the NUL, as characters or
    as base64. *)
Definition carries (s : string) (x : node) : Prop :=
  x = Element "string" [("value", [Chars (c_string s)])] []
  \/ x = Element "string"
           [("value_encoding", [Chars "base64"]);
            ("value", [Base64 (c_string s)])] [].

(** *** Properties of every element *)

(** [P] holds of the name and the attributes of an element and of every
    element inside it. *)
Definition every_element (P : string -> list attribute -> Prop) (n : node)
  : Prop :=
  Forall (fun x => match x with
                   | Element name attrs _ => P name attrs
                   | Text _ => True
                   end) (elements n).

(** The same of an element that is still open, in which no attribute is
    left open, and of a writer. *)
Definition every_entry (P : string -> list attribute -> Prop)
  (e : stack_entry) : Prop :=
  plain (e_state e)
  /\ P (e_name e) (e_attrs e)
  /\ Forall (every_element P) (e_children e).

Definition every_written (P : string -> list attribute -> Prop)
  (w : xmlTextWriter) : Prop :=
  Forall (every_entry P) (nodes w) /\ Forall (every_element P) (document w).

(** No two attributes of the element have the same name. *)
Definition distinct_attributes (name : string) (attrs : list attribute)
  : Prop :=
  NoDup (attribute_names attrs).

(** The names of the elements the program writes, each with the names
    of the attributes it may have. *)
Definition vocabulary : list (string * list string) :=
  [("hive", []);
   ("mtime", []);
   ("node", ["name"; "name_encoding"; "root"]);
   ("byte_runs", []);
   ("byte_run", ["file_offset"; "len"]);
   ("value", ["type"; "value_encoding"; "key"; "key_encoding"; "default";
              "value"]);
   ("string", ["value"; "value_encoding"])].

Definition in_vocabulary (name : string) (attrs : list attribute) : Prop :=
  exists allowed,
    In (name, allowed) vocabulary /\ incl (attribute_names attrs) allowed.

(** The orders in which a [value] element can have its attributes:
    the type, the encoding when [start_value] is given one, the key (as
    the default key, as characters or as base64), and the value (left
    out, as it is, or as base64 with its encoding in front when the
    encoding was not given before). *)
Definition value_attribute_orders : list (list string) :=
  flat_map
    (fun around : list string * list string =>
       map (fun key => "type" :: fst around ++ key ++ snd around)
         [["default"]; ["key"]; ["key_encoding"; "key"]])
    [([], []); ([], ["value"]); ([], ["value_encoding"; "value"]);
     (["value_encoding"], []); (["value_encoding"], ["value"])].

(** *** A walk of a tree *)

(** Modelled from the spec: a node of the registry tree as the library
    walks it: the node with its name, the calls the library makes for
    the values the node owns (one callback per value), and the nodes
    below it. *)
#[warnings="-register-all"]
Inductive hive_tree :=
| Key (node : hive_node_h) (name : option string)
      (values : list visitor_call) (subkeys : list hive_tree).

(** Modelled from the spec: the depth-first walk of [hivex_visit]: the
    node is entered, its values are handed over, the nodes below it are
    walked, and the node is left. *)
Fixpoint walk (t : hive_tree) : list visitor_call :=
  match t with
  | Key node name values subkeys =>
      call_node_start node name
      :: values ++ flat_map walk subkeys ++ [call_node_end node name]
  end.

(** The [value] elements of a list of value calls. *)
Definition value_elements (h : hive_h) (values : list visitor_call)
  : list node :=
  flat_map (fun c => match value_element h c with
                     | Some e => [e]
                     | None => []
                     end) values.

(** The [node] element of a tree: what [node_start] writes, then the
    values, then the nodes below. *)
Fixpoint tree_element (h : hive_h) (t : hive_tree) : node :=
  match t with
  | Key node name values subkeys =>
      Element "node" (node_attributes h node name)
        (node_children h node ++ value_elements h values
         ++ map (tree_element h) subkeys)
  end.

(** The tick counts handed to [filetime_to_8601] during the walk. *)
Fixpoint tree_ticks (h : hive_h) (t : hive_tree) : list Z :=
  match t with
  | Key node name values subkeys =>
      (if 0 <=? hivex_node_timestamp h node
       then [hivex_node_timestamp h node] else [])
      ++ flat_map (tree_ticks h) subkeys
  end.

(** A call for a value that returns 0. *)
Definition value_ready (h : hive_h) (c : visitor_call) : Prop :=
  value_call_args c <> None
  /\ call_ready h c initial_world
  /\ callback_result h c = 0.

(** A tree every callback returns 0 for. *)
#[warnings="-register-all"]
Inductive tree_ready (h : hive_h) : hive_tree -> Prop :=
| ready_key node name values subkeys :
    call_ready h (call_node_start node name) initial_world ->
    node_query_ok h node = true ->
    Forall (value_ready h) values ->
    Forall (tree_ready h) subkeys ->
    tree_ready h (Key node name values subkeys).

(** The world once the walk of a tree has been made: its element has
    been added, and the timestamps of its nodes have been converted. *)
Definition after_tree (h : hive_h) (t : hive_tree) (w : world) : world :=
  {| writer := emit (tree_element h t) (closed (writer w));
     filetime_calls := filetime_calls w ++ tree_ticks h t |}.

(** The example walk as a tree. *)
Definition example_tree : hive_tree :=
  Key 4128 (Some "ROOT")
    [call_value_dword (example_args 5000 hive_t_dword 4 "Foo") (-1);
     call_value_string (example_args 5001 hive_t_string 22 "")
       (Some "C:\Windows")]
    [Key 4400 (Some "Child")
       [call_value_none (example_args 5000 hive_t_none 0 "Empty") None]
       []].

(** A hive whose length queries fail for the value at 5001 and the node
    at 4400. *)
Definition example_hive_failing : hive_h :=
  {| hivex_root := 4128;
     hivex_last_modified := 0;
     hivex_node_timestamp := fun _ => 0;
     hivex_node_struct_length :=
       fun node => if node =? 4400 then (5, 0) else (0, 88);
     hivex_value_struct_length :=
       fun value => if value =? 5001 then (5, 0) else (0, 32);
     hivex_value_data_cell_offset := fun _ => (0, (6000, 24));
     hivex_close := 0 |}.


(* ================================================================== *)
(** ** Facts about the C library model *)
(* ================================================================== *)

Ltac digit_bounds := Z.div_mod_to_equations; lia.

(** *** Calendar *)

Lemma year_of_era_bounds doe :
  0 <= doe < 146097 ->
  let yoe := (doe - doe / 1460 + doe / 36524 - doe / 146096) / 365 in
  0 <= yoe <= 399 /\ 0 <= doe - (365 * yoe + yoe / 4 - yoe / 100) <= 365.
Proof.
  intros H yoe. subst yoe. Z.div_mod_to_equations. lia.
Qed.

(** [civil_from_days] yields a date of the calendar, and
    [days_from_civil] takes it back to the day number. *)
Lemma civil_from_days_inverse z :
  let '(y, m, d) := civil_from_days z in
  days_from_civil y m d = z /\ 1 <= m <= 12 /\ 1 <= d <= 31.
Proof.
  unfold civil_from_days, days_from_civil.
  set (z' := z + 719468).
  assert (Hdoe : 0 <= z' mod 146097 < 146097)
    by (apply Z.mod_pos_bound; lia).
  pose proof (Z.div_mod z' 146097 ltac:(lia)) as Hz.
  set (era := z' / 146097) in *. set (doe := z' mod 146097) in *.
  clearbody era doe.
  pose proof (year_of_era_bounds doe Hdoe) as Hy. cbv zeta in Hy.
  set (yoe := (doe - doe / 1460 + doe / 36524 - doe / 146096) / 365) in *.
  clearbody yoe.
  set (doy := doe - (365 * yoe + yoe / 4 - yoe / 100)) in *.
  set (mp := (5 * doy + 2) / 153).
  assert (Hmp : 0 <= mp <= 11) by (subst mp; Z.div_mod_to_equations; lia).
  assert (Hd : 1 <= doy - (153 * mp + 2) / 5 + 1 <= 31)
    by (subst mp; clearbody doy; Z.div_mod_to_equations; lia).
  clearbody mp.
  set (m := if mp <? 10 then mp + 3 else mp - 9).
  assert (Hm : 1 <= m <= 12 /\ (m <= 2 <-> 10 <= mp)
               /\ (if 2 <? m then m - 3 else m + 9) = mp).
  { subst m. destruct (Z.ltb_spec mp 10).
    - destruct (Z.ltb_spec 2 (mp + 3)); lia.
    - destruct (Z.ltb_spec 2 (mp - 9)); lia. }
  clearbody m. destruct Hm as (Hm & Hm2 & ->).
  split; [| split; assumption].
  assert (Hy' : (if m <=? 2
                 then yoe + era * 400 + (if m <=? 2 then 1 else 0) - 1
                 else yoe + era * 400 + (if m <=? 2 then 1 else 0))
                = yoe + era * 400)
    by (destruct (Z.leb_spec m 2); lia).
  rewrite Hy'.
  replace ((yoe + era * 400) / 400) with era
    by (apply Z.div_unique with yoe; lia).
  replace ((yoe + era * 400) mod 400) with yoe
    by (apply Z.mod_unique with era; lia).
  subst doy z'. lia.
Qed.

(** The year of a day number, within bounds that depend on the day. *)
Lemma civil_from_days_year z lo hi :
  days_from_civil lo 1 1 <= z < days_from_civil (hi + 1) 1 1 ->
  -100000 <= lo -> hi <= 100000 ->
  let '(y, m, d) := civil_from_days z in lo <= y <= hi.
Proof.
  unfold civil_from_days, days_from_civil.
  change (1 <=? 2) with true. change (2 <? 1) with false. cbv iota.
  intros Hz Hlo Hhi.
  set (z' := z + 719468).
  assert (Hdoe : 0 <= z' mod 146097 < 146097)
    by (apply Z.mod_pos_bound; lia).
  pose proof (Z.div_mod z' 146097 ltac:(lia)) as Hz'.
  set (era := z' / 146097) in *. set (doe := z' mod 146097) in *.
  clearbody era doe.
  pose proof (year_of_era_bounds doe Hdoe) as Hy. cbv zeta in Hy.
  set (yoe := (doe - doe / 1460 + doe / 36524 - doe / 146096) / 365) in *.
  clearbody yoe.
  set (doy := doe - (365 * yoe + yoe / 4 - yoe / 100)) in *.
  set (mp := (5 * doy + 2) / 153).
  assert (Hmp : 0 <= mp <= 11 /\ (mp < 10 <-> doy < 306))
    by (subst mp; Z.div_mod_to_equations; lia).
  clearbody mp.
  set (m := if mp <? 10 then mp + 3 else mp - 9).
  assert (Hm : m <= 2 <-> 10 <= mp)
    by (subst m; destruct (Z.ltb_spec mp 10); lia).
  clearbody m.
  subst z' doy.
  pose proof (Z.div_mod (lo - 1) 400 ltac:(lia)) as Hl.
  pose proof (Z.mod_pos_bound (lo - 1) 400 ltac:(lia)) as Hl'.
  pose proof (Z.div_mod (hi + 1 - 1) 400 ltac:(lia)) as Hh.
  pose proof (Z.mod_pos_bound (hi + 1 - 1) 400 ltac:(lia)) as Hh'.
  set (el := (lo - 1) / 400) in *. set (yl := (lo - 1) mod 400) in *.
  set (eh := (hi + 1 - 1) / 400) in *. set (yh := (hi + 1 - 1) mod 400) in *.
  clearbody el yl eh yh.
  destruct (Z.leb_spec m 2); Z.div_mod_to_equations; nia.
Qed.

(** [gmtime] and [timegm] agree on the instant. *)
Lemma gmtime_timegm t b : gmtime t = Some b -> timegm b = t.
Proof.
  unfold gmtime.
  pose proof (civil_from_days_inverse (t / 86400)) as H.
  destruct (civil_from_days (t / 86400)) as [[y m] d].
  destruct H as (H & _ & _).
  destruct (_ && _); [| discriminate].
  intros [= <-]. unfold timegm.
  cbn [tm_year tm_mon tm_mday tm_hour tm_min tm_sec].
  replace (y - 1900 + 1900) with y by lia.
  replace (m - 1 + 1) with m by lia.
  rewrite H. Z.div_mod_to_equations. lia.
Qed.

(** From 1970 on, the broken-down time [gmtime] gives denotes its
    argument by the formula of POSIX. *)
Lemma gmtime_posix t b : 0 <= t -> gmtime t = Some b -> posix_seconds b = t.
Proof.
  intros Ht. unfold gmtime.
  assert (Hz : 0 <= t / 86400) by (apply Z.div_pos; lia).
  pose proof (civil_from_days_inverse (t / 86400)) as Hi.
  destruct (civil_from_days (t / 86400)) as [[y m] d].
  destruct Hi as (Hi & Hm & Hd).
  destruct (_ && _); [| discriminate].
  intros [= <-]. unfold posix_seconds.
  cbn [tm_year tm_yday tm_hour tm_min tm_sec].
  assert (Y : 1970 <= y).
  { destruct (Z.le_gt_cases 1970 y) as [L | L]; [exact L | exfalso].
    revert Hi Hm Hd L Hz. clear. unfold days_from_civil. intros.
    destruct (Z.leb_spec m 2); destruct (Z.ltb_spec 2 m); try lia;
      Z.div_mod_to_equations; lia. }
  clear Hi Hm Hd. unfold days_from_civil.
  change (1 <=? 2) with true. change (2 <? 1) with false. cbv iota.
  Z.div_mod_to_equations. lia.
Qed.

(** The fields [gmtime] fills in, for a time whose year lies between
    [lo] and [hi]. *)
Lemma gmtime_fields t lo hi :
  days_from_civil lo 1 1 * 86400 <= t
  < days_from_civil (hi + 1) 1 1 * 86400 ->
  -100000 <= lo -> hi <= 100000 ->
  exists b,
    gmtime t = Some b
    /\ lo <= tm_year b + 1900 <= hi
    /\ 1 <= tm_mon b + 1 <= 12 /\ 1 <= tm_mday b <= 31
    /\ 0 <= tm_hour b <= 23 /\ 0 <= tm_min b <= 59 /\ 0 <= tm_sec b <= 59.
Proof.
  intros Ht Hlo Hhi. unfold gmtime.
  assert (Hz : days_from_civil lo 1 1 <= t / 86400
               < days_from_civil (hi + 1) 1 1)
    by (Z.div_mod_to_equations; lia).
  pose proof (civil_from_days_year (t / 86400) lo hi Hz Hlo Hhi) as Hy.
  pose proof (civil_from_days_inverse (t / 86400)) as Hi.
  destruct (civil_from_days (t / 86400)) as [[y m] d].
  destruct Hi as (_ & Hm & Hd).
  assert (E : (INT_MIN <=? y - 1900) && (y - 1900 <=? INT_MAX) = true).
  { unfold INT_MIN, INT_MAX. apply andb_true_intro.
    split; apply Z.leb_le; lia. }
  rewrite E. eexists. split; [reflexivity |].
  cbn [tm_year tm_mon tm_mday tm_hour tm_min tm_sec].
  repeat split; try lia; Z.div_mod_to_equations; lia.
Qed.

(** *** Decimal conversion *)

Lemma digit_char_spec d :
  0 <= d <= 9 ->
  is_digit (digit_char d) = true /\ digit_value (digit_char d) = d.
Proof.
  intros H.
  assert (C : d = 0 \/ d = 1 \/ d = 2 \/ d = 3 \/ d = 4 \/ d = 5 \/ d = 6
              \/ d = 7 \/ d = 8 \/ d = 9) by lia.
  repeat (destruct C as [-> | C]; [split; reflexivity |]).
  subst d. split; reflexivity.
Qed.

Lemma dec_digits_last fuel n acc :
  0 <= n < 10 -> dec_digits (S fuel) n acc = String (digit_char n) acc.
Proof.
  intros H. cbn [dec_digits].
  rewrite Z.div_small, Z.mod_small by lia. reflexivity.
Qed.

Lemma dec_digits_step fuel n acc :
  10 <= n ->
  dec_digits (S fuel) n acc
  = dec_digits fuel (n / 10) (String (digit_char (n mod 10)) acc).
Proof.
  intros H. cbn [dec_digits].
  destruct (Z.eqb_spec (n / 10) 0) as [E | E]; [| reflexivity].
  exfalso. Z.div_mod_to_equations. lia.
Qed.

Lemma log2_fuel n k :
  2 ^ Z.of_nat k <= n -> (k <= Z.to_nat (Z.log2 n))%nat.
Proof.
  intros H.
  assert (0 < 2 ^ Z.of_nat k) by (apply Z.pow_pos_nonneg; lia).
  assert (Z.of_nat k <= Z.log2 n).
  { rewrite <- (Z.log2_pow2 (Z.of_nat k)) by lia.
    apply Z.log2_le_mono. lia. }
  lia.
Qed.

(** A number of four digits is printed as its four digits. *)
Lemma dec_of_Z_4 y :
  1000 <= y <= 9999 ->
  dec_of_Z y =
  String (digit_char (y / 1000))
    (String (digit_char (y / 100 mod 10))
       (String (digit_char (y / 10 mod 10))
          (String (digit_char (y mod 10)) ""))).
Proof.
  intros H. unfold dec_of_Z.
  destruct (Z.ltb_spec y 0); [lia |].
  pose proof (log2_fuel y 9 ltac:(change (2 ^ Z.of_nat 9) with 512; lia))
    as F.
  destruct (Z.to_nat (Z.log2 y)) as [| [| [| f]]]; try lia.
  rewrite !dec_digits_step by (Z.div_mod_to_equations; lia).
  rewrite dec_digits_last by (Z.div_mod_to_equations; lia).
  replace (y / 10 / 10 / 10) with (y / 1000)
    by (Z.div_mod_to_equations; lia).
  replace (y / 10 / 10) with (y / 100) by (Z.div_mod_to_equations; lia).
  reflexivity.
Qed.

(** A two-digit field. *)
Lemma dec2_2 n :
  0 <= n <= 99 ->
  dec2 n = String (digit_char (n / 10)) (String (digit_char (n mod 10)) "").
Proof.
  intros H. unfold dec2, dec_of_Z.
  destruct (Z.ltb_spec n 0); [lia |].
  destruct (Z.le_gt_cases 10 n) as [L | L].
  - pose proof (log2_fuel n 3 ltac:(change (2 ^ Z.of_nat 3) with 8; lia))
      as F.
    destruct (Z.to_nat (Z.log2 n)) as [| f]; try lia.
    rewrite dec_digits_step by lia.
    rewrite dec_digits_last by (Z.div_mod_to_equations; lia).
    reflexivity.
  - rewrite dec_digits_last by lia. cbn [String.length Nat.ltb Nat.leb].
    rewrite (Z.div_small n 10), (Z.mod_small n 10) by lia. reflexivity.
Qed.

(** The digits printed are no more than the digits of the bound. *)
Lemma dec_digits_length fuel : forall k n acc,
  0 <= n < 10 ^ Z.of_nat (S k) ->
  (String.length (dec_digits fuel n acc) <= S k + String.length acc)%nat.
Proof.
  induction fuel as [| fuel IH]; intros k n acc H; cbn [dec_digits].
  - lia.
  - destruct (Z.eqb_spec (n / 10) 0) as [E | E].
    + cbn [String.length]. lia.
    + destruct k as [| k].
      * exfalso. change (10 ^ Z.of_nat 1) with 10 in H.
        apply E. apply Z.div_small. lia.
      * specialize (IH k (n / 10) (String (digit_char (n mod 10)) acc)).
        cbn [String.length] in IH.
        assert (0 <= n / 10 < 10 ^ Z.of_nat (S k)).
        { replace (10 ^ Z.of_nat (S (S k))) with (10 * 10 ^ Z.of_nat (S k))
            in H by (rewrite (Nat2Z.inj_succ (S k)), Z.pow_succ_r; lia).
          Z.div_mod_to_equations. lia. }
        specialize (IH ltac:(assumption)). lia.
Qed.

Lemma dec_of_Z_length n :
  -100000 < n < 1000000 -> (String.length (dec_of_Z n) <= 6)%nat.
Proof.
  intros H. unfold dec_of_Z. destruct (Z.ltb_spec n 0).
  - cbn [String.length].
    pose proof (dec_digits_length (S (Z.to_nat (Z.log2 (- n)))) 4 (- n) ""
                  ltac:(change (10 ^ Z.of_nat 5) with 100000; lia)) as L.
    cbn [String.length] in L. lia.
  - pose proof (dec_digits_length (S (Z.to_nat (Z.log2 n))) 5 n ""
                  ltac:(change (10 ^ Z.of_nat 6) with 1000000; lia)) as L.
    cbn [String.length] in L. lia.
Qed.

Lemma length_append (s1 s2 : string) :
  String.length (s1 ++ s2)%string
  = (String.length s1 + String.length s2)%nat.
Proof.
  induction s1 as [| c s1 IH]; cbn; congruence.
Qed.

(** *** [strftime] with the program's format *)

Lemma strftime_fits b :
  -100000 < tm_year b + 1900 < 1000000 ->
  two_digits (tm_mon b + 1) -> two_digits (tm_mday b) ->
  two_digits (tm_hour b) -> two_digits (tm_min b) ->
  two_digits (tm_sec b) ->
  exists n s, strftime TIMESTAMP_BUF_LEN "%FT%TZ" b = (n, s) /\ 0 < n.
Proof.
  intros Hy Hm Hd Hh Hn Hs.
  unfold strftime. cbn [strftime_expand strftime_conv].
  rewrite (dec2_2 _ Hm), (dec2_2 _ Hd), (dec2_2 _ Hh), (dec2_2 _ Hn),
    (dec2_2 _ Hs).
  pose proof (dec_of_Z_length _ Hy) as L.
  match goal with
  | |- context [String.length ?s] =>
      assert (E : String.length s
                  = (String.length (dec_of_Z (tm_year b + 1900)) + 16)%nat)
  end.
  { cbn [append]. rewrite !length_append. cbn [append String.length]. lia. }
  rewrite E. unfold TIMESTAMP_BUF_LEN.
  destruct (Z.leb_spec
              (Z.of_nat (String.length (dec_of_Z (tm_year b + 1900)) + 16)
               + 1) 32); [| lia].
  eexists _, _. split; [reflexivity | lia].
Qed.

Lemma number_of_2 a b :
  0 <= a <= 9 -> 0 <= b <= 9 ->
  number_of [digit_char a; digit_char b] = 10 * a + b.
Proof.
  intros Ha Hb. unfold number_of. cbn [fold_left].
  rewrite (proj2 (digit_char_spec a Ha)), (proj2 (digit_char_spec b Hb)).
  lia.
Qed.

Lemma number_of_4 a b c d :
  0 <= a <= 9 -> 0 <= b <= 9 -> 0 <= c <= 9 -> 0 <= d <= 9 ->
  number_of [digit_char a; digit_char b; digit_char c; digit_char d]
  = 1000 * a + 100 * b + 10 * c + d.
Proof.
  intros Ha Hb Hc Hd. unfold number_of. cbn [fold_left].
  rewrite (proj2 (digit_char_spec a Ha)), (proj2 (digit_char_spec b Hb)),
    (proj2 (digit_char_spec c Hc)), (proj2 (digit_char_spec d Hd)).
  lia.
Qed.

(** With a year of four digits the result has the strict form, and its
    fields are those of the broken-down time. *)
Lemma strftime_strict b :
  1000 <= tm_year b + 1900 <= 9999 ->
  two_digits (tm_mon b + 1) -> two_digits (tm_mday b) ->
  two_digits (tm_hour b) -> two_digits (tm_min b) ->
  two_digits (tm_sec b) ->
  exists s,
    strftime TIMESTAMP_BUF_LEN "%FT%TZ" b = (20, s)
    /\ iso8601_fields s
       = Some (tm_year b + 1900, tm_mon b + 1, tm_mday b,
               tm_hour b, tm_min b, tm_sec b).
Proof.
  unfold two_digits. intros Hy Hm Hd Hh Hn Hs.
  unfold strftime. cbn [strftime_expand strftime_conv].
  rewrite (dec_of_Z_4 _ Hy), (dec2_2 _ Hm), (dec2_2 _ Hd), (dec2_2 _ Hh),
    (dec2_2 _ Hn), (dec2_2 _ Hs).
  cbn [append String.length Nat.add].
  eexists. split; [reflexivity |].
  unfold iso8601_fields. cbn [list_ascii_of_string forallb].
  rewrite !(fun d H => proj1 (digit_char_spec d H)) by digit_bounds.
  cbn [andb Ascii.eqb Bool.eqb].
  rewrite number_of_4 by digit_bounds.
  rewrite !number_of_2 by digit_bounds.
  assert (E4 : forall v, 1000 <= v <= 9999 ->
                 1000 * (v / 1000) + 100 * (v / 100 mod 10)
                 + 10 * (v / 10 mod 10) + v mod 10 = v)
    by (intros; digit_bounds).
  assert (E2 : forall v, 0 <= v <= 99 -> 10 * (v / 10) + v mod 10 = v)
    by (intros; digit_bounds).
  rewrite E4, !E2 by assumption. reflexivity.
Qed.

(* ================================================================== *)
(** ** The timestamp converter *)
(* ================================================================== *)

(** The seconds a 64-bit tick count is converted to lie in years that
    [gmtime] can represent and [strftime] can print into the buffer. *)
Lemma ticks_gmtime t :
  INT64_MIN <= t <= INT64_MAX ->
  exists b,
    gmtime (Z.quot t WINDOWS_TICK - SEC_TO_UNIX_EPOCH) = Some b
    /\ -28000 <= tm_year b + 1900 <= 31000
    /\ two_digits (tm_mon b + 1) /\ two_digits (tm_mday b)
    /\ two_digits (tm_hour b) /\ two_digits (tm_min b)
    /\ two_digits (tm_sec b).
Proof.
  unfold INT64_MIN, INT64_MAX, WINDOWS_TICK, SEC_TO_UNIX_EPOCH, two_digits.
  intros H.
  destruct (gmtime_fields (Z.quot t 10000000 - 11644473600) (-28000) 31000)
    as (b & E & Hy & F); try lia.
  - change (days_from_civil (-28000) 1 1) with (-10946318).
    change (days_from_civil (31000 + 1) 1 1) with 10603355.
    Z.quot_rem_to_equations. lia.
  - exists b. split; [exact E |]. split; [exact Hy |]. lia.
Qed.

Lemma filetime_to_8601_returns t w :
  INT64_MIN <= t <= INT64_MAX ->
  filetime_to_8601 t w = Done (timestamp_string t) (logged t w).
Proof.
  intros H. unfold filetime_to_8601, timestamp_string, bind.
  cbn [record_filetime_call]. fold (logged t w).
  destruct (t =? 0); [reflexivity |].
  destruct (ticks_gmtime t H) as (b & -> & Hy & Hm & Hd & Hh & Hn & Hs).
  destruct (strftime_fits b ltac:(lia) Hm Hd Hh Hn Hs) as (n & s & -> & L).
  destruct (Z.eqb_spec n 0); [lia | reflexivity].
Qed.

Lemma timestamp_string_absent t :
  INT64_MIN <= t <= INT64_MAX -> (timestamp_string t = None <-> t = 0).
Proof.
  intros H. unfold timestamp_string.
  destruct (Z.eqb_spec t 0) as [E | E]; [tauto |].
  destruct (ticks_gmtime t H) as (b & -> & _).
  split; [discriminate | contradiction].
Qed.

(** Between the years 1000 and 9999 the string is strict and names the
    second of the reference formula. *)
Lemma timestamp_string_strict t :
  t <> 0 ->
  -189657504010000000 < t < 2650467744000000000 ->
  exists s,
    timestamp_string t = Some s
    /\ iso8601_strict s = true
    /\ iso8601_instant s = Some (unix_second_of_ticks t).
Proof.
  intros Ht H. unfold timestamp_string, unix_second_of_ticks.
  destruct (Z.eqb_spec t 0) as [E | _]; [contradiction |].
  unfold WINDOWS_TICK, SEC_TO_UNIX_EPOCH.
  destruct (gmtime_fields (Z.quot t 10000000 - 11644473600) 1000 9999)
    as (b & E & Hy & F); try lia.
  - change (days_from_civil 1000 1 1) with (-354285).
    change (days_from_civil (9999 + 1) 1 1) with 2932897.
    Z.quot_rem_to_equations. lia.
  - rewrite E.
    destruct (strftime_strict b Hy) as (s & Es & Ef);
      try (unfold two_digits; lia).
    rewrite Es. exists s. split; [reflexivity |].
    unfold iso8601_strict, iso8601_instant. rewrite Ef.
    split; [reflexivity |].
    f_equal. apply gmtime_timegm in E. unfold timegm in E. exact E.
Qed.

(* ================================================================== *)
(** ** The encoding safety classifier *)
(* ================================================================== *)

Lemma encoding_recommendation_cases data :
  encoding_recommendation data = "none"
  \/ encoding_recommendation data = "base64".
Proof.
  unfold encoding_recommendation.
  destruct encoding_recommendation_loop; auto.
Qed.

(** The loop ends with the flag set exactly when it ran at least once and
    every byte it looked at is printable; without an iteration the flag is
    as it was. *)
Lemma encoding_recommendation_loop_true data : forall todo i b,
  encoding_recommendation_loop data i todo b = true <->
  (todo = O /\ b = true)
  \/ (todo <> O
      /\ forall j, (i <= j < i + todo)%nat ->
                   isprint (char_to_int (char_at data j)) = true).
Proof.
  induction todo as [| todo IH]; intros i b; cbn [encoding_recommendation_loop].
  - split; [auto | intros [[_ H] | [H _]]; [exact H | contradiction]].
  - destruct (isprint (char_to_int (char_at data i))) eqn:P; cbn [negb].
    + rewrite IH. split.
      * intros [[-> _] | [N H]]; right; (split; [discriminate |]);
          intros j Hj.
        -- replace j with i by lia. exact P.
        -- destruct (Nat.eq_dec j i) as [-> | D]; [exact P |].
           apply H. lia.
      * intros [[E _] | [_ H]]; [discriminate |].
        destruct todo as [| todo']; [left; auto | right].
        split; [discriminate |]. intros j Hj. apply H. lia.
    + split; [discriminate |].
      intros [[E _] | [_ H]]; [discriminate |].
      rewrite <- P. apply H. lia.
Qed.

Lemma encoding_recommendation_loop_false data : forall todo i b,
  encoding_recommendation_loop data i todo b = false ->
  (todo = O /\ b = false)
  \/ exists j, (i <= j < i + todo)%nat
               /\ isprint (char_to_int (char_at data j)) = false.
Proof.
  induction todo as [| todo IH]; intros i b; cbn [encoding_recommendation_loop].
  - auto.
  - destruct (isprint (char_to_int (char_at data i))) eqn:P; cbn [negb].
    + intros H. apply IH in H. right.
      destruct H as [[_ H] | (j & Hj & H)]; [discriminate |].
      exists j. split; [lia | exact H].
    + intros _. right. exists i. split; [lia | exact P].
Qed.

(** "none" (direct) needs a byte: the string is not empty and all its
    bytes are printable. *)
Lemma encoding_recommendation_none data :
  encoding_recommendation data = "none" <->
  strlen data <> O /\ all_printable data.
Proof.
  unfold encoding_recommendation, all_printable.
  pose proof (encoding_recommendation_loop_true data (strlen data) 0 false)
    as L.
  destruct (encoding_recommendation_loop data 0 (strlen data) false).
  - split; [intros _ | reflexivity].
    destruct (proj1 L eq_refl) as [[_ H] | [N H]]; [discriminate |].
    split; [exact N |]. intros i Hi. apply H. lia.
  - split; [discriminate |]. intros [N H].
    assert (false = true); [| discriminate].
    apply L. right. split; [exact N |]. intros j Hj. apply H. lia.
Qed.

Lemma encoding_recommendation_some_unprintable data :
  some_unprintable data -> encoding_recommendation data = "base64".
Proof.
  intros (i & Hi & P).
  destruct (encoding_recommendation_cases data) as [E | E]; [| exact E].
  apply encoding_recommendation_none in E. destruct E as [_ A].
  rewrite (A i Hi) in P. discriminate.
Qed.

Lemma encoding_recommendation_base64 data :
  encoding_recommendation data = "base64" ->
  strlen data = O \/ some_unprintable data.
Proof.
  unfold encoding_recommendation, some_unprintable.
  destruct (encoding_recommendation_loop data 0 (strlen data) false) eqn:L;
    [discriminate |].
  intros _. apply encoding_recommendation_loop_false in L.
  destruct L as [[E _] | (j & Hj & P)]; [left; exact E | right].
  exists j. split; [lia | exact P].
Qed.

Lemma encoding_recommendation_empty data :
  strlen data = O -> encoding_recommendation data = "base64".
Proof.
  intros E. unfold encoding_recommendation. rewrite E. reflexivity.
Qed.

(** *** Bytes at and after the first NUL *)

Lemma strlen_append_NUL pre rest :
  strlen pre = String.length pre ->
  strlen (pre ++ String NUL rest)%string = String.length pre.
Proof.
  induction pre as [| c pre IH]; cbn [append strlen String.length].
  - intros _. reflexivity.
  - destruct (Ascii.eqb c NUL); [discriminate |].
    intros [= H]. rewrite IH by exact H. reflexivity.
Qed.

Lemma char_at_append pre rest i :
  (i < String.length pre)%nat ->
  char_at (pre ++ rest)%string i = char_at pre i.
Proof.
  revert i. unfold char_at.
  induction pre as [| c pre IH]; intros i H; cbn [String.length] in H.
  - lia.
  - destruct i as [| i]; cbn [append String.get]; [reflexivity |].
    apply IH. lia.
Qed.

Lemma encoding_recommendation_loop_ext data data' : forall todo i b,
  (forall j, (i <= j < i + todo)%nat -> char_at data j = char_at data' j) ->
  encoding_recommendation_loop data i todo b
  = encoding_recommendation_loop data' i todo b.
Proof.
  induction todo as [| todo IH]; intros i b H;
    cbn [encoding_recommendation_loop]; [reflexivity |].
  rewrite <- (H i) by lia.
  destruct (negb _); [reflexivity |].
  apply IH. intros j Hj. apply H. lia.
Qed.

(** The answer depends on the bytes before the first NUL only. *)
Lemma encoding_recommendation_prefix pre rest rest' :
  strlen pre = String.length pre ->
  encoding_recommendation (pre ++ String NUL rest)
  = encoding_recommendation (pre ++ String NUL rest').
Proof.
  intros H. unfold encoding_recommendation.
  rewrite !strlen_append_NUL by exact H.
  rewrite (encoding_recommendation_loop_ext
             (pre ++ String NUL rest) (pre ++ String NUL rest'));
    [reflexivity |].
  intros j Hj. rewrite !char_at_append by lia. reflexivity.
Qed.

(* ================================================================== *)
(** ** What each function writes *)
(* ================================================================== *)

#[local] Arguments emit : simpl never.
#[local] Arguments close_start_tag : simpl never.
#[local] Arguments c_string : simpl nomatch.
#[local] Arguments substring : simpl nomatch.
#[local] Arguments strlen : simpl nomatch.
#[local] Arguments size_t_to_int : simpl never.
#[local] Arguments printf_d : simpl never.
#[local] Arguments printf_i32 : simpl never.
#[local] Arguments printf_i64 : simpl never.
#[local] Arguments encoding_recommendation : simpl never.
#[local] Arguments filetime_to_8601 : simpl never.
#[local] Arguments safe_print_string_attribute : simpl never.
#[local] Arguments start_value : simpl never.
#[local] Arguments end_value : simpl never.
#[local] Arguments value_byte_runs : simpl never.
#[local] Arguments node_byte_runs : simpl never.
#[local] Arguments value_multiple_strings_loop : simpl never.
#[local] Arguments Z.ltb : simpl nomatch.
#[local] Arguments Z.leb : simpl nomatch.
#[local] Arguments Z.eqb : simpl nomatch.

(** The world in which the innermost open element has name [n],
    attributes [a], children [c] and state [s]. *)
Abbreviation W n a c s ps doc fc :=
  (mk_world (mk_writer (mk_entry n a c s :: ps) doc) fc).

(** Symbolic execution of the writer calls. *)
Ltac exec :=
  repeat (progress
            (cbn;
             cbv beta iota zeta delta
               [ret bind XML_CHECK with_writer exit_failure abort
                add_attr with_state add_content fresh end_pending_attribute
                write_content])).

(** A call whose effect is known by a lemma [L] of the form
    [f w = Done r w' -> w' = ...]. *)
Ltac known_call f L :=
  match goal with
  | |- context [match f ?w with _ => _ end] =>
      let E := fresh "E" in
      destruct (f w) eqn:E; try discriminate;
      apply L in E; subst
  end.

Lemma safe_print_string_attribute_inv an ae d n a c ps doc fc r w' :
  safe_print_string_attribute (Some an) (Some ae) d
    (W n a c XML_TEXTWRITER_NAME ps doc fc) = Done r w' ->
  w' = W n (a ++ string_attribute an ae d) c XML_TEXTWRITER_NAME ps doc fc.
Proof.
  unfold safe_print_string_attribute, string_attribute.
  destruct d as [d |].
  2:{ exec. rewrite app_nil_r. intros [= <- <-]. reflexivity. }
  destruct (encoding_recommendation_cases d) as [-> | ->]; exec.
  - intros [= <- <-]. reflexivity.
  - destruct (size_t_to_int (Z.of_nat (strlen d)) <? 0); exec.
    + discriminate.
    + intros [= <- <-]. rewrite <- app_assoc. reflexivity.
Qed.

Lemma start_value_inv key type encoding w u w' :
  start_value key type encoding w = Done u w' ->
  w' = W "value" (start_value_attributes key type encoding) []
         XML_TEXTWRITER_NAME
         (close_start_tag (nodes (writer w))) (document (writer w))
         (filetime_calls w).
Proof.
  unfold start_value, start_value_attributes, key_attribute.
  destruct encoding as [e |]; destruct (Ascii.eqb (char_at key 0) NUL);
    exec; try (intros [= <- <-]; reflexivity).
  all: match goal with
       | |- context [match ?f ?w with _ => _ end] =>
           destruct (f w) eqn:E; try discriminate;
           apply safe_print_string_attribute_inv in E; subst
       end.
  all: intros [= <- <-]; reflexivity.
Qed.

Lemma plain_cases s :
  plain s -> s = XML_TEXTWRITER_NAME \/ s = XML_TEXTWRITER_TEXT.
Proof. destruct s; cbn; tauto. Qed.

Lemma value_byte_runs_inv h value n a c s ps doc fc r w' :
  plain s ->
  value_byte_runs h value (W n a c s ps doc fc) = Done r w' ->
  exists s',
    plain s'
    /\ w' = W n a (c ++ value_byte_runs_nodes h value) s' ps doc fc.
Proof.
  intros Hs. unfold value_byte_runs, value_byte_runs_nodes, byte_run.
  destruct (hivex_value_struct_length h value) as [e1 l1].
  destruct (hivex_value_data_cell_offset h value) as [e2 [off l2]].
  destruct (e1 =? 0); exec.
  2:{ intros [= <- <-]. exists s. rewrite app_nil_r. auto. }
  destruct (e2 =? 0); exec.
  2:{ intros [= <- <-]. exists s. rewrite app_nil_r. auto. }
  destruct (plain_cases s Hs) as [-> | ->];
    destruct (4 <? l2); unfold emit; exec;
    intros [= <- <-]; exists XML_TEXTWRITER_TEXT; split;
    reflexivity || exact I.
Qed.

Lemma node_byte_runs_inv h node n a c s ps doc fc r w' :
  plain s ->
  node_byte_runs h node (W n a c s ps doc fc) = Done r w' ->
  w' = W n a (c ++ node_byte_runs_nodes h node)
         (state_after (c ++ node_byte_runs_nodes h node)) ps doc fc
  \/ (node_byte_runs_nodes h node = [] /\ w' = W n a c s ps doc fc).
Proof.
  intros Hs. unfold node_byte_runs, node_byte_runs_nodes, byte_run.
  destruct (hivex_node_struct_length h node) as [e1 l1].
  destruct (e1 =? 0); exec.
  2:{ intros [= <- <-]. right. auto. }
  destruct (plain_cases s Hs) as [-> | ->]; unfold emit; exec;
    intros [= <- <-]; left; destruct c; reflexivity.
Qed.

Lemma end_value_spec n a c s ps doc fc :
  plain s ->
  end_value (W n a c s ps doc fc)
  = Done tt (mk_world (emit (Element n a c) (mk_writer ps doc)) fc).
Proof.
  intros Hs. unfold end_value.
  destruct (plain_cases s Hs) as [-> | ->]; reflexivity.
Qed.

(** The [value] attribute written as base64. *)
Lemma base64_attribute_inv (v : option string) len
  {A} (k : M A) n a c ps doc fc r w' :
  (XML_CHECK (xmlTextWriterStartAttribute "value") ;;
   XML_CHECK (xmlTextWriterWriteBase64 v 0 (size_t_to_int len)) ;;
   XML_CHECK xmlTextWriterEndAttribute ;;
   k) (W n a c XML_TEXTWRITER_NAME ps doc fc) = Done r w' ->
  exists d,
    v = Some d
    /\ k (W n (a ++ base64_value d len) c XML_TEXTWRITER_NAME ps doc fc)
       = Done r w'.
Proof.
  unfold base64_value. destruct v as [d |]; exec; [| discriminate].
  destruct (size_t_to_int len <? 0); exec; [discriminate |].
  intros H. exists d. auto.
Qed.

Lemma value_multiple_strings_loop_inv : forall argv ret n a c s ps doc fc r w',
  plain s ->
  value_multiple_strings_loop argv ret (W n a c s ps doc fc) = Done r w' ->
  exists s',
    plain s' /\ w' = W n a (c ++ map string_element argv) s' ps doc fc.
Proof.
  induction argv as [| x argv IH]; intros ret n a c s ps doc fc r w' Hs;
    unfold value_multiple_strings_loop; fold value_multiple_strings_loop.
  - exec. intros [= <- <-]. exists s. rewrite app_nil_r. auto.
  - destruct (plain_cases s Hs) as [-> | ->]; unfold close_start_tag; exec.
    all: known_call (safe_print_string_attribute (Some "value")
                       (Some "value_encoding") (Some x))
                    safe_print_string_attribute_inv.
    all: unfold emit; exec.
    all: intros H; apply IH in H; [| exact I].
    all: destruct H as (s' & Hs' & ->); exists s'; split; [exact Hs' |].
    all: rewrite <- app_assoc; reflexivity.
Qed.

(** *** The value callbacks *)

Lemma value_string_switch (t : hive_type) :
  (if t =? hive_t_string then ret "string"
   else if t =? hive_t_expand_string then ret "expand"
   else if t =? hive_t_link then ret "link"
   else if one_of t [hive_t_none; hive_t_binary; hive_t_dword;
                     hive_t_dword_be; hive_t_multiple_strings;
                     hive_t_resource_list;
                     hive_t_full_resource_description;
                     hive_t_resource_requirements_list; hive_t_qword]
   then abort
   else ret "unknown")
  = match value_string_type t with
    | Some type => ret type
    | None => abort
    end.
Proof.
  unfold value_string_type.
  repeat match goal with
         | |- context [if ?b then _ else _] => destruct b
         end; reflexivity.
Qed.

Lemma value_string_invalid_utf16_switch (t : hive_type) :
  (if t =? hive_t_string then ret "bad-string"
   else if t =? hive_t_expand_string then ret "bad-expand"
   else if t =? hive_t_link then ret "bad-link"
   else if t =? hive_t_multiple_strings then ret "bad-string-list"
   else if one_of t [hive_t_none; hive_t_binary; hive_t_dword;
                     hive_t_dword_be; hive_t_resource_list;
                     hive_t_full_resource_description;
                     hive_t_resource_requirements_list; hive_t_qword]
   then abort
   else ret "unknown")
  = match value_string_invalid_utf16_type t with
    | Some type => ret type
    | None => abort
    end.
Proof.
  unfold value_string_invalid_utf16_type.
  repeat match goal with
         | |- context [if ?b then _ else _] => destruct b
         end; reflexivity.
Qed.

Lemma value_other_switch (t : hive_type) :
  (if one_of t [hive_t_none; hive_t_binary; hive_t_dword;
                hive_t_dword_be; hive_t_qword; hive_t_string;
                hive_t_expand_string; hive_t_link;
                hive_t_multiple_strings]
   then abort
   else if t =? hive_t_resource_list then ret "resource-list"
   else if t =? hive_t_full_resource_description
   then ret "resource-description"
   else if t =? hive_t_resource_requirements_list
   then ret "resource-requirements"
   else ret "unknown")
  = match value_other_type t with
    | Some type => ret type
    | None => abort
    end.
Proof.
  unfold value_other_type.
  repeat match goal with
         | |- context [if ?b then _ else _] => destruct b
         end; reflexivity.
Qed.

(** The end of every value callback: the byte runs, then the element is
    finished. *)
Lemma finish_value_inv h value n a c s ps doc fc r w' :
  plain s ->
  (ret <- value_byte_runs h value ;; end_value ;; Hivexml.ret ret)
    (W n a c s ps doc fc) = Done r w' ->
  w' = mk_world (emit (Element n a (c ++ value_byte_runs_nodes h value))
                      (mk_writer ps doc)) fc.
Proof.
  intros Hs. unfold bind at 1.
  destruct (value_byte_runs h value _) eqn:E; try discriminate.
  apply value_byte_runs_inv in E; [| exact Hs].
  destruct E as (s' & Hs' & ->).
  unfold bind. rewrite end_value_spec by exact Hs'.
  intros [= <- <-]. reflexivity.
Qed.

Ltac start_value_step :=
  match goal with
  | |- context [match start_value ?k ?t ?e ?w with _ => _ end] =>
      let E := fresh "E" in
      destruct (start_value k t e w) eqn:E; try discriminate;
      apply start_value_inv in E; subst
  end.

Lemma value_string_emits h a str w r w' :
  visitor h (call_value_string a str) w = Done r w' ->
  exists e, value_element h (call_value_string a str) = Some e
            /\ w' = after_element e w.
Proof.
  cbn [visitor value_element]. unfold apply_value, value_string.
  rewrite value_string_switch.
  destruct (value_string_type (va_type a)) as [type |];
    [| discriminate].
  unfold bind at 1 2. cbn [ret]. start_value_step.
  unfold bind at 1.
  known_call (safe_print_string_attribute (Some "value")
                (Some "value_encoding") str)
             safe_print_string_attribute_inv.
  intros H. apply finish_value_inv in H; [| exact I]. subst w'.
  eexists. split; reflexivity.
Qed.

Lemma value_multiple_strings_emits h a argv w r w' :
  visitor h (call_value_multiple_strings a argv) w = Done r w' ->
  exists e, value_element h (call_value_multiple_strings a argv) = Some e
            /\ w' = after_element e w.
Proof.
  cbn [visitor value_element]. unfold apply_value, value_multiple_strings.
  unfold bind at 1. start_value_step.
  unfold bind at 1.
  destruct (value_multiple_strings_loop argv 0 _) eqn:E; try discriminate.
  apply value_multiple_strings_loop_inv in E; [| exact I].
  destruct E as (s' & Hs' & ->).
  intros H. apply finish_value_inv in H; [| exact Hs']. subst w'.
  eexists. split; reflexivity.
Qed.

Lemma value_string_invalid_utf16_emits h a str w r w' :
  visitor h (call_value_string_invalid_utf16 a str) w = Done r w' ->
  exists e,
    value_element h (call_value_string_invalid_utf16 a str) = Some e
    /\ w' = after_element e w.
Proof.
  cbn [visitor value_element].
  unfold apply_value, value_string_invalid_utf16.
  rewrite value_string_invalid_utf16_switch.
  destruct (value_string_invalid_utf16_type (va_type a)) as [type |];
    [| discriminate].
  unfold bind at 1 2. cbn [ret]. start_value_step.
  intros H. apply base64_attribute_inv in H. destruct H as (d & -> & H).
  apply finish_value_inv in H; [| exact I]. subst w'.
  eexists. split; reflexivity.
Qed.

Lemma value_dword_emits h a v w r w' :
  visitor h (call_value_dword a v) w = Done r w' ->
  exists e, value_element h (call_value_dword a v) = Some e
            /\ w' = after_element e w.
Proof.
  cbn [visitor value_element]. unfold apply_value, value_dword.
  unfold bind at 1. start_value_step.
  unfold bind at 1. exec.
  intros H. apply finish_value_inv in H; [| exact I]. subst w'.
  eexists. split; reflexivity.
Qed.

Lemma value_qword_emits h a v w r w' :
  visitor h (call_value_qword a v) w = Done r w' ->
  exists e, value_element h (call_value_qword a v) = Some e
            /\ w' = after_element e w.
Proof.
  cbn [visitor value_element]. unfold apply_value, value_qword.
  unfold bind at 1. start_value_step.
  unfold bind at 1. exec.
  intros H. apply finish_value_inv in H; [| exact I]. subst w'.
  eexists. split; reflexivity.
Qed.

Lemma value_binary_emits h a v w r w' :
  visitor h (call_value_binary a v) w = Done r w' ->
  exists e, value_element h (call_value_binary a v) = Some e
            /\ w' = after_element e w.
Proof.
  cbn [visitor value_element]. unfold apply_value, value_binary.
  unfold bind at 1. start_value_step.
  intros H. apply base64_attribute_inv in H. destruct H as (d & -> & H).
  apply finish_value_inv in H; [| exact I]. subst w'.
  eexists. split; reflexivity.
Qed.

(** The common part of [value_none] and [value_other]. *)
Lemma optional_value_inv h value (v : option string) len
  n a ps doc fc r w' :
  (ret <-
     (if 0 <? len then
        XML_CHECK (xmlTextWriterStartAttribute "value") ;;
        XML_CHECK (xmlTextWriterWriteBase64 v 0 (size_t_to_int len)) ;;
        XML_CHECK xmlTextWriterEndAttribute ;;
        value_byte_runs h value
      else ret 0) ;;
   end_value ;;
   Hivexml.ret ret) (W n a [] XML_TEXTWRITER_NAME ps doc fc) = Done r w' ->
  exists e,
    (if 0 <? len
     then match v with
          | Some d =>
              Some (Element n (a ++ base64_value d len)
                      (value_byte_runs_nodes h value))
          | None => None
          end
     else Some (Element n a [])) = Some e
    /\ w' = mk_world (emit e (mk_writer ps doc)) fc.
Proof.
  destruct (0 <? len).
  - unfold bind at 1.
    destruct ((XML_CHECK (xmlTextWriterStartAttribute "value") ;; _) _)
      eqn:E; try discriminate.
    apply base64_attribute_inv in E. destruct E as (d & -> & E).
    apply value_byte_runs_inv in E; [| exact I].
    destruct E as (s' & Hs' & ->).
    unfold bind. rewrite end_value_spec by exact Hs'.
    intros [= <- <-]. eexists. split; reflexivity.
  - unfold bind, ret. rewrite end_value_spec by exact I.
    intros [= <- <-]. eexists. split; reflexivity.
Qed.

Lemma value_none_emits h a v w r w' :
  visitor h (call_value_none a v) w = Done r w' ->
  exists e, value_element h (call_value_none a v) = Some e
            /\ w' = after_element e w.
Proof.
  cbn [visitor value_element]. unfold apply_value, value_none.
  unfold bind at 1. start_value_step.
  intros H. apply optional_value_inv in H. destruct H as (e & E & ->).
  exists e. split; [exact E | reflexivity].
Qed.

Lemma value_other_emits h a v w r w' :
  visitor h (call_value_other a v) w = Done r w' ->
  exists e, value_element h (call_value_other a v) = Some e
            /\ w' = after_element e w.
Proof.
  cbn [visitor value_element]. unfold apply_value, value_other.
  rewrite value_other_switch.
  destruct (value_other_type (va_type a)) as [type |]; [| discriminate].
  unfold bind at 1 2. cbn [ret]. start_value_step.
  intros H. apply optional_value_inv in H. destruct H as (e & E & ->).
  exists e. split; [exact E | reflexivity].
Qed.

(** Every value callback that returns has added one [value] element, the
    one [value_element] describes, and nothing else. *)
Lemma visitor_value_emits h c w r w' :
  value_call_args c <> None ->
  visitor h c w = Done r w' ->
  exists e, value_element h c = Some e /\ w' = after_element e w.
Proof.
  intros V.
  destruct c; try (exfalso; apply V; reflexivity).
  - apply value_string_emits.
  - apply value_multiple_strings_emits.
  - apply value_string_invalid_utf16_emits.
  - apply value_dword_emits.
  - apply value_qword_emits.
  - apply value_binary_emits.
  - apply value_none_emits.
  - apply value_other_emits.
Qed.

(** *** [node_start] *)

Lemma filetime_to_8601_inv t w r w' :
  filetime_to_8601 t w = Done r w' ->
  r = timestamp_string t /\ w' = logged t w.
Proof.
  unfold filetime_to_8601, timestamp_string, bind.
  cbn [record_filetime_call]. fold (logged t w).
  destruct (t =? 0); [intros [= <- <-]; auto |].
  destruct (gmtime _) as [b |]; [| intros [= <- <-]; auto].
  destruct (strftime _ _ b) as [n buf]. cbn [snd].
  destruct (n =? 0); [discriminate | intros [= <- <-]; auto].
Qed.

(** The [mtime] element, written by [node_start] and by [main]. *)
Lemma mtime_inv ticks {A} (k : M A) n a ps doc fc r w' :
  ((if 0 <=? ticks then
      timebuf <- filetime_to_8601 ticks ;;
      match timebuf with
      | Some _ =>
          XML_CHECK (xmlTextWriterStartElement "mtime") ;;
          XML_CHECK (xmlTextWriterWriteString timebuf) ;;
          XML_CHECK xmlTextWriterEndElement
      | None => ret tt
      end
    else ret tt) ;; k) (W n a [] XML_TEXTWRITER_NAME ps doc fc)
  = Done r w' ->
  k (W n a (mtime_nodes ticks) (state_after (mtime_nodes ticks)) ps doc
       (fc ++ (if 0 <=? ticks then [ticks] else []))) = Done r w'.
Proof.
  unfold mtime_nodes.
  destruct (0 <=? ticks).
  - unfold bind at 1 2.
    destruct (filetime_to_8601 ticks _) as [tb w1 | |] eqn:E;
      try discriminate.
    apply filetime_to_8601_inv in E. destruct E as [-> ->].
    unfold logged. cbn [writer filetime_calls].
    destruct (timestamp_string ticks) as [s |].
    + unfold close_start_tag, emit. exec. unfold emit. exec.
      intros H. exact H.
    + exec. intros H. exact H.
  - exec. rewrite app_nil_r. intros H. exact H.
Qed.

Lemma start_element_step name {A} (k : M A) w :
  (XML_CHECK (xmlTextWriterStartElement name) ;; k) w
  = k (W name [] [] XML_TEXTWRITER_NAME
         (close_start_tag (nodes (writer w))) (document (writer w))
         (filetime_calls w)).
Proof. reflexivity. Qed.

Lemma root_attribute_step (is_root : bool) {A} (k : M A) n a c ps doc fc :
  ((if is_root
    then XML_CHECK (xmlTextWriterWriteAttribute "root" (Some "1"))
    else ret tt) ;; k) (W n a c XML_TEXTWRITER_NAME ps doc fc)
  = k (W n (a ++ (if is_root then [("root", [Chars "1"])] else [])) c
         XML_TEXTWRITER_NAME ps doc fc).
Proof. destruct is_root; exec; rewrite ?app_nil_r; reflexivity. Qed.

Lemma node_start_inv h node name w r w' :
  node_start h node name w = Done r w' ->
  w' = after_node_start h node name w.
Proof.
  unfold node_start, after_node_start, node_attributes, node_children.
  rewrite start_element_step. unfold bind at 1.
  known_call (safe_print_string_attribute (Some "name")
                (Some "name_encoding") name)
             safe_print_string_attribute_inv.
  rewrite root_attribute_step.
  intros H. apply mtime_inv in H.
  apply node_byte_runs_inv in H.
  2:{ destruct (mtime_nodes _); exact I. }
  destruct H as [-> | [E ->]]; [reflexivity |].
  rewrite E, app_nil_r. reflexivity.
Qed.

(** *** The functions return *)

Lemma size_t_to_int_small n :
  0 <= n <= INT_MAX -> Hivexml.size_t_to_int n = n.
Proof.
  unfold Hivexml.size_t_to_int, wrap_signed, INT_MAX. intros H.
  change (2 ^ 32) with 4294967296. change (2 ^ (32 - 1)) with 2147483648.
  change (2 ^ 31) with 2147483648 in H.
  rewrite Z.mod_small by lia.
  destruct (Z.ltb_spec n 2147483648); lia.
Qed.

Lemma safe_print_string_attribute_returns an ae d n a c ps doc fc :
  (forall s, d = Some s -> fits_int s) ->
  exists r,
    safe_print_string_attribute (Some an) (Some ae) d
      (W n a c XML_TEXTWRITER_NAME ps doc fc)
    = Done r (W n (a ++ string_attribute an ae d) c XML_TEXTWRITER_NAME
                ps doc fc).
Proof.
  unfold safe_print_string_attribute, string_attribute, fits_int.
  intros F. destruct d as [d |].
  2:{ exec. rewrite app_nil_r. eexists. reflexivity. }
  specialize (F d eq_refl).
  destruct (encoding_recommendation_cases d) as [-> | ->]; exec.
  - eexists. reflexivity.
  - rewrite size_t_to_int_small by lia.
    destruct (Z.ltb_spec (Z.of_nat (strlen d)) 0); [lia |]. exec.
    rewrite <- app_assoc. eexists. reflexivity.
Qed.

Ltac safe_print_returns_step :=
  match goal with
  | |- context [safe_print_string_attribute (Some ?an) (Some ?ae) ?d
                  (W ?n ?a ?c XML_TEXTWRITER_NAME ?ps ?doc ?fc)] =>
      let r := fresh "r" in
      let E := fresh "E" in
      destruct (safe_print_string_attribute_returns an ae d n a c ps doc fc)
        as (r & E); [| rewrite E; clear E]
  end.

Lemma start_value_returns key type encoding w :
  fits_int key ->
  start_value key type encoding w
  = Done tt (W "value" (start_value_attributes key type encoding) []
               XML_TEXTWRITER_NAME
               (close_start_tag (nodes (writer w))) (document (writer w))
               (filetime_calls w)).
Proof.
  intros F.
  destruct (start_value key type encoding w) as [[] w1 | w1 | w1] eqn:E.
  - apply start_value_inv in E. subst. reflexivity.
  - exfalso. revert E. unfold start_value.
    destruct encoding as [e |]; destruct (Ascii.eqb (char_at key 0) NUL);
      exec; try discriminate.
    all: safe_print_returns_step; [intros ? [= <-]; exact F |];
      discriminate.
  - exfalso. revert E. unfold start_value.
    destruct encoding as [e |]; destruct (Ascii.eqb (char_at key 0) NUL);
      exec; try discriminate.
    all: safe_print_returns_step; [intros ? [= <-]; exact F |];
      discriminate.
Qed.

Lemma value_byte_runs_returns h value n a c s ps doc fc :
  plain s ->
  exists r s',
    plain s'
    /\ value_byte_runs h value (W n a c s ps doc fc)
       = Done r (W n a (c ++ value_byte_runs_nodes h value) s' ps doc fc).
Proof.
  intros Hs. unfold value_byte_runs, value_byte_runs_nodes, byte_run.
  destruct (hivex_value_struct_length h value) as [e1 l1].
  destruct (hivex_value_data_cell_offset h value) as [e2 [off l2]].
  destruct (e1 =? 0); exec.
  2:{ exists (-1), s. rewrite app_nil_r. auto. }
  destruct (e2 =? 0); exec.
  2:{ exists (-1), s. rewrite app_nil_r. auto. }
  destruct (plain_cases s Hs) as [-> | ->];
    destruct (4 <? l2); unfold emit; exec;
    exists 0, XML_TEXTWRITER_TEXT; split; reflexivity || exact I.
Qed.

Lemma finish_value_returns h value n a c s ps doc fc :
  plain s ->
  exists r,
    (ret <- value_byte_runs h value ;; end_value ;; Hivexml.ret ret)
      (W n a c s ps doc fc)
    = Done r (mk_world
                (emit (Element n a (c ++ value_byte_runs_nodes h value))
                      (mk_writer ps doc)) fc).
Proof.
  intros Hs.
  destruct (value_byte_runs_returns h value n a c s ps doc fc Hs)
    as (r & s' & Hs' & E).
  exists r. unfold bind. rewrite E, end_value_spec by exact Hs'.
  reflexivity.
Qed.

Lemma base64_attribute_step d len {A} (k : M A) n a c ps doc fc :
  0 <= len <= INT_MAX ->
  (XML_CHECK (xmlTextWriterStartAttribute "value") ;;
   XML_CHECK (xmlTextWriterWriteBase64 (Some d) 0 (size_t_to_int len)) ;;
   XML_CHECK xmlTextWriterEndAttribute ;;
   k) (W n a c XML_TEXTWRITER_NAME ps doc fc)
  = k (W n (a ++ [("value", [Base64 (substring 0 (Z.to_nat len) d)])]) c
         XML_TEXTWRITER_NAME ps doc fc).
Proof.
  intros H. rewrite size_t_to_int_small by exact H. exec.
  destruct (Z.ltb_spec len 0); [lia |]. exec. reflexivity.
Qed.

(** [value_string_invalid_utf16] returns when the type is one it takes,
    the data pointer is not NULL and the lengths fit an [int]. *)
Lemma value_string_invalid_utf16_returns h a d type w :
  value_string_invalid_utf16_type (va_type a) = Some type ->
  0 <= va_len a <= INT_MAX ->
  fits_int (va_key a) ->
  exists r,
    visitor h (call_value_string_invalid_utf16 a (Some d)) w
    = Done r
        (after_element
           (Element "value"
              (start_value_attributes (va_key a) type (Some "base64")
               ++ [("value",
                    [Base64 (substring 0 (Z.to_nat (va_len a)) d)])])
              (value_byte_runs_nodes h (va_value a))) w).
Proof.
  intros T L F. cbn [visitor].
  unfold apply_value, value_string_invalid_utf16.
  rewrite value_string_invalid_utf16_switch, T.
  unfold bind at 1 2. cbn [ret].
  rewrite start_value_returns by exact F.
  rewrite base64_attribute_step by exact L.
  destruct (finish_value_returns h (va_value a) "value"
              (start_value_attributes (va_key a) type (Some "base64")
               ++ [("value",
                    [Base64 (substring 0 (Z.to_nat (va_len a)) d)])])
              [] XML_TEXTWRITER_NAME
              (close_start_tag (nodes (writer w))) (document (writer w))
              (filetime_calls w) I) as (r & E).
  exists r. exact E.
Qed.

Lemma mtime_step ticks {A} (k : M A) n a ps doc fc :
  ticks <= INT64_MAX ->
  ((if 0 <=? ticks then
      timebuf <- filetime_to_8601 ticks ;;
      match timebuf with
      | Some _ =>
          XML_CHECK (xmlTextWriterStartElement "mtime") ;;
          XML_CHECK (xmlTextWriterWriteString timebuf) ;;
          XML_CHECK xmlTextWriterEndElement
      | None => ret tt
      end
    else ret tt) ;; k) (W n a [] XML_TEXTWRITER_NAME ps doc fc)
  = k (W n a (mtime_nodes ticks) (state_after (mtime_nodes ticks)) ps doc
         (fc ++ (if 0 <=? ticks then [ticks] else []))).
Proof.
  intros T. unfold mtime_nodes.
  destruct (Z.leb_spec 0 ticks).
  - unfold bind at 1 2.
    rewrite filetime_to_8601_returns by (unfold INT64_MIN; lia).
    unfold logged. cbn [writer filetime_calls].
    destruct (timestamp_string ticks) as [s |].
    + unfold close_start_tag, emit. exec. unfold emit. exec. reflexivity.
    + exec. reflexivity.
  - exec. rewrite app_nil_r. reflexivity.
Qed.

Lemma node_byte_runs_returns h node n a c s ps doc fc :
  plain s ->
  exists r w', node_byte_runs h node (W n a c s ps doc fc) = Done r w'.
Proof.
  intros Hs. unfold node_byte_runs.
  destruct (hivex_node_struct_length h node) as [e l].
  destruct (e =? 0); exec; [| eexists _, _; reflexivity].
  destruct (plain_cases s Hs) as [-> | ->]; unfold emit; exec;
    eexists _, _; reflexivity.
Qed.

(** [node_start] returns when the name fits an [int] and the timestamp is
    a 64-bit number. *)
Lemma node_start_returns h node name w :
  (forall s, name = Some s -> fits_int s) ->
  hivex_node_timestamp h node <= INT64_MAX ->
  exists r,
    node_start h node name w = Done r (after_node_start h node name w).
Proof.
  intros F T.
  assert (R : exists r w', node_start h node name w = Done r w').
  { unfold node_start.
    rewrite start_element_step. unfold bind at 1.
    safe_print_returns_step; [exact F |].
    rewrite root_attribute_step, mtime_step by exact T.
    apply node_byte_runs_returns. destruct (mtime_nodes _); exact I. }
  destruct R as (r & w' & E). exists r. rewrite E.
  apply node_start_inv in E. subst w'. reflexivity.
Qed.

Lemma value_multiple_strings_loop_returns : forall argv ret n a c s ps doc fc,
  Forall fits_int argv ->
  plain s ->
  exists r w',
    value_multiple_strings_loop argv ret (W n a c s ps doc fc) = Done r w'.
Proof.
  induction argv as [| x argv IH]; intros ret n a c s ps doc fc F Hs;
    unfold value_multiple_strings_loop; fold value_multiple_strings_loop.
  - eexists _, _. reflexivity.
  - inversion F as [| x' argv' Fx Fargv]; subst.
    destruct (plain_cases s Hs) as [-> | ->]; unfold close_start_tag; exec.
    all: safe_print_returns_step; [intros ? [= <-]; exact Fx |].
    all: unfold emit; exec.
    all: apply IH; [exact Fargv | exact I].
Qed.

Lemma optional_value_returns h value (v : option string) len
  n a ps doc fc :
  (0 < len -> payload_ready v len) ->
  exists r w',
    (ret <-
       (if 0 <? len then
          XML_CHECK (xmlTextWriterStartAttribute "value") ;;
          XML_CHECK (xmlTextWriterWriteBase64 v 0 (size_t_to_int len)) ;;
          XML_CHECK xmlTextWriterEndAttribute ;;
          value_byte_runs h value
        else ret 0) ;;
     end_value ;;
     Hivexml.ret ret) (W n a [] XML_TEXTWRITER_NAME ps doc fc)
    = Done r w'.
Proof.
  intros P. destruct (Z.ltb_spec 0 len) as [L | L].
  - destruct (P L) as [N B]. destruct v as [d |]; [| contradiction].
    unfold bind at 1. rewrite base64_attribute_step by exact B.
    destruct (value_byte_runs_returns h value n
                (a ++ [("value", [Base64 (substring 0 (Z.to_nat len) d)])])
                [] XML_TEXTWRITER_NAME ps doc fc I)
      as (r & s' & Hs' & ->).
    unfold bind. rewrite end_value_spec by exact Hs'.
    eexists _, _. reflexivity.
  - unfold bind, ret. rewrite end_value_spec by exact I.
    eexists _, _. reflexivity.
Qed.

Ltac finish_value_step :=
  unfold bind;
  match goal with
  | |- context [value_byte_runs ?h ?value (W ?n ?a ?c ?s ?ps ?doc ?fc)] =>
      let r' := fresh "r" in
      let s' := fresh "s" in
      let Hs' := fresh "Hs" in
      let E := fresh "E" in
      destruct (value_byte_runs_returns h value n a c s ps doc fc I)
        as (r' & s' & Hs' & E);
      rewrite E, end_value_spec by exact Hs';
      eexists _, _; reflexivity
  end.

(** Every callback returns when its call is ready: nothing but a type
    tag that is refused, a NULL pointer, a length beyond [int] or a
    writer with nothing to end stops one. *)
Lemma visitor_returns h c w :
  call_ready h c w -> exists r w', visitor h c w = Done r w'.
Proof.
  destruct c as [node name | node name | a str | a argv | a str | a v
                 | a v | a v | a v | a v];
    cbn [call_ready visitor]; unfold apply_value.
  - intros [F T].
    destruct (node_start_returns h node name w F T) as (r & E).
    eexists _, _. exact E.
  - intros N. unfold node_end, bind, XML_CHECK, xmlTextWriterEndElement.
    destruct (nodes (writer w)); [contradiction |].
    eexists _, _. reflexivity.
  - intros (T & K & F). unfold value_string.
    rewrite value_string_switch.
    destruct (value_string_type (va_type a)); [| contradiction].
    unfold bind at 1 2. cbn [ret]. rewrite start_value_returns by exact K.
    unfold bind at 1. safe_print_returns_step; [exact F |].
    finish_value_step.
  - intros (K & F). unfold value_multiple_strings.
    unfold bind at 1. rewrite start_value_returns by exact K.
    unfold bind at 1.
    destruct (value_multiple_strings_loop_returns argv 0 "value"
                (start_value_attributes (va_key a) "string-list" None) []
                XML_TEXTWRITER_NAME (close_start_tag (nodes (writer w)))
                (document (writer w)) (filetime_calls w) F I)
      as (r & w1 & E).
    rewrite E. apply value_multiple_strings_loop_inv in E; [| exact I].
    destruct E as (s' & Hs' & ->).
    destruct (finish_value_returns h (va_value a) "value"
                (start_value_attributes (va_key a) "string-list" None)
                ([] ++ map string_element argv) s'
                (close_start_tag (nodes (writer w)))
                (document (writer w)) (filetime_calls w) Hs') as (r' & E).
    rewrite E. eexists _, _. reflexivity.
  - intros (T & K & N & L). unfold value_string_invalid_utf16.
    rewrite value_string_invalid_utf16_switch.
    destruct (value_string_invalid_utf16_type (va_type a));
      [| contradiction].
    destruct str as [d |]; [| contradiction].
    unfold bind at 1 2. cbn [ret]. rewrite start_value_returns by exact K.
    rewrite base64_attribute_step by exact L.
    finish_value_step.
  - intros K. unfold value_dword.
    unfold bind at 1. rewrite start_value_returns by exact K.
    unfold bind at 1. exec. finish_value_step.
  - intros K. unfold value_qword.
    unfold bind at 1. rewrite start_value_returns by exact K.
    unfold bind at 1. exec. finish_value_step.
  - intros (K & N & L). unfold value_binary.
    destruct v as [d |]; [| contradiction].
    unfold bind at 1. rewrite start_value_returns by exact K.
    rewrite base64_attribute_step by exact L.
    finish_value_step.
  - intros (K & P). unfold value_none.
    unfold bind at 1. rewrite start_value_returns by exact K.
    apply optional_value_returns. exact P.
  - intros (T & K & P). unfold value_other.
    rewrite value_other_switch.
    destruct (value_other_type (va_type a)); [| contradiction].
    unfold bind at 1 2. cbn [ret]. rewrite start_value_returns by exact K.
    apply optional_value_returns. exact P.
Qed.

(* ================================================================== *)
(** ** Properties of the timestamp converter *)
(* ================================================================== *)

(** C2, as the claim states it, fails: the tick count of
    10000-01-01T00:00:00Z is a 64-bit number that is not zero, and the
    string returned for it has a year of five digits. *)
Lemma C2_counterexample_year_10000 :
  INT64_MIN <= 2650467744000000000 <= INT64_MAX
  /\ 2650467744000000000 <> 0
  /\ filetime_to_8601 2650467744000000000 initial_world
     = Done (Some "10000-01-01T00:00:00Z")
            (logged 2650467744000000000 initial_world)
  /\ iso8601_strict "10000-01-01T00:00:00Z" = false.
Proof.
  split; [unfold INT64_MIN, INT64_MAX; lia |].
  split; [discriminate |].
  split; vm_compute; reflexivity.
Qed.

(** C2 (amended): for every 64-bit tick count [t] the converter returns,
    and it returns "absent" exactly when [t] is 0. For every other [t]
    the string is the ["%FT%TZ"] rendering of the UTC time of the Unix
    second [t / 10,000,000 - 11,644,473,600]; when that second lies in
    the years 1000 to 9999, that is for
    [-189657504010000000 < t < 2650467744000000000], the string has the
    strict form [YYYY-MM-DDTHH:MM:SSZ] and names that very second. *)
Theorem C2_filetime_to_8601 (t : Z) (w : world) :
  INT64_MIN <= t <= INT64_MAX ->
  exists r,
    filetime_to_8601 t w = Done r (logged t w)
    /\ (r = None <-> t = 0)
    /\ (forall s, r = Some s ->
          exists b,
            gmtime (unix_second_of_ticks t) = Some b
            /\ timegm b = unix_second_of_ticks t
            /\ s = snd (strftime TIMESTAMP_BUF_LEN "%FT%TZ" b))
    /\ (t <> 0 ->
        -189657504010000000 < t < 2650467744000000000 ->
        exists s,
          r = Some s
          /\ iso8601_strict s = true
          /\ iso8601_instant s = Some (unix_second_of_ticks t)).
Proof.
  intros H. exists (timestamp_string t).
  split; [apply filetime_to_8601_returns; exact H |].
  split; [apply timestamp_string_absent; exact H |].
  split; [| apply timestamp_string_strict].
  intros s. unfold timestamp_string, unix_second_of_ticks.
  destruct (t =? 0); [discriminate |].
  change (Z.quot t WINDOWS_TICK - SEC_TO_UNIX_EPOCH)
    with (Z.quot t 10000000 - 11644473600).
  destruct (gmtime (Z.quot t 10000000 - 11644473600)) as [b |] eqn:E;
    [| discriminate].
  intros [= <-]. exists b.
  split; [reflexivity |]. split; [| reflexivity].
  apply gmtime_timegm. exact E.
Qed.

(** The tick count 116444736000000000 yields "1970-01-01T00:00:00Z". *)
Lemma C2_witness_unix_epoch :
  INT64_MIN <= 116444736000000000 <= INT64_MAX
  /\ 116444736000000000 <> 0
  /\ -189657504010000000 < 116444736000000000 < 2650467744000000000
  /\ filetime_to_8601 116444736000000000 initial_world
     = Done (Some "1970-01-01T00:00:00Z")
            (logged 116444736000000000 initial_world)
  /\ iso8601_instant "1970-01-01T00:00:00Z"
     = Some (unix_second_of_ticks 116444736000000000).
Proof.
  assert (R : INT64_MIN <= 116444736000000000 <= INT64_MAX)
    by (unfold INT64_MIN, INT64_MAX; lia).
  assert (N : 116444736000000000 <> 0) by discriminate.
  assert (B : -189657504010000000 < 116444736000000000
              < 2650467744000000000) by lia.
  destruct (C2_filetime_to_8601 116444736000000000 initial_world R)
    as (r & E & _ & _ & S).
  destruct (S N B) as (s & -> & _ & I).
  assert (Es : s = "1970-01-01T00:00:00Z").
  { assert (E' : filetime_to_8601 116444736000000000 initial_world
                 = Done (Some "1970-01-01T00:00:00Z")
                        (logged 116444736000000000 initial_world))
      by (vm_compute; reflexivity).
    rewrite E' in E. injection E as E. symmetry. exact E. }
  subst s.
  repeat split; try assumption; try lia.
Defined.

(* ================================================================== *)
(** ** Properties of the encoding safety classifier *)
(* ================================================================== *)

(** C3 holds for every string that has a byte before its first NUL: such
    a string is "direct" exactly when all those bytes are printable. *)
Lemma encoding_recommendation_nonempty data :
  strlen data <> O ->
  (all_printable data -> encoding_recommendation data = "none")
  /\ (some_unprintable data -> encoding_recommendation data = "base64").
Proof.
  intros N. split.
  - intros A. apply encoding_recommendation_none. auto.
  - apply encoding_recommendation_some_unprintable.
Qed.

(** C3 at the input where the code departs from it: the sequence that
    starts with its NUL has only printable bytes before the NUL (it has
    none), and is classified "escaped", whatever follows the NUL. *)
Theorem C3_lone_NUL_is_escaped (rest : string) :
  all_printable (String NUL rest)
  /\ strlen (String NUL rest) = O
  /\ encoding_recommendation (String NUL rest) = "base64".
Proof.
  split; [| split; reflexivity].
  intros i Hi. cbn in Hi. lia.
Qed.

(* ================================================================== *)
(** ** Properties of the node serializer *)
(* ================================================================== *)

#[local] Arguments String.eqb : simpl nomatch.

Lemma string_attribute_cases name enc data :
  string_attribute name enc data = []
  \/ (exists s, string_attribute name enc data = [(name, [Chars s])])
  \/ (exists b, string_attribute name enc data
                = [(enc, [Chars "base64"]); (name, [Base64 b])]).
Proof.
  unfold string_attribute, base64_of. destruct data as [d |]; [| auto].
  destruct (String.eqb _ _); eauto.
Qed.

Lemma node_attributes_root h node name :
  (node = hivex_root h ->
   lookup "root" (node_attributes h node name) = Some [Chars "1"])
  /\ (node <> hivex_root h ->
      has_attr "root" (node_attributes h node name) = false).
Proof.
  unfold node_attributes.
  split; intros N;
    (destruct (Z.eqb_spec node (hivex_root h)) as [E | E];
     [| ]; try contradiction);
    destruct (string_attribute_cases "name" "name_encoding" name)
      as [-> | [[s ->] | [b ->]]]; reflexivity.
Qed.

(** C7: the [node] element that [node_start] opens carries [root="1"]
    when the node is the root of the hive, where the visit starts, and
    carries no [root] attribute when it is any other node. *)
Theorem C7_root_attribute (h : hive_h) (node : hive_node_h)
  (name : option string) (w : world) (r : Z) (w' : world) :
  node_start h node name w = Done r w' ->
  exists e,
    nodes (writer w') = e :: close_start_tag (nodes (writer w))
    /\ e_name e = "node"
    /\ (node = hivex_root h ->
        lookup "root" (e_attrs e) = Some [Chars "1"])
    /\ (node <> hivex_root h -> has_attr "root" (e_attrs e) = false).
Proof.
  intros H. apply node_start_inv in H. subst w'.
  eexists. split; [reflexivity |]. split; [reflexivity |].
  apply node_attributes_root.
Qed.

Lemma C7_witness_root_node :
  node_start example_hive 4128 (Some "ROOT") initial_world
  = Done 0 (after_node_start example_hive 4128 (Some "ROOT") initial_world)
  /\ exists e,
       nodes (writer (after_node_start example_hive 4128 (Some "ROOT")
                        initial_world))
       = e :: close_start_tag (nodes (writer initial_world))
       /\ e_name e = "node"
       /\ (4128 = hivex_root example_hive ->
           lookup "root" (e_attrs e) = Some [Chars "1"])
       /\ (4128 <> hivex_root example_hive ->
           has_attr "root" (e_attrs e) = false).
Proof.
  split.
  - vm_compute. reflexivity.
  - apply (C7_root_attribute example_hive 4128 (Some "ROOT")
             initial_world 0).
    vm_compute. reflexivity.
Defined.

(** C9: a string with no byte before its NUL is classified "escaped";
    so a node with an empty name gets [name_encoding="base64"] and a
    [name] attribute that is the base64 encoding of no bytes, not a raw
    empty [name] attribute. *)
Theorem C9_empty_name_is_escaped (h : hive_h) (node : hive_node_h)
  (name : string) (w : world) :
  strlen name = O ->
  hivex_node_timestamp h node <= INT64_MAX ->
  encoding_recommendation name = "base64"
  /\ exists r w' e,
       node_start h node (Some name) w = Done r w'
       /\ nodes (writer w') = e :: close_start_tag (nodes (writer w))
       /\ e_name e = "node"
       /\ lookup "name_encoding" (e_attrs e) = Some [Chars "base64"]
       /\ lookup "name" (e_attrs e) = Some [Base64 EmptyString].
Proof.
  intros E T.
  pose proof (encoding_recommendation_empty name E) as R.
  split; [exact R |].
  destruct (node_start_returns h node (Some name) w) as (r & N);
    [| exact T |].
  { intros s [= <-]. unfold fits_int, INT_MAX. rewrite E. cbn. lia. }
  exists r, (after_node_start h node (Some name) w). eexists.
  split; [exact N |]. split; [reflexivity |]. split; [reflexivity |].
  cbn [e_attrs]. unfold node_attributes, string_attribute, base64_of.
  rewrite R, E. split; [reflexivity |].
  destruct name; reflexivity.
Qed.

Lemma C9_witness_empty_name :
  strlen (String NUL "ignored") = O
  /\ hivex_node_timestamp example_hive 4400 <= INT64_MAX
  /\ encoding_recommendation (String NUL "ignored") = "base64"
  /\ exists r w' e,
       node_start example_hive 4400 (Some (String NUL "ignored"))
         initial_world = Done r w'
       /\ nodes (writer w')
          = e :: close_start_tag (nodes (writer initial_world))
       /\ e_name e = "node"
       /\ lookup "name_encoding" (e_attrs e) = Some [Chars "base64"]
       /\ lookup "name" (e_attrs e) = Some [Base64 EmptyString].
Proof.
  split; [reflexivity |].
  split; [vm_compute; discriminate |].
  apply (C9_empty_name_is_escaped example_hive 4400 (String NUL "ignored")
           initial_world).
  - reflexivity.
  - vm_compute. discriminate.
Defined.

(* ================================================================== *)
(** ** Negative tick counts *)
(* ================================================================== *)

Lemma converts_nonnegative_ret {A} (a : A) : converts_nonnegative (ret a).
Proof. intros w. exists []. rewrite app_nil_r. cbn. auto. Qed.

Lemma converts_nonnegative_exit {A} :
  converts_nonnegative (@exit_failure A).
Proof. intros w. exists []. rewrite app_nil_r. cbn. auto. Qed.

Lemma converts_nonnegative_abort {A} : converts_nonnegative (@abort A).
Proof. intros w. exists []. rewrite app_nil_r. cbn. auto. Qed.

Lemma converts_nonnegative_XML_CHECK proc :
  converts_nonnegative (XML_CHECK proc).
Proof.
  intros w. exists []. rewrite app_nil_r. unfold XML_CHECK.
  destruct (proc (writer w)) as [r x]. destruct (r =? -1); cbn; auto.
Qed.

Lemma converts_nonnegative_bind {A B} (m : M A) (k : A -> M B) :
  converts_nonnegative m ->
  (forall a, converts_nonnegative (k a)) ->
  converts_nonnegative (bind m k).
Proof.
  intros Hm Hk w. unfold bind.
  destruct (Hm w) as (l1 & E1 & F1).
  destruct (m w) as [a w1 | w1 | w1]; cbn [final_world] in *.
  - destruct (Hk a w1) as (l2 & E2 & F2).
    exists (l1 ++ l2). rewrite E2, E1, app_assoc.
    split; [reflexivity | apply Forall_app; auto].
  - exists l1. auto.
  - exists l1. auto.
Qed.

Lemma converts_nonnegative_filetime_to_8601 ticks :
  0 <= ticks -> converts_nonnegative (filetime_to_8601 ticks).
Proof.
  intros H w. exists [ticks]. split; [| auto].
  unfold filetime_to_8601, bind. cbn [record_filetime_call].
  destruct (ticks =? 0); [reflexivity |].
  destruct (gmtime _); [| reflexivity].
  destruct (strftime _ _ _) as [n buf].
  destruct (n =? 0); reflexivity.
Qed.

(** One step of a proof that a program only converts tick counts that
    are not negative: by the structure of the program. *)
Ltac converts_nonnegative_step :=
  first
    [ apply converts_nonnegative_ret
    | apply converts_nonnegative_exit
    | apply converts_nonnegative_abort
    | apply converts_nonnegative_XML_CHECK
    | apply converts_nonnegative_filetime_to_8601; assumption
    | match goal with
      | H : context [converts_nonnegative] |- _ => apply H
      end
    | apply converts_nonnegative_bind; [| intros ?]
    | match goal with
      | |- converts_nonnegative (if 0 <=? ?t then _ else _) =>
          destruct (Z.leb_spec 0 t)
      | |- converts_nonnegative (match ?x with _ => _ end) => destruct x
      end ].

Lemma converts_nonnegative_safe_print_string_attribute an ae d :
  converts_nonnegative (safe_print_string_attribute an ae d).
Proof.
  unfold safe_print_string_attribute. repeat converts_nonnegative_step.
Qed.

Lemma converts_nonnegative_value_byte_runs h value :
  converts_nonnegative (value_byte_runs h value).
Proof. unfold value_byte_runs. repeat converts_nonnegative_step. Qed.

Lemma converts_nonnegative_start_value key type encoding :
  converts_nonnegative (start_value key type encoding).
Proof.
  pose proof converts_nonnegative_safe_print_string_attribute.
  unfold start_value. repeat converts_nonnegative_step.
Qed.

Lemma converts_nonnegative_value_multiple_strings_loop argv : forall ret,
  converts_nonnegative (value_multiple_strings_loop argv ret).
Proof.
  pose proof converts_nonnegative_safe_print_string_attribute.
  induction argv as [| s argv IH]; intros ret;
    unfold value_multiple_strings_loop; fold value_multiple_strings_loop;
    repeat converts_nonnegative_step.
Qed.

Lemma converts_nonnegative_visitor h c : converts_nonnegative (visitor h c).
Proof.
  pose proof converts_nonnegative_safe_print_string_attribute.
  pose proof converts_nonnegative_start_value.
  pose proof (converts_nonnegative_value_byte_runs h).
  pose proof converts_nonnegative_value_multiple_strings_loop.
  destruct c; cbn [visitor];
    unfold apply_value, node_start, node_end, node_byte_runs, value_string,
      value_multiple_strings, value_string_invalid_utf16, value_dword,
      value_qword, value_binary, value_none, value_other, end_value;
    repeat converts_nonnegative_step.
Qed.

Lemma converts_nonnegative_hivex_visit h calls :
  converts_nonnegative (hivex_visit h calls).
Proof.
  induction calls as [| c calls IH]; cbn [hivex_visit].
  - apply converts_nonnegative_ret.
  - apply converts_nonnegative_bind;
      [apply converts_nonnegative_visitor | intros r].
    destruct (r =? -1); [apply converts_nonnegative_ret | exact IH].
Qed.

Lemma converts_nonnegative_main h calls :
  converts_nonnegative (main h calls).
Proof.
  pose proof (converts_nonnegative_hivex_visit h calls).
  unfold main. repeat converts_nonnegative_step.
Qed.

(** With a negative hive timestamp [main] goes from the opening of the
    [hive] element straight to the visit. *)
Lemma main_negative_mtime h calls doc fc :
  hivex_last_modified h < 0 ->
  main h calls (mk_world (mk_writer [] doc) fc)
  = main_after_mtime h calls (W "hive" [] [] XML_TEXTWRITER_NAME [] doc fc).
Proof.
  intros H. unfold main, main_after_mtime.
  destruct (Z.leb_spec 0 (hivex_last_modified h)); [lia |].
  reflexivity.
Qed.

Lemma node_children_negative h node :
  hivex_node_timestamp h node < 0 ->
  node_children h node = node_byte_runs_nodes h node.
Proof.
  intros H. unfold node_children, mtime_nodes.
  destruct (Z.leb_spec 0 (hivex_node_timestamp h node)); [lia |].
  reflexivity.
Qed.

Lemma node_byte_runs_nodes_no_mtime h node :
  children_named "mtime" (node_byte_runs_nodes h node) = [].
Proof.
  unfold node_byte_runs_nodes.
  destruct (hivex_node_struct_length h node) as [e l].
  destruct (negb _); reflexivity.
Qed.

(** C10: in any run of [main], whatever the hive and the walk, every
    tick count handed to the converter is non-negative. With a negative
    hive timestamp [main] writes no [mtime] element for the hive and goes
    on with the visit; with a negative node timestamp [node_start]
    returns having written the name, the root mark and the byte runs of
    the node, no [mtime] element, and without a call of the converter. *)
Theorem C10_negative_ticks_skip_the_converter (h : hive_h)
  (calls : list visitor_call) (doc : list Xml.node) (fc : list Z)
  (node : hive_node_h) (name : option string) (w : world) :
  converts_nonnegative (main h calls)
  /\ (hivex_last_modified h < 0 ->
      main h calls (mk_world (mk_writer [] doc) fc)
      = main_after_mtime h calls
          (W "hive" [] [] XML_TEXTWRITER_NAME [] doc fc))
  /\ (hivex_node_timestamp h node < 0 ->
      (forall s, name = Some s -> fits_int s) ->
      exists r e,
        node_start h node name w
        = Done r
            {| writer :=
                 {| nodes := e :: close_start_tag (nodes (writer w));
                    document := document (writer w) |};
               filetime_calls := filetime_calls w |}
        /\ e_name e = "node"
        /\ e_attrs e = node_attributes h node name
        /\ e_children e = node_byte_runs_nodes h node
        /\ children_named "mtime" (e_children e) = []).
Proof.
  split; [apply converts_nonnegative_main |].
  split; [apply main_negative_mtime |].
  intros T F.
  destruct (node_start_returns h node name w F) as (r & E);
    [unfold INT64_MAX; lia |].
  exists r. eexists. split.
  - rewrite E. unfold after_node_start.
    destruct (Z.leb_spec 0 (hivex_node_timestamp h node)); [lia |].
    rewrite app_nil_r. reflexivity.
  - cbn [e_name e_attrs e_children].
    rewrite node_children_negative by exact T.
    repeat split. apply node_byte_runs_nodes_no_mtime.
Qed.

Lemma C10_witness_unreadable_timestamps :
  hivex_last_modified example_hive_no_mtime < 0
  /\ hivex_node_timestamp example_hive_no_mtime 4400 < 0
  /\ (forall s, Some "Child" = Some s -> fits_int s)
  /\ converts_nonnegative (main example_hive_no_mtime example_walk)
  /\ main example_hive_no_mtime example_walk initial_world
     = main_after_mtime example_hive_no_mtime example_walk
         (W "hive" [] [] XML_TEXTWRITER_NAME [] [] [])
  /\ exists r e,
       node_start example_hive_no_mtime 4400 (Some "Child") initial_world
       = Done r
           {| writer :=
                {| nodes :=
                     e :: close_start_tag (nodes (writer initial_world));
                   document := document (writer initial_world) |};
              filetime_calls := filetime_calls initial_world |}
       /\ e_name e = "node"
       /\ e_attrs e
          = node_attributes example_hive_no_mtime 4400 (Some "Child")
       /\ e_children e = node_byte_runs_nodes example_hive_no_mtime 4400
       /\ children_named "mtime" (e_children e) = [].
Proof.
  assert (H1 : hivex_last_modified example_hive_no_mtime < 0)
    by reflexivity.
  assert (H2 : hivex_node_timestamp example_hive_no_mtime 4400 < 0)
    by reflexivity.
  assert (H3 : forall s, Some "Child" = Some s -> fits_int s)
    by (intros s [= <-]; vm_compute; discriminate).
  destruct (C10_negative_ticks_skip_the_converter example_hive_no_mtime
              example_walk [] [] 4400 (Some "Child") initial_world)
    as (C1 & C2 & C3).
  split; [exact H1 |]. split; [exact H2 |]. split; [exact H3 |].
  split; [exact C1 |]. split; [exact (C2 H1) |]. exact (C3 H2 H3).
Defined.

(* ================================================================== *)
(** ** Properties of the value serializer *)
(* ================================================================== *)

Lemma key_empty key :
  Ascii.eqb (char_at key 0) NUL = true <-> strlen key = O.
Proof.
  destruct key as [| c key]; cbn; [tauto |].
  unfold strlen. destruct (Ascii.eqb c NUL); split; try discriminate; auto.
Qed.

Lemma value_element_inv h c e :
  value_element h c = Some e ->
  exists a type encoding rest argv runs,
    value_call_args c = Some a
    /\ e = Element "value"
             (start_value_attributes (va_key a) type encoding ++ rest)
             (map string_element argv ++ runs)
    /\ value_rest_shape (empty_none_or_other c) encoding rest
    /\ ((runs = value_byte_runs_nodes h (va_value a)
         /\ empty_none_or_other c = false)
        \/ (runs = [] /\ empty_none_or_other c = true)).
Proof.
  unfold value_rest_shape.
  destruct c as [| | a str | a argv | a str | a v | a v | a v | a v | a v];
    cbn [value_element empty_none_or_other]; try discriminate.
  - destruct (value_string_type (va_type a)) as [type |]; [| discriminate].
    intros [= <-]. exists a, type, None. eexists _, [], _.
    split; [reflexivity |]. split; [reflexivity |].
    split; [| left; auto].
    destruct (string_attribute_cases "value" "value_encoding" str)
      as [-> | [[s ->] | [s ->]]]; eauto 8.
  - intros [= <-]. exists a, "string-list", None, [], argv. eexists.
    split; [reflexivity |]. rewrite app_nil_r. auto 6.
  - destruct (value_string_invalid_utf16_type (va_type a)) as [type |];
      [| discriminate].
    destruct str as [d |]; [| discriminate].
    intros [= <-]. exists a, type, (Some "base64"). eexists _, [], _.
    split; [reflexivity |]. split; [reflexivity |].
    unfold base64_value, base64_of. split; [eauto 8 | auto].
  - intros [= <-]. exists a, "int32", None. eexists _, [], _.
    split; [reflexivity |]. split; [reflexivity |]. split; [eauto 8 | auto].
  - intros [= <-]. exists a, "int64", None. eexists _, [], _.
    split; [reflexivity |]. split; [reflexivity |]. split; [eauto 8 | auto].
  - destruct v as [d |]; [| discriminate].
    intros [= <-]. exists a, "binary", (Some "base64"). eexists _, [], _.
    split; [reflexivity |]. split; [reflexivity |].
    unfold base64_value, base64_of. split; [eauto 8 | auto].
  - unfold value_element_optional.
    destruct (0 <? va_len a); cbn [negb].
    + destruct v as [d |]; [| discriminate].
      intros [= <-]. exists a, "none", (Some "base64"). eexists _, [], _.
      split; [reflexivity |]. split; [reflexivity |].
      unfold base64_value, base64_of. split; [eauto 8 | auto].
    + intros [= <-]. exists a, "none", (Some "base64"), [], [], [].
      split; [reflexivity |]. rewrite app_nil_r. auto 8.
  - destruct (value_other_type (va_type a)) as [type |]; [| discriminate].
    unfold value_element_optional.
    destruct (0 <? va_len a); cbn [negb].
    + destruct v as [d |]; [| discriminate].
      intros [= <-]. exists a, type, (Some "base64"). eexists _, [], _.
      split; [reflexivity |]. split; [reflexivity |].
      unfold base64_value, base64_of. split; [eauto 8 | auto].
    + intros [= <-]. exists a, type, (Some "base64"), [], [], [].
      split; [reflexivity |]. rewrite app_nil_r. auto 8.
Qed.

Ltac rest_cases R :=
  destruct R as [(-> & -> & ->)
                | [(-> & -> & ->)
                  | [(? & -> & -> & ->)
                    | [(? & -> & -> & ->) | (? & -> & -> & ->)]]]].

Lemma start_value_attributes_key lone key type encoding rest :
  value_rest_shape lone encoding rest ->
  let attrs := start_value_attributes key type encoding ++ rest in
  (strlen key = O ->
   lookup "default" attrs = Some [Chars "1"]
   /\ has_attr "key" attrs = false)
  /\ (strlen key <> O ->
      has_attr "key" attrs = true /\ has_attr "default" attrs = false).
Proof.
  intros R attrs. subst attrs.
  unfold start_value_attributes, key_attribute.
  pose proof (key_empty key) as K.
  destruct (Ascii.eqb (char_at key 0) NUL);
    (split; intros E;
     [| try (exfalso; apply E, K; reflexivity)];
     try (apply K in E; discriminate)).
  - rest_cases R; split; reflexivity.
  - destruct (string_attribute_cases "key" "key_encoding" (Some key))
      as [N | [[s ->] | [s ->]]].
    + exfalso. revert N. unfold string_attribute.
      destruct (String.eqb _ _); discriminate.
    + rest_cases R; split; reflexivity.
    + rest_cases R; split; reflexivity.
Qed.

(** C6: the [value] element of a value whose key is the empty string
    carries [default="1"] and no [key] attribute; the element of a value
    with any other key carries a [key] attribute and no [default]
    attribute. This holds for every value callback. *)
Theorem C6_default_or_key (h : hive_h) (c : visitor_call) (a : value_args)
  (w : world) (r : Z) (w' : world) :
  value_call_args c = Some a ->
  visitor h c w = Done r w' ->
  exists attrs children,
    w' = after_element (Element "value" attrs children) w
    /\ (strlen (va_key a) = O ->
        lookup "default" attrs = Some [Chars "1"]
        /\ has_attr "key" attrs = false)
    /\ (strlen (va_key a) <> O ->
        has_attr "key" attrs = true /\ has_attr "default" attrs = false).
Proof.
  intros A H.
  apply visitor_value_emits in H; [| rewrite A; discriminate].
  destruct H as (e & V & ->).
  apply value_element_inv in V.
  destruct V as (a' & type & encoding & rest & argv & runs & A' & -> & R & _).
  rewrite A in A'. injection A' as <-.
  eexists _, _. split; [reflexivity |].
  eapply start_value_attributes_key. exact R.
Qed.

Lemma C6_witness_default_key :
  value_call_args example_default_value
  = Some (example_args 5001 hive_t_string 22 "")
  /\ visitor example_hive example_default_value initial_world
     = Done 0 (final_world
                 (visitor example_hive example_default_value initial_world))
  /\ exists attrs children,
       final_world (visitor example_hive example_default_value initial_world)
       = after_element (Element "value" attrs children) initial_world
       /\ (strlen (va_key (example_args 5001 hive_t_string 22 "")) = O ->
           lookup "default" attrs = Some [Chars "1"]
           /\ has_attr "key" attrs = false)
       /\ (strlen (va_key (example_args 5001 hive_t_string 22 "")) <> O ->
           has_attr "key" attrs = true
           /\ has_attr "default" attrs = false).
Proof.
  split; [reflexivity |].
  split; [vm_compute; reflexivity |].
  apply (C6_default_or_key example_hive example_default_value
           (example_args 5001 hive_t_string 22 "") initial_world 0).
  - reflexivity.
  - vm_compute. reflexivity.
Defined.

(** *** Byte runs *)

Lemma children_named_strings name argv rest :
  name <> "string" ->
  children_named name (map string_element argv ++ rest)
  = children_named name rest.
Proof.
  intros N. induction argv as [| s argv IH]; [reflexivity |].
  cbn [map app children_named filter string_element is_element].
  destruct (String.eqb_spec "string" name) as [E | E];
    [exfalso; apply N; symmetry; exact E | exact IH].
Qed.

Lemma value_byte_runs_nodes_cases h value :
  match value_byte_runs_nodes h value with
  | [] =>
      negb (fst (hivex_value_struct_length h value) =? 0)
      || negb (fst (hivex_value_data_cell_offset h value) =? 0) = true
  | [Element name _ runs] =>
      name = "byte_runs"
      /\ negb (fst (hivex_value_struct_length h value) =? 0)
         || negb (fst (hivex_value_data_cell_offset h value) =? 0) = false
      /\ forallb (is_element "byte_run") runs = true
      /\ List.length runs
         = (if 4 <? data_cell_length h value then 2%nat else 1%nat)
  | _ => False
  end.
Proof.
  unfold value_byte_runs_nodes, data_cell_length.
  destruct (hivex_value_struct_length h value) as [e1 l1].
  destruct (hivex_value_data_cell_offset h value) as [e2 [off l2]].
  cbn [fst snd].
  destruct (negb (e1 =? 0) || negb (e2 =? 0)); [reflexivity |].
  destruct (4 <? l2); repeat split; reflexivity.
Qed.

(** C1 (amended): the [value] element of every value callback has one
    [byte_runs] child, except that it has none when [value_none] or
    [value_other] is called with an empty payload, and none when a query
    of the library fails. The [byte_runs] element holds [byte_run]
    elements only: two when the length the library reports for the data
    cell of the value exceeds 4, one otherwise. *)
Theorem C1_byte_runs_of_a_value (h : hive_h) (c : visitor_call)
  (a : value_args) (w : world) (r : Z) (w' : world) :
  value_call_args c = Some a ->
  visitor h c w = Done r w' ->
  exists attrs children,
    w' = after_element (Element "value" attrs children) w
    /\ match children_named "byte_runs" children with
       | [] => byte_runs_omitted h c (va_value a) = true
       | [Element _ _ runs] =>
           byte_runs_omitted h c (va_value a) = false
           /\ forallb (is_element "byte_run") runs = true
           /\ List.length runs
              = (if 4 <? data_cell_length h (va_value a)
                 then 2%nat else 1%nat)
       | _ => False
       end.
Proof.
  intros A H.
  apply visitor_value_emits in H; [| rewrite A; discriminate].
  destruct H as (e & V & ->).
  apply value_element_inv in V.
  destruct V as (a' & type & encoding & rest & argv & runs
                 & A' & -> & _ & R).
  rewrite A in A'. injection A' as <-.
  eexists _, _. split; [reflexivity |].
  rewrite children_named_strings by discriminate.
  unfold byte_runs_omitted, byte_run_queries_fail.
  destruct R as [[-> ->] | [-> ->]]; [| reflexivity].
  pose proof (value_byte_runs_nodes_cases h (va_value a)) as C.
  destruct (value_byte_runs_nodes h (va_value a)) as [| [n ba runs |] l].
  - cbn. exact C.
  - destruct l; [| contradiction]. destruct C as (-> & C1 & C2 & C3).
    cbn. auto.
  - contradiction.
Qed.

(** C1, as the claim states it, fails: [value_none] called with an empty
    payload writes a [value] element with no [byte_runs] child at all. *)
Lemma C1_counterexample_empty_payload :
  visitor example_hive example_empty_value initial_world
  = Done 0
      (after_element
         (Element "value"
            [("type", [Chars "none"]);
             ("value_encoding", [Chars "base64"]);
             ("key", [Chars "Empty"])] [])
         initial_world)
  /\ byte_runs_by_payload_length
       (Element "value"
          [("type", [Chars "none"]);
           ("value_encoding", [Chars "base64"]);
           ("key", [Chars "Empty"])] [])
       0 = false.
Proof. split; vm_compute; reflexivity. Qed.

Lemma C1_witness_out_of_line_value :
  value_call_args example_default_value
  = Some (example_args 5001 hive_t_string 22 "")
  /\ visitor example_hive example_default_value initial_world
     = Done 0 (final_world
                 (visitor example_hive example_default_value initial_world))
  /\ exists attrs children,
       final_world (visitor example_hive example_default_value initial_world)
       = after_element (Element "value" attrs children) initial_world
       /\ match children_named "byte_runs" children with
          | [] =>
              byte_runs_omitted example_hive example_default_value
                (va_value (example_args 5001 hive_t_string 22 "")) = true
          | [Element _ _ runs] =>
              byte_runs_omitted example_hive example_default_value
                (va_value (example_args 5001 hive_t_string 22 "")) = false
              /\ forallb (is_element "byte_run") runs = true
              /\ List.length runs
                 = (if 4 <? data_cell_length example_hive
                              (va_value
                                 (example_args 5001 hive_t_string 22 ""))
                    then 2%nat else 1%nat)
          | _ => False
          end.
Proof.
  split; [reflexivity |].
  split; [vm_compute; reflexivity |].
  apply (C1_byte_runs_of_a_value example_hive example_default_value
           (example_args 5001 hive_t_string 22 "") initial_world 0).
  - reflexivity.
  - vm_compute. reflexivity.
Defined.

(** *** Encoding attributes *)

Lemma encoding_ok_value lone key type encoding rest children :
  value_rest_shape lone encoding rest ->
  encoding_attributes_ok lone
    (Element "value" (start_value_attributes key type encoding ++ rest)
       children) = true.
Proof.
  intros R. unfold start_value_attributes, key_attribute.
  destruct (Ascii.eqb (char_at key 0) NUL).
  - rest_cases R; reflexivity.
  - destruct (string_attribute_cases "key" "key_encoding" (Some key))
      as [-> | [[s ->] | [s ->]]];
      rest_cases R; reflexivity.
Qed.

Lemma encoding_ok_strings argv rest :
  Forall (fun x => encoding_attributes_ok false x = true)
         (flat_map elements rest) ->
  Forall (fun x => encoding_attributes_ok false x = true)
         (flat_map elements (map string_element argv ++ rest)).
Proof.
  intros H. induction argv as [| s argv IH]; [exact H |].
  cbn [map app flat_map elements string_element].
  constructor; [| exact IH].
  destruct (string_attribute_cases "value" "value_encoding" (Some s))
    as [-> | [[s' ->] | [s' ->]]]; reflexivity.
Qed.

Lemma encoding_ok_value_byte_runs h value :
  Forall (fun x => encoding_attributes_ok false x = true)
         (flat_map elements (value_byte_runs_nodes h value)).
Proof.
  unfold value_byte_runs_nodes, byte_run.
  destruct (hivex_value_struct_length h value) as [e1 l1].
  destruct (hivex_value_data_cell_offset h value) as [e2 [off l2]].
  destruct (negb (e1 =? 0) || negb (e2 =? 0)); [constructor |].
  destruct (4 <? l2); repeat constructor.
Qed.

Lemma encoding_ok_node h node name :
  Forall (fun x => encoding_attributes_ok false x = true)
         (elements (Element "node" (node_attributes h node name)
                      (node_children h node))).
Proof.
  cbn [elements]. constructor.
  - unfold node_attributes.
    destruct (node =? hivex_root h);
      destruct (string_attribute_cases "name" "name_encoding" name)
        as [-> | [[s ->] | [s ->]]]; reflexivity.
  - unfold node_children, mtime_nodes, node_byte_runs_nodes, byte_run.
    destruct (hivex_node_struct_length h node) as [e l].
    destruct (0 <=? hivex_node_timestamp h node);
      [destruct (timestamp_string _) |];
      destruct (negb (e =? 0)); repeat constructor.
Qed.

Lemma node_end_inv h node name w r w' :
  node_end h node name w = Done r w' ->
  exists e ps,
    nodes (writer w) = e :: ps
    /\ (plain (e_state e) ->
        w' = mk_world
               (emit (Element (e_name e) (e_attrs e) (e_children e))
                     (mk_writer ps (document (writer w))))
               (filetime_calls w)).
Proof.
  unfold node_end, bind, XML_CHECK, xmlTextWriterEndElement.
  destruct w as [[ns doc] fc]. cbn [writer nodes document filetime_calls].
  destruct ns as [| e ps]; [discriminate |].
  cbn. intros [= <- <-]. exists e, ps. split; [reflexivity |].
  intros P. destruct e as [n a c s].
  destruct (plain_cases s P) as [-> | ->]; reflexivity.
Qed.

(** C4, as the claim states it, fails: the [value] element of
    [value_none] called with an empty payload carries
    [value_encoding="base64"] and no [value] attribute. *)
Lemma C4_counterexample_lone_value_encoding :
  visitor example_hive example_empty_value initial_world
  = Done 0
      (after_element
         (Element "value"
            [("type", [Chars "none"]);
             ("value_encoding", [Chars "base64"]);
             ("key", [Chars "Empty"])] [])
         initial_world)
  /\ encoding_attributes_ok false
       (Element "value"
          [("type", [Chars "none"]);
           ("value_encoding", [Chars "base64"]);
           ("key", [Chars "Empty"])] [])
     = false.
Proof. split; vm_compute; reflexivity. Qed.

(** C4 (amended): in every element a callback writes, [name_encoding]
    and [key_encoding] are present exactly when [name] and [key] are
    present and base64, and an encoding attribute that is present says
    "base64". [value_encoding] is present exactly when [value] is
    present and base64, except in the [value] element of [value_none]
    and [value_other] called with an empty payload, which carries
    [value_encoding] and no [value] attribute. [node_end] finishes the
    open element with the attributes it has. *)
Theorem C4_encoding_attributes (h : hive_h) (c : visitor_call) (w : world)
  (r : Z) (w' : world) :
  visitor h c w = Done r w' ->
  match c with
  | call_node_start _ _ =>
      exists e,
        nodes (writer w') = e :: close_start_tag (nodes (writer w))
        /\ Forall (fun x => encoding_attributes_ok false x = true)
             (elements (Element (e_name e) (e_attrs e) (e_children e)))
  | call_node_end _ _ =>
      exists e ps,
        nodes (writer w) = e :: ps
        /\ (plain (e_state e) ->
            w' = mk_world
                   (emit (Element (e_name e) (e_attrs e) (e_children e))
                         (mk_writer ps (document (writer w))))
                   (filetime_calls w))
  | _ =>
      exists attrs children,
        w' = after_element (Element "value" attrs children) w
        /\ encoding_attributes_ok (empty_none_or_other c)
             (Element "value" attrs children) = true
        /\ Forall (fun x => encoding_attributes_ok false x = true)
             (flat_map elements children)
  end.
Proof.
  intros H.
  assert (V : value_call_args c <> None ->
              exists attrs children,
                w' = after_element (Element "value" attrs children) w
                /\ encoding_attributes_ok (empty_none_or_other c)
                     (Element "value" attrs children) = true
                /\ Forall (fun x => encoding_attributes_ok false x = true)
                     (flat_map elements children)).
  { intros A. apply visitor_value_emits in H; [| exact A].
    destruct H as (e & V & ->).
    apply value_element_inv in V.
    destruct V as (a & type & encoding & rest & argv & runs
                   & _ & -> & R & B).
    eexists _, _. split; [reflexivity |].
    split; [apply encoding_ok_value; exact R |].
    apply encoding_ok_strings.
    destruct B as [[-> _] | [-> _]];
      [apply encoding_ok_value_byte_runs | constructor]. }
  destruct c; try (apply V; discriminate).
  - cbn [visitor] in H. apply node_start_inv in H. subst w'.
    eexists. split; [reflexivity |]. apply encoding_ok_node.
  - cbn [visitor] in H. apply node_end_inv in H. exact H.
Qed.

Lemma C4_witness_escaped_name :
  visitor example_hive
    (call_node_start 4128 (Some (String "007" "bell"))) initial_world
  = Done 0
      (final_world
         (visitor example_hive
            (call_node_start 4128 (Some (String "007" "bell")))
            initial_world))
  /\ exists e,
       nodes (writer
                (final_world
                   (visitor example_hive
                      (call_node_start 4128 (Some (String "007" "bell")))
                      initial_world)))
       = e :: close_start_tag (nodes (writer initial_world))
       /\ Forall (fun x => encoding_attributes_ok false x = true)
            (elements (Element (e_name e) (e_attrs e) (e_children e))).
Proof.
  split; [vm_compute; reflexivity |].
  apply (C4_encoding_attributes example_hive
           (call_node_start 4128 (Some (String "007" "bell")))
           initial_world 0).
  vm_compute. reflexivity.
Defined.

(** *** Invalid text *)

Lemma bad_type_tag t name :
  text_type_name t = Some name ->
  value_string_invalid_utf16_type t = Some ("bad-" ++ name)%string.
Proof.
  unfold text_type_name, value_string_invalid_utf16_type.
  destruct (t =? hive_t_string); [intros [= <-]; reflexivity |].
  destruct (t =? hive_t_expand_string); [intros [= <-]; reflexivity |].
  destruct (t =? hive_t_link); [intros [= <-]; reflexivity |].
  destruct (t =? hive_t_multiple_strings);
    [intros [= <-]; reflexivity | discriminate].
Qed.

(** C5: for a value whose text is invalid (its type is string, expand
    string, link or string list), [value_string_invalid_utf16] returns
    having written a [value] element whose type tag is the name of the
    type with "bad-" in front, with [value_encoding="base64"] and with
    a [value] attribute that is the base64 encoding of the first [len]
    bytes of the original data, whatever those bytes are. *)
Theorem C5_invalid_text_is_base64 (h : hive_h) (a : value_args)
  (d : string) (w : world) (name : string) :
  text_type_name (va_type a) = Some name ->
  0 <= va_len a <= INT_MAX ->
  fits_int (va_key a) ->
  exists r attrs children,
    visitor h (call_value_string_invalid_utf16 a (Some d)) w
    = Done r (after_element (Element "value" attrs children) w)
    /\ In name ["string"; "expand"; "link"; "string-list"]
    /\ lookup "type" attrs = Some [Chars ("bad-" ++ name)]
    /\ lookup "value_encoding" attrs = Some [Chars "base64"]
    /\ lookup "value" attrs
       = Some [Base64 (substring 0 (Z.to_nat (va_len a)) d)].
Proof.
  intros T L F.
  destruct (value_string_invalid_utf16_returns h a d _ w
              (bad_type_tag _ _ T) L F) as (r & E).
  exists r. eexists _, _. split; [exact E |].
  assert (N : In name ["string"; "expand"; "link"; "string-list"]).
  { revert T. unfold text_type_name.
    repeat (destruct (_ =? _); [intros [= <-]; cbn; auto |]).
    discriminate. }
  split; [exact N |].
  unfold start_value_attributes, key_attribute.
  assert (C : c_string ("bad-" ++ name) = ("bad-" ++ name)%string).
  { cbn in N. destruct N as [<- | [<- | [<- | [<- | []]]]]; reflexivity. }
  rewrite C.
  destruct (Ascii.eqb (char_at (va_key a) 0) NUL).
  - repeat split; reflexivity.
  - destruct (string_attribute_cases "key" "key_encoding"
                (Some (va_key a))) as [-> | [[s ->] | [s ->]]];
      repeat split; reflexivity.
Qed.

(** Three bytes are not UTF-16 text; they are printable, and written as
    base64 all the same. *)
Lemma C5_witness_bad_string :
  text_type_name (va_type (example_args 5001 hive_t_string 3 "Bad"))
  = Some "string"
  /\ 0 <= va_len (example_args 5001 hive_t_string 3 "Bad") <= INT_MAX
  /\ fits_int (va_key (example_args 5001 hive_t_string 3 "Bad"))
  /\ exists r attrs children,
       visitor example_hive
         (call_value_string_invalid_utf16
            (example_args 5001 hive_t_string 3 "Bad")
            (Some "abc"))
         initial_world
       = Done r (after_element (Element "value" attrs children)
                   initial_world)
       /\ In "string" ["string"; "expand"; "link"; "string-list"]
       /\ lookup "type" attrs = Some [Chars ("bad-" ++ "string")]
       /\ lookup "value_encoding" attrs = Some [Chars "base64"]
       /\ lookup "value" attrs
          = Some [Base64
                    (substring 0
                       (Z.to_nat
                          (va_len (example_args 5001 hive_t_string 3 "Bad")))
                       "abc")].
Proof.
  split; [reflexivity |].
  split; [vm_compute; split; discriminate |].
  split; [vm_compute; discriminate |].
  apply (C5_invalid_text_is_base64 example_hive
           (example_args 5001 hive_t_string 3 "Bad") "abc"
           initial_world "string").
  - reflexivity.
  - vm_compute. split; discriminate.
  - vm_compute. discriminate.
Defined.

(** *** Unexpected type tags *)

Lemma never_aborts_ret {A} (a : A) : never_aborts (ret a).
Proof. intros w w'. discriminate. Qed.

Lemma never_aborts_exit {A} : never_aborts (@exit_failure A).
Proof. intros w w'. discriminate. Qed.

Lemma never_aborts_XML_CHECK proc : never_aborts (XML_CHECK proc).
Proof.
  intros w w'. unfold XML_CHECK.
  destruct (proc (writer w)) as [r x]. destruct (r =? -1); discriminate.
Qed.

Lemma never_aborts_bind {A B} (m : M A) (k : A -> M B) :
  never_aborts m -> (forall a, never_aborts (k a)) ->
  never_aborts (bind m k).
Proof.
  intros Hm Hk w w'. unfold bind.
  destruct (m w) as [a w1 | w1 | w1] eqn:E.
  - apply Hk.
  - discriminate.
  - exfalso. exact (Hm w w1 E).
Qed.

Lemma never_aborts_filetime_to_8601 ticks :
  never_aborts (filetime_to_8601 ticks).
Proof.
  intros w w'. unfold filetime_to_8601, bind. cbn [record_filetime_call].
  destruct (ticks =? 0); [discriminate |].
  destruct (gmtime _); [| discriminate].
  destruct (strftime _ _ _) as [n buf].
  destruct (n =? 0); discriminate.
Qed.

Ltac never_aborts_step :=
  first
    [ apply never_aborts_ret
    | apply never_aborts_exit
    | apply never_aborts_XML_CHECK
    | apply never_aborts_filetime_to_8601
    | match goal with
      | H : context [never_aborts] |- _ => apply H
      end
    | apply never_aborts_bind; [| intros ?]
    | match goal with
      | |- never_aborts (match ?x with _ => _ end) => destruct x
      end ].

Lemma never_aborts_safe_print_string_attribute an ae d :
  never_aborts (safe_print_string_attribute an ae d).
Proof. unfold safe_print_string_attribute. repeat never_aborts_step. Qed.

Lemma never_aborts_value_byte_runs h value :
  never_aborts (value_byte_runs h value).
Proof. unfold value_byte_runs. repeat never_aborts_step. Qed.

Lemma never_aborts_start_value key type encoding :
  never_aborts (start_value key type encoding).
Proof.
  pose proof never_aborts_safe_print_string_attribute.
  unfold start_value. repeat never_aborts_step.
Qed.

Lemma never_aborts_value_multiple_strings_loop argv : forall ret,
  never_aborts (value_multiple_strings_loop argv ret).
Proof.
  pose proof never_aborts_safe_print_string_attribute.
  induction argv as [| s argv IH]; intros ret;
    unfold value_multiple_strings_loop; fold value_multiple_strings_loop;
    repeat never_aborts_step.
Qed.

(** A callback aborts only in its [switch]. *)
Lemma never_aborts_after_switch h c :
  match c with
  | call_value_string a _ => value_string_type (va_type a) <> None
  | call_value_string_invalid_utf16 a _ =>
      value_string_invalid_utf16_type (va_type a) <> None
  | call_value_other a _ => value_other_type (va_type a) <> None
  | _ => True
  end ->
  never_aborts (visitor h c).
Proof.
  pose proof never_aborts_safe_print_string_attribute.
  pose proof never_aborts_start_value.
  pose proof (never_aborts_value_byte_runs h).
  pose proof never_aborts_value_multiple_strings_loop.
  destruct c as [| | a str | a argv | a str | a v | a v | a v | a v | a v];
    intros T; cbn [visitor];
    unfold apply_value, node_start, node_end, node_byte_runs, value_string,
      value_multiple_strings, value_string_invalid_utf16, value_dword,
      value_qword, value_binary, value_none, value_other, end_value;
    rewrite ?value_string_switch, ?value_string_invalid_utf16_switch,
      ?value_other_switch;
    try match goal with
      | |- context [match ?t with Some _ => _ | None => abort end] =>
          destruct t; [| contradiction]
      end;
    repeat never_aborts_step.
Qed.

Ltac type_cases t :=
  repeat match goal with
    | |- context [t =? ?c] =>
        destruct (Z.eqb_spec t c); [subst t |]
    | H : context [t =? ?c] |- _ =>
        destruct (Z.eqb_spec t c); [subst t |]
    end.

(** The [switch] of a checking callback aborts exactly on the known
    types the callback is not meant for. *)
Lemma switch_aborts c a :
  value_call_args c = Some a ->
  checks_type c = true ->
  (known_type (va_type a) && negb (expected_type c) = true <->
   match c with
   | call_value_string _ _ => value_string_type (va_type a) = None
   | call_value_string_invalid_utf16 _ _ =>
       value_string_invalid_utf16_type (va_type a) = None
   | call_value_other _ _ => value_other_type (va_type a) = None
   | _ => False
   end).
Proof.
  destruct c as [| | a' str | a' argv | a' str | a' v | a' v | a' v
                 | a' v | a' v];
    cbn [value_call_args checks_type]; try discriminate;
    intros [= ->] _; destruct a as [n v' t len key];
    cbn [va_type expected_type];
    unfold known_type, value_string_type, value_string_invalid_utf16_type,
      value_other_type, one_of, existsb,
      hive_t_none, hive_t_string, hive_t_expand_string, hive_t_binary,
      hive_t_dword, hive_t_dword_be, hive_t_link, hive_t_multiple_strings,
      hive_t_resource_list, hive_t_full_resource_description,
      hive_t_resource_requirements_list, hive_t_qword.
  all: type_cases t; cbn; try (split; (discriminate || reflexivity)).
  all: destruct (Z.leb_spec 0 t); destruct (Z.leb_spec t 11); cbn;
    try lia; split; discriminate.
Qed.

(** C8, as the claim states it, fails: [value_dword] called with the
    type tag of a string does not abort; it writes the value as an
    [int32]. *)
Lemma C8_counterexample_dword_ignores_type :
  expected_type example_dword_with_string_type = false
  /\ visitor example_hive example_dword_with_string_type initial_world
     = Done 0
         (after_element
            (Element "value"
               [("type", [Chars "int32"]); ("key", [Chars "Foo"]);
                ("value", [Chars "7"])]
               [Element "byte_runs" []
                  [Element "byte_run"
                     [("file_offset", [Chars "5000"]);
                      ("len", [Chars "32"])] []]])
            initial_world).
Proof. split; vm_compute; reflexivity. Qed.

(** C8 (amended): [value_string], [value_string_invalid_utf16] and
    [value_other] abort when the type tag is one of the twelve known
    types and not one the callback is meant for, and they abort before
    anything is written for the value. In every other case (a type tag
    outside the known twelve, which is written as "unknown", or one of
    the callbacks that do not look at the type tag: [value_dword],
    [value_qword], [value_binary], [value_none],
    [value_multiple_strings]) no callback aborts. *)
Theorem C8_abort_on_known_foreign_type (h : hive_h) (c : visitor_call)
  (a : value_args) (w : world) :
  value_call_args c = Some a ->
  (checks_type c = true ->
   known_type (va_type a) = true ->
   expected_type c = false ->
   visitor h c w = Abort w)
  /\ (checks_type c = false \/ known_type (va_type a) = false
      \/ expected_type c = true ->
      never_aborts (visitor h c)).
Proof.
  intros A. split.
  - intros C K E.
    pose proof (proj1 (switch_aborts c a A C)) as S.
    rewrite K, E in S. specialize (S eq_refl).
    destruct c; cbn [checks_type] in C; try discriminate;
      cbn [value_call_args] in A; injection A as ->; cbn [visitor];
      unfold apply_value, value_string, value_string_invalid_utf16,
        value_other;
      rewrite ?value_string_switch, ?value_string_invalid_utf16_switch,
        ?value_other_switch, S; reflexivity.
  - intros D. apply never_aborts_after_switch.
    destruct (checks_type c) eqn:C.
    + pose proof (proj2 (switch_aborts c a A C)) as S.
      assert (N : known_type (va_type a) && negb (expected_type c)
                  <> true).
      { destruct D as [D | [D | D]]; [discriminate | |];
          rewrite D; [| rewrite andb_false_r]; discriminate. }
      destruct c; cbn [checks_type] in C; try discriminate;
        cbn [value_call_args] in A; injection A as ->;
        intros T; apply N, S, T.
    + destruct c; cbn [checks_type] in C; try discriminate; exact I.
Qed.

Lemma C8_witness_string_with_dword_type :
  value_call_args example_string_with_dword_type
  = Some (example_args 5001 hive_t_dword 4 "Foo")
  /\ checks_type example_string_with_dword_type = true
  /\ known_type (va_type (example_args 5001 hive_t_dword 4 "Foo")) = true
  /\ expected_type example_string_with_dword_type = false
  /\ visitor example_hive example_string_with_dword_type initial_world
     = Abort initial_world.
Proof.
  split; [reflexivity |]. split; [reflexivity |].
  split; [reflexivity |]. split; [reflexivity |].
  apply (proj1 (C8_abort_on_known_foreign_type example_hive
                  example_string_with_dword_type
                  (example_args 5001 hive_t_dword 4 "Foo") initial_world
                  eq_refl));
    reflexivity.
Defined.

(* ================================================================== *)
(** ** The output document *)
(* ================================================================== *)

(** The properties of the elements each callback writes carry over to
    the document [main] produces, whatever walk the library makes. *)

Section Document.

Variable h : hive_h.

Lemma encoding_consistent_weaken lone x :
  encoding_attributes_ok lone x = true -> encoding_consistent x = true.
Proof.
  unfold encoding_consistent. intros H.
  destruct lone; rewrite H; [apply orb_true_r | reflexivity].
Qed.

Lemma good_node_element n a c :
  encoding_consistent (Element n a c) = true ->
  Forall good_node c ->
  good_node (Element n a c).
Proof.
  intros H F. unfold good_node. cbn [elements]. constructor; [exact H |].
  clear H. induction F as [| x c Hx F IH]; cbn [flat_map]; [constructor |].
  apply Forall_app. split; [exact Hx | exact IH].
Qed.

Lemma good_nodes_elements c :
  Forall (fun x => encoding_attributes_ok false x = true)
         (flat_map elements c) ->
  Forall good_node c.
Proof.
  induction c as [| x c IH]; cbn [flat_map]; intros H; [constructor |].
  apply Forall_app in H. destruct H as [Hx Hc].
  constructor; [| exact (IH Hc)].
  unfold good_node. eapply Forall_impl; [| exact Hx].
  intros y. apply encoding_consistent_weaken.
Qed.

Lemma good_close_start_tag ns :
  Forall good_entry ns -> Forall good_entry (close_start_tag ns).
Proof.
  intros F. destruct F as [| [n a c s] ps (P & A & C) F]; [constructor |].
  unfold close_start_tag. constructor; [| exact F].
  cbn in P. destruct (plain_cases s P) as [-> | ->];
    (split; [exact I | split; assumption]).
Qed.

Lemma good_emit x w :
  good_node x -> good_writer w -> good_writer (emit x w).
Proof.
  intros X [N D]. unfold emit.
  destruct N as [| [n a c s] ps (P & A & C) N]; split; cbn.
  - constructor.
  - apply Forall_app. split; [exact D | constructor; [exact X | constructor]].
  - constructor; [| exact N]. split; [exact I |]. cbn. split; [exact A |].
    apply Forall_app. split; [exact C | constructor; [exact X | constructor]].
  - exact D.
Qed.

Lemma good_after_element e w :
  good_node e -> good_writer (writer w) ->
  good_writer (writer (after_element e w)).
Proof.
  intros E [N D]. cbn [after_element writer]. apply good_emit; [exact E |].
  split; [apply good_close_start_tag; exact N | exact D].
Qed.

Lemma good_value_element c e :
  value_element h c = Some e -> good_node e.
Proof.
  intros V. apply value_element_inv in V.
  destruct V as (a & type & encoding & rest & argv & runs
                 & _ & -> & R & B).
  apply good_node_element.
  - eapply encoding_consistent_weaken, encoding_ok_value. exact R.
  - apply good_nodes_elements, encoding_ok_strings.
    destruct B as [[-> _] | [-> _]];
      [apply encoding_ok_value_byte_runs | constructor].
Qed.

Lemma good_after_node_start node name w :
  good_writer (writer w) ->
  good_writer (writer (after_node_start h node name w)).
Proof.
  intros [N D]. pose proof (encoding_ok_node h node name) as G.
  cbn [elements] in G. inversion G as [| x l Gx Gl]; subst.
  split; cbn; [| exact D].
  constructor; [| apply good_close_start_tag; exact N].
  split; cbn.
  - destruct (node_children h node); exact I.
  - split; [eapply encoding_consistent_weaken; exact Gx |].
    apply good_nodes_elements. exact Gl.
Qed.

(** Every callback keeps the writer good. *)
Lemma visitor_good c w r w' :
  good_writer (writer w) ->
  visitor h c w = Done r w' ->
  good_writer (writer w').
Proof.
  intros G H.
  destruct (value_call_args c) eqn:A.
  - apply visitor_value_emits in H; [| rewrite A; discriminate].
    destruct H as (e & V & ->).
    apply good_after_element; [| exact G].
    eapply good_value_element. exact V.
  - destruct c; try discriminate; cbn [visitor] in H.
    + apply node_start_inv in H. subst w'.
      apply good_after_node_start. exact G.
    + apply node_end_inv in H. destruct H as (e & ps & N & H).
      destruct G as [GN GD]. rewrite N in GN.
      inversion GN as [| e' ps' (P & E & C) GP]; subst.
      rewrite (H P). cbn [writer]. apply good_emit.
      * apply good_node_element; [exact E | exact C].
      * split; [exact GP | exact GD].
Qed.

Lemma hivex_visit_good calls : forall w r w',
  good_writer (writer w) ->
  hivex_visit h calls w = Done r w' ->
  good_writer (writer w').
Proof.
  induction calls as [| c calls IH]; intros w r w' G; cbn [hivex_visit].
  - intros [= <- <-]. exact G.
  - unfold bind. destruct (visitor h c w) as [r1 w1 | |] eqn:V;
      try discriminate.
    pose proof (visitor_good c w r1 w1 G V) as G1.
    destruct (r1 =? -1); [intros [= <- <-]; exact G1 |].
    apply IH. exact G1.
Qed.

Lemma end_all_good n : forall w r w',
  good_writer w ->
  end_all n w = (r, w') ->
  good_writer w'.
Proof.
  induction n as [| n IH]; intros w r w' G; cbn [end_all].
  - intros [= <- <-]. exact G.
  - unfold xmlTextWriterEndElement.
    destruct w as [[| e ps] doc]; cbn [nodes document].
    + cbn. intros [= <- <-]. exact G.
    + destruct G as [GN GD]. cbn [nodes document] in GN, GD.
      inversion GN as [| e' ps' (P & E & C) GP]; subst.
      assert (X : end_pending_attribute e = e).
      { destruct e as [n' a c s]. cbn in P.
        destruct (plain_cases s P) as [-> | ->]; reflexivity. }
      rewrite X. cbn [Z.ltb Z.compare].
      apply IH. apply good_emit.
      * apply good_node_element; [exact E | exact C].
      * split; [exact GP | exact GD].
Qed.

Lemma good_mtime_nodes ticks : Forall good_node (mtime_nodes ticks).
Proof.
  unfold mtime_nodes. destruct (0 <=? ticks); [| constructor].
  destruct (timestamp_string ticks); repeat constructor.
Qed.

(** X16: the encoding attributes of the whole document. In the
    document of every run of [main] that ends well, whatever walk the
    library makes, every element has consistent encoding attributes:
    [name_encoding], [key_encoding] and [value_encoding] say "base64"
    and stand exactly with a name, a key or a value written as base64
    (a [value_encoding] may also stand alone). *)
Lemma main_document_good calls fc r w' :
  main h calls (mk_world xmlNewTextWriter fc) = Done r w' ->
  Forall good_node (document (writer w')).
Proof.
  unfold main. unfold bind at 1. cbn [XML_CHECK xmlTextWriterStartDocument
    xmlNewTextWriter writer nodes Z.eqb with_writer filetime_calls].
  rewrite start_element_step.
  cbn [writer nodes document filetime_calls close_start_tag].
  intros H. apply mtime_inv in H.
  unfold bind at 1 in H.
  destruct (hivex_visit h calls _) as [r1 w1 | |] eqn:V; try discriminate.
  apply hivex_visit_good in V.
  2:{ split; cbn; [| constructor]. constructor; [| constructor].
      split; cbn.
      - destruct (mtime_nodes _); exact I.
      - split; [reflexivity | apply good_mtime_nodes]. }
  destruct (r1 =? -1); [discriminate |].
  destruct (hivex_close h =? -1); [discriminate |].
  unfold bind, XML_CHECK in H.
  destruct (xmlTextWriterEndElement (writer w1)) as [r2 x2] eqn:E2.
  destruct (r2 =? -1); [discriminate |].
  cbn [with_writer writer] in H.
  destruct (xmlTextWriterEndDocument x2) as [r3 x3] eqn:E3.
  destruct (r3 =? -1); [discriminate |].
  injection H as _ <-. cbn [with_writer writer].
  assert (G2 : good_writer x2).
  { apply (end_all_good 1 (writer w1) (if r2 <? 0 then -1 else 0) x2 V).
    cbn [end_all]. rewrite E2. destruct (r2 <? 0); reflexivity. }
  apply (end_all_good _ _ _ _ G2) in E3. apply E3.
Qed.

End Document.

(** The document written for the example hive:
    a root node with a timestamp, an integer under the key "Foo", a
    printable string under the default key, and a child node without
    timestamp that holds an empty value of type none. *)
Example main_example_document :
  main example_hive example_walk initial_world
  = Done EXIT_SUCCESS
      {| writer :=
           {| nodes := [];
              document :=
                [Element "hive" []
                   [Element "mtime" []
                      [Text (Chars "1970-01-01T00:00:00Z")];
                    Element "node"
                      [("name", [Chars "ROOT"]); ("root", [Chars "1"])]
                      [Element "mtime" []
                         [Text (Chars "2012-04-06T18:55:00Z")];
                       Element "byte_runs" []
                         [Element "byte_run"
                            [("file_offset", [Chars "4128"]);
                             ("len", [Chars "88"])] []];
                       Element "value"
                         [("type", [Chars "int32"]);
                          ("key", [Chars "Foo"]);
                          ("value", [Chars "-1"])]
                         [Element "byte_runs" []
                            [Element "byte_run"
                               [("file_offset", [Chars "5000"]);
                                ("len", [Chars "32"])] []]];
                       Element "value"
                         [("type", [Chars "string"]);
                          ("default", [Chars "1"]);
                          ("value", [Chars "C:\Windows"])]
                         [Element "byte_runs" []
                            [Element "byte_run"
                               [("file_offset", [Chars "5001"]);
                                ("len", [Chars "32"])] [];
                             Element "byte_run"
                               [("file_offset", [Chars "6000"]);
                                ("len", [Chars "24"])] []]];
                       Element "node"
                         [("name", [Chars "Child"])]
                         [Element "byte_runs" []
                            [Element "byte_run"
                               [("file_offset", [Chars "4400"]);
                                ("len", [Chars "88"])] []];
                          Element "value"
                            [("type", [Chars "none"]);
                             ("value_encoding", [Chars "base64"]);
                             ("key", [Chars "Empty"])] []]]]] |};
         filetime_calls := [116444736000000000; 129782121007374460] |}.
Proof. vm_compute. reflexivity. Qed.
(* ================================================================== *)
(** ** Numbers in attributes *)
(* ================================================================== *)

Lemma c_string_no_NUL s : no_NUL s -> c_string s = s.
Proof.
  unfold no_NUL, c_string. intros ->.
  induction s as [| c s IH]; [reflexivity |].
  cbn [String.length substring]. rewrite IH. reflexivity.
Qed.

Lemma no_NUL_String c s :
  Ascii.eqb c NUL = false -> no_NUL s -> no_NUL (String c s).
Proof.
  unfold no_NUL. intros C E.
  change (strlen (String c s))
    with (if Ascii.eqb c NUL then O else S (strlen s)).
  rewrite C, E. reflexivity.
Qed.

Lemma no_NUL_append (s1 s2 : string) :
  no_NUL s1 -> no_NUL s2 -> no_NUL (s1 ++ s2).
Proof.
  unfold no_NUL. intros S1 S2.
  induction s1 as [| c s1 IH]; [exact S2 |].
  change (strlen (String c s1))
    with (if Ascii.eqb c NUL then O else S (strlen s1)) in S1.
  cbn [append String.length] in *.
  change (strlen (String c (s1 ++ s2)))
    with (if Ascii.eqb c NUL then O else S (strlen (s1 ++ s2))).
  destruct (Ascii.eqb c NUL); [discriminate |].
  rewrite IH by congruence. reflexivity.
Qed.

Lemma is_digit_not_NUL c : is_digit c = true -> Ascii.eqb c NUL = false.
Proof.
  destruct (Ascii.eqb_spec c NUL) as [-> |]; [discriminate | reflexivity].
Qed.

Lemma digit_of_mod n :
  is_digit (digit_char (n mod 10)) = true
  /\ digit_value (digit_char (n mod 10)) = n mod 10.
Proof. apply digit_char_spec. digit_bounds. Qed.

Lemma no_NUL_dec_digits fuel : forall n acc,
  no_NUL acc -> no_NUL (dec_digits fuel n acc).
Proof.
  induction fuel as [| fuel IH]; intros n acc A; cbn [dec_digits];
    [exact A |].
  assert (A' : no_NUL (String (digit_char (n mod 10)) acc)).
  { apply no_NUL_String; [| exact A].
    apply is_digit_not_NUL, digit_of_mod. }
  destruct (n / 10 =? 0); [exact A' | apply IH; exact A'].
Qed.

Lemma no_NUL_dec_of_Z n : no_NUL (dec_of_Z n).
Proof.
  unfold dec_of_Z. destruct (n <? 0).
  - apply no_NUL_String; [reflexivity |].
    apply no_NUL_dec_digits. reflexivity.
  - apply no_NUL_dec_digits. reflexivity.
Qed.

Lemma no_NUL_dec2 n : no_NUL (dec2 n).
Proof.
  unfold dec2. destruct (_ <? _)%nat;
    [apply no_NUL_String; [reflexivity |] |]; apply no_NUL_dec_of_Z.
Qed.

(** The digits [dec_digits] puts in front of [acc] read back as [n]. *)
Lemma read_digits_dec_digits fuel : forall n acc,
  0 <= n < 10 ^ Z.of_nat fuel ->
  exists k,
    0 <= k
    /\ forall init,
         read_digits (dec_digits fuel n acc) init
         = read_digits acc (init * 10 ^ k + n).
Proof.
  induction fuel as [| fuel IH]; intros n acc H.
  - exists 0. split; [lia |]. intros init. cbn [dec_digits].
    change (10 ^ Z.of_nat 0) with 1 in H. f_equal. lia.
  - rewrite Nat2Z.inj_succ, Z.pow_succ_r in H by lia.
    destruct (digit_of_mod n) as [D V].
    cbn [dec_digits]. destruct (Z.eqb_spec (n / 10) 0) as [E | E].
    + exists 1. split; [lia |]. intros init. cbn [read_digits].
      rewrite D, V. f_equal. digit_bounds.
    + destruct (IH (n / 10) (String (digit_char (n mod 10)) acc)) as (k & K & R).
      { clear - H. digit_bounds. }
      exists (k + 1). split; [lia |]. intros init. rewrite R.
      cbn [read_digits]. rewrite D, V. f_equal.
      rewrite Z.pow_add_r by lia. change (10 ^ 1) with 10.
      pose proof (Z.div_mod n 10 ltac:(lia)). lia.
Qed.

Lemma dec_digits_fuel n :
  0 <= n -> n < 10 ^ Z.of_nat (S (Z.to_nat (Z.log2 n))).
Proof.
  intros H. rewrite Nat2Z.inj_succ, Z2Nat.id by apply Z.log2_nonneg.
  destruct (Z.eq_dec n 0) as [-> | N]; [reflexivity |].
  pose proof (Z.log2_spec n ltac:(lia)) as [_ L].
  eapply Z.lt_le_trans; [exact L |].
  apply Z.pow_le_mono_l. lia.
Qed.

Lemma dec_digits_starts fuel : forall n c acc,
  exists c' r, dec_digits fuel n (String c acc) = String c' r.
Proof.
  induction fuel as [| fuel IH]; intros n c acc; cbn [dec_digits].
  - eexists _, _. reflexivity.
  - destruct (n / 10 =? 0); [eexists _, _; reflexivity | apply IH].
Qed.

Lemma read_digits_dec_of_nonneg n :
  0 <= n ->
  exists c r,
    dec_digits (S (Z.to_nat (Z.log2 n))) n "" = String c r
    /\ read_digits (String c r) 0 = Some n.
Proof.
  intros H.
  destruct (read_digits_dec_digits _ n "" (conj H (dec_digits_fuel n H)))
    as (k & _ & R).
  specialize (R 0). cbn [read_digits] in R. rewrite Z.mul_0_l, Z.add_0_l in R.
  assert (S : exists c r,
             dec_digits (S (Z.to_nat (Z.log2 n))) n "" = String c r).
  { cbn [dec_digits]. destruct (n / 10 =? 0);
      [eexists _, _; reflexivity | apply dec_digits_starts]. }
  destruct S as (c & r & E). exists c, r. rewrite <- E. auto.
Qed.

(** [printf]'s decimal conversion loses nothing: the numeral reads back
    as the number. *)
Lemma read_decimal_dec_of_Z n : read_decimal (dec_of_Z n) = Some n.
Proof.
  unfold dec_of_Z. destruct (Z.ltb_spec n 0) as [N | N].
  - destruct (read_digits_dec_of_nonneg (- n) ltac:(lia)) as (c & r & E & R).
    rewrite E. unfold read_decimal. cbn [Ascii.eqb Bool.eqb].
    rewrite R. cbn [option_map]. f_equal. lia.
  - destruct (read_digits_dec_of_nonneg n N) as (c & r & E & R).
    rewrite E. unfold read_decimal.
    destruct (Ascii.eqb_spec c "-") as [-> |]; [| exact R].
    cbn in R. discriminate.
Qed.

Lemma wrap_signed_32 v : - 2 ^ 31 <= v < 2 ^ 31 -> wrap_signed 32 v = v.
Proof.
  unfold wrap_signed. change (2 ^ 32) with 4294967296.
  change (2 ^ (32 - 1)) with 2147483648. change (2 ^ 31) with 2147483648.
  intros H. destruct (Z.ltb_spec (v mod 4294967296) 2147483648);
    digit_bounds.
Qed.

Lemma wrap_signed_64 v : - 2 ^ 63 <= v < 2 ^ 63 -> wrap_signed 64 v = v.
Proof.
  unfold wrap_signed. change (2 ^ 64) with 18446744073709551616.
  change (2 ^ (64 - 1)) with 9223372036854775808.
  change (2 ^ 63) with 9223372036854775808.
  intros H.
  destruct (Z.ltb_spec (v mod 18446744073709551616) 9223372036854775808);
    digit_bounds.
Qed.

Lemma printf_d_reads x :
  c_string (printf_d x) = printf_d x
  /\ read_decimal (printf_d x) = Some (wrap_signed 32 x).
Proof.
  unfold printf_d. split;
    [apply c_string_no_NUL, no_NUL_dec_of_Z | apply read_decimal_dec_of_Z].
Qed.

Lemma timestamp_string_no_NUL t s : timestamp_string t = Some s -> no_NUL s.
Proof.
  unfold timestamp_string. destruct (t =? 0); [discriminate |].
  destruct (gmtime _) as [b |]; [| discriminate].
  intros [= <-]. unfold strftime. cbn [strftime_expand strftime_conv].
  match goal with
  | |- context [if ?c then _ else _] => destruct c
  end; cbn [snd]; [| reflexivity].
  repeat first [ apply no_NUL_dec_of_Z | apply no_NUL_dec2
               | apply no_NUL_append
               | apply no_NUL_String; [reflexivity |] | reflexivity ].
Qed.

(* ================================================================== *)
(** ** What the callbacks return *)
(* ================================================================== *)

Lemma returns_only_ret v : returns_only (ret v) v.
Proof. intros w r w' [= <- _]. reflexivity. Qed.

Lemma returns_only_bind {A} (m : M A) (k : A -> M Z) v :
  (forall a, returns_only (k a) v) -> returns_only (bind m k) v.
Proof.
  intros K w r w'. unfold bind.
  destruct (m w) as [a w1 | |]; try discriminate. apply K.
Qed.

(** The value of [ret] is handed back once the element is ended. *)
Lemma returns_only_finish (m : M Z) v :
  returns_only m v ->
  returns_only (ret <- m ;; end_value ;; Hivexml.ret ret) v.
Proof.
  intros H w r w'. unfold bind.
  destruct (m w) as [a w1 | |] eqn:E; try discriminate.
  destruct (end_value w1); try discriminate.
  intros [= <- _]. exact (H _ _ _ E).
Qed.

Lemma value_byte_runs_result h value :
  returns_only (value_byte_runs h value)
    (if byte_run_queries_fail h value then -1 else 0).
Proof.
  unfold value_byte_runs, byte_run_queries_fail.
  destruct (hivex_value_struct_length h value) as [e1 l1].
  destruct (hivex_value_data_cell_offset h value) as [e2 [off l2]].
  cbn [fst]. destruct (e1 =? 0); cbn [negb orb];
    [| apply returns_only_ret].
  destruct (e2 =? 0); cbn [negb]; [| apply returns_only_ret].
  repeat (apply returns_only_bind; intros ?). apply returns_only_ret.
Qed.

(** [node_byte_runs], whatever the writer holds. *)
Lemma node_byte_runs_spec h node w :
  node_byte_runs h node w
  = if node_query_ok h node
    then Done 0
           (after_element
              (Element "byte_runs" []
                 [byte_run node (snd (hivex_node_struct_length h node))]) w)
    else Done (-1) w.
Proof.
  unfold node_byte_runs, node_query_ok, after_element, closed, byte_run.
  destruct (hivex_node_struct_length h node) as [e l]. cbn [fst snd].
  destruct (e =? 0); [| reflexivity].
  destruct w as [[ns doc] fc]. unfold emit. exec. reflexivity.
Qed.

Lemma node_byte_runs_result h node :
  returns_only (node_byte_runs h node)
    (if node_query_ok h node then 0 else -1).
Proof.
  intros w r w'. rewrite node_byte_runs_spec.
  destruct (node_query_ok h node); intros [= <- _]; reflexivity.
Qed.

Ltac result_step :=
  first [ apply returns_only_ret
        | apply returns_only_finish
        | apply value_byte_runs_result
        | apply node_byte_runs_result
        | apply returns_only_bind; intros ? ].

(** What a callback returns is decided by the queries for its byte runs
    alone. *)
Lemma visitor_result h c : returns_only (visitor h c) (callback_result h c).
Proof.
  destruct c as [node name | node name | a str | a argv | a str | a v
                 | a v | a v | a v | a v];
    cbn [visitor callback_result empty_none_or_other];
    unfold apply_value, node_start, node_end, value_string,
      value_multiple_strings, value_string_invalid_utf16, value_dword,
      value_qword, value_binary, value_none, value_other;
    cbv zeta.
  9, 10: destruct (0 <? va_len a); cbn [negb].
  all: repeat result_step.
Qed.

(* ================================================================== *)
(** ** Nodes *)
(* ================================================================== *)

(** X1: [node_byte_runs] gives a node exactly one byte run. When the
    library reports the length of the node, the function returns 0 and
    has added one finished [byte_runs] element with one [byte_run] in it,
    whatever the writer held; its [file_offset] and [len] attributes are
    the decimal numerals of the low 32 bits of the node's offset and
    length, hence of the offset itself when it is below [2^31]. When the
    query fails, it returns -1 and writes nothing. *)
Theorem X1_node_byte_runs (h : hive_h) (node : hive_node_h) (w : world) :
  node_byte_runs h node w
  = (if fst (hivex_node_struct_length h node) =? 0
     then Done 0
            (after_element
               (Element "byte_runs" []
                  [Element "byte_run"
                     [("file_offset", [Chars (printf_d node)]);
                      ("len",
                       [Chars (printf_d
                                 (snd (hivex_node_struct_length h node)))])]
                     []]) w)
     else Done (-1) w)
  /\ read_decimal (printf_d node) = Some (wrap_signed 32 node)
  /\ read_decimal (printf_d (snd (hivex_node_struct_length h node)))
     = Some (wrap_signed 32 (snd (hivex_node_struct_length h node)))
  /\ (0 <= node <= INT_MAX -> read_decimal (printf_d node) = Some node).
Proof.
  split; [| split; [| split]].
  - rewrite node_byte_runs_spec. unfold node_query_ok, byte_run.
    rewrite !(proj1 (printf_d_reads _)). reflexivity.
  - apply printf_d_reads.
  - apply printf_d_reads.
  - intros H. rewrite (proj2 (printf_d_reads _)). f_equal.
    apply wrap_signed_32. unfold INT_MAX in H. lia.
Qed.

Lemma has_attr_name h node name :
  has_attr "name" (node_attributes h node name)
  = match name with Some _ => true | None => false end.
Proof.
  unfold node_attributes, string_attribute.
  destruct name as [s |].
  - destruct (String.eqb (encoding_recommendation s) "none"); reflexivity.
  - destruct (node =? hivex_root h); reflexivity.
Qed.

Lemma mtime_nodes_cases ticks :
  ticks <= INT64_MAX ->
  if 0 <? ticks
  then exists s,
         timestamp_string ticks = Some s
         /\ mtime_nodes ticks = [Element "mtime" [] [Text (Chars s)]]
  else mtime_nodes ticks = [].
Proof.
  intros T. unfold mtime_nodes.
  destruct (Z.ltb_spec 0 ticks) as [P | P].
  - destruct (Z.leb_spec 0 ticks); [| lia].
    destruct (timestamp_string ticks) as [s |] eqn:E.
    + exists s. split; [reflexivity |].
      rewrite (c_string_no_NUL s (timestamp_string_no_NUL _ _ E)).
      reflexivity.
    + apply timestamp_string_absent in E; [lia |].
      unfold INT64_MIN. lia.
  - destruct (Z.leb_spec 0 ticks); [| reflexivity].
    replace ticks with 0 by lia. reflexivity.
Qed.

(** X2: the element [node_start] opens. With a name whose length fits
    an [int] (or a NULL name) and a timestamp that is a 64-bit number,
    [node_start] returns, 0 when the library reports the length of the
    node and -1 otherwise. The [node] element it leaves open has a
    [name] attribute exactly when the name is not NULL. Its children are
    one [mtime] element holding the converter's string when the timestamp
    is positive, none when it is zero or negative, and then the byte runs
    of the node. *)
Theorem X2_node_element (h : hive_h) (node : hive_node_h)
  (name : option string) (w : world) :
  (forall s, name = Some s -> fits_int s) ->
  hivex_node_timestamp h node <= INT64_MAX ->
  exists w' e mtime,
    node_start h node name w
    = Done (if node_query_ok h node then 0 else -1) w'
    /\ nodes (writer w') = e :: close_start_tag (nodes (writer w))
    /\ e_name e = "node"
    /\ has_attr "name" (e_attrs e)
       = match name with Some _ => true | None => false end
    /\ e_children e = mtime ++ node_byte_runs_nodes h node
    /\ if 0 <? hivex_node_timestamp h node
       then exists s,
              timestamp_string (hivex_node_timestamp h node) = Some s
              /\ mtime = [Element "mtime" [] [Text (Chars s)]]
       else mtime = [].
Proof.
  intros F T.
  destruct (node_start_returns h node name w F T) as (r & E).
  pose proof (visitor_result h (call_node_start node name) _ _ _ E) as R.
  cbn [callback_result] in R. subst r.
  eexists _, _, (mtime_nodes (hivex_node_timestamp h node)).
  split; [exact E |]. cbn [after_node_start writer nodes e_name e_attrs
                           e_children].
  split; [reflexivity |]. split; [reflexivity |].
  split; [apply has_attr_name |]. split; [reflexivity |].
  apply mtime_nodes_cases. exact T.
Qed.

Lemma X2_witness_root_node :
  fits_int "ROOT"
  /\ hivex_node_timestamp example_hive 4128 <= INT64_MAX
  /\ exists w' e mtime,
       node_start example_hive 4128 (Some "ROOT") initial_world
       = Done (if node_query_ok example_hive 4128 then 0 else -1) w'
       /\ nodes (writer w')
          = e :: close_start_tag (nodes (writer initial_world))
       /\ e_name e = "node"
       /\ has_attr "name" (e_attrs e) = true
       /\ e_children e = mtime ++ node_byte_runs_nodes example_hive 4128
       /\ if 0 <? hivex_node_timestamp example_hive 4128
          then exists s,
                 timestamp_string (hivex_node_timestamp example_hive 4128)
                 = Some s
                 /\ mtime = [Element "mtime" [] [Text (Chars s)]]
          else mtime = [].
Proof.
  split; [vm_compute; discriminate |].
  split; [vm_compute; discriminate |].
  apply (X2_node_element example_hive 4128 (Some "ROOT") initial_world).
  - intros s [= <-]. vm_compute. discriminate.
  - vm_compute. discriminate.
Defined.

(** X3: the value a callback hands back to the library. A callback that
    returns, returns -1 when a length query made for its byte runs fails
    and 0 in every other case: the result of
    [safe_print_string_attribute], which is -1 for a NULL string, is
    overwritten by that of the byte runs, and [value_none] and
    [value_other] return 0 for an empty payload without a query. *)
Theorem X3_callback_result (h : hive_h) (c : visitor_call)
  (w : world) (r : Z) (w' : world) :
  visitor h c w = Done r w' ->
  r = callback_result h c.
Proof. intros H. exact (visitor_result h c w r w' H). Qed.

Lemma X3_witness_null_string :
  visitor example_hive
    (call_value_string (example_args 5001 hive_t_string 0 "Foo") None)
    initial_world
  = Done 0 (after_element
              (Element "value"
                 [("type", [Chars "string"]); ("key", [Chars "Foo"])]
                 [Element "byte_runs" []
                    [Element "byte_run"
                       [("file_offset", [Chars "5001"]);
                        ("len", [Chars "32"])] [];
                     Element "byte_run"
                       [("file_offset", [Chars "6000"]);
                        ("len", [Chars "24"])] []]])
              initial_world)
  /\ 0 = callback_result example_hive
           (call_value_string (example_args 5001 hive_t_string 0 "Foo")
              None).
Proof.
  split; [vm_compute; reflexivity |].
  apply (X3_callback_result example_hive
           (call_value_string (example_args 5001 hive_t_string 0 "Foo")
              None)
           initial_world 0
           (after_element
              (Element "value"
                 [("type", [Chars "string"]); ("key", [Chars "Foo"])]
                 [Element "byte_runs" []
                    [Element "byte_run"
                       [("file_offset", [Chars "5001"]);
                        ("len", [Chars "32"])] [];
                     Element "byte_run"
                       [("file_offset", [Chars "6000"]);
                        ("len", [Chars "24"])] []]])
              initial_world)).
  vm_compute. reflexivity.
Defined.

(* ================================================================== *)
(** ** Strings *)
(* ================================================================== *)


Lemma base64_of_c_string d :
  fits_int d ->
  base64_of d (size_t_to_int (Z.of_nat (strlen d))) = Base64 (c_string d).
Proof.
  unfold fits_int, base64_of, c_string. intros F.
  rewrite size_t_to_int_small by lia. rewrite Nat2Z.id. reflexivity.
Qed.

(** The attributes of a string are its bytes up to the NUL, written as
    they are or as base64. *)
Lemma string_attribute_faithful name enc d :
  fits_int d ->
  (strlen d <> O /\ all_printable d
   /\ string_attribute name enc (Some d) = [(name, [Chars (c_string d)])])
  \/ ((strlen d = O \/ some_unprintable d)
      /\ string_attribute name enc (Some d)
         = [(enc, [Chars "base64"]); (name, [Base64 (c_string d)])]).
Proof.
  intros F. unfold string_attribute. rewrite (base64_of_c_string d F).
  destruct (encoding_recommendation_cases d) as [E | E]; rewrite E.
  - left. apply encoding_recommendation_none in E. tauto.
  - right. apply encoding_recommendation_base64 in E. auto.
Qed.



(* ================================================================== *)
(** ** Values *)
(* ================================================================== *)

Lemma key_attribute_cases key :
  key_attribute key = [("default", [Chars "1"])]
  \/ (exists s, key_attribute key = [("key", [Chars s])])
  \/ (exists b, key_attribute key
                = [("key_encoding", [Chars "base64"]);
                   ("key", [Base64 b])]).
Proof.
  unfold key_attribute, string_attribute.
  destruct (Ascii.eqb (char_at key 0) NUL); [auto |].
  destruct (String.eqb (encoding_recommendation key) "none");
    unfold base64_of; eauto.
Qed.

(** A ready call of a value callback returns, and the world it leaves
    has the element of the call added. *)
Lemma visitor_value_returns h c w :
  value_call_args c <> None ->
  call_ready h c w ->
  exists e,
    value_element h c = Some e
    /\ visitor h c w = Done (callback_result h c) (after_element e w).
Proof.
  intros A R. destruct (visitor_returns h c w R) as (r & w' & E).
  pose proof (visitor_result h c _ _ _ E) as ->.
  destruct (visitor_value_emits h c w _ w' A E) as (e & V & ->).
  exists e. auto.
Qed.

Lemma children_named_string_elements argv :
  children_named "string" (map string_element argv)
  = map string_element argv.
Proof.
  induction argv as [| s argv IH]; [reflexivity |].
  cbn [map children_named filter is_element string_element].
  change (String.eqb "string" "string") with true. cbv iota.
  f_equal. exact IH.
Qed.

Lemma children_named_string_byte_runs h value :
  children_named "string" (value_byte_runs_nodes h value) = [].
Proof.
  unfold value_byte_runs_nodes.
  destruct (hivex_value_struct_length h value) as [e1 l1].
  destruct (hivex_value_data_cell_offset h value) as [e2 [off l2]].
  destruct (negb (e1 =? 0) || negb (e2 =? 0)); reflexivity.
Qed.

Lemma string_elements_carry argv :
  Forall fits_int argv -> Forall2 carries argv (map string_element argv).
Proof.
  induction 1 as [| s argv F _ IH]; cbn [map]; constructor; [| exact IH].
  unfold carries, string_element.
  destruct (string_attribute_faithful "value" "value_encoding" s F)
    as [(_ & _ & ->) | (_ & ->)]; auto.
Qed.

(** X5: [value_multiple_strings] writes one [string] element per string
    of the list, in the order of the list, ahead of the byte runs. With a
    key and strings whose lengths fit an [int] the callback returns, -1
    when a query for the byte runs fails and 0 otherwise; the [value]
    element has type "string-list" whatever the type tag is, no [value]
    and no [value_encoding] attribute, and each [string] child carries
    the bytes of its string up to the NUL, as characters or as base64. *)
Theorem X5_value_multiple_strings (h : hive_h) (a : value_args)
  (argv : list string) (w : world) :
  fits_int (va_key a) ->
  Forall fits_int argv ->
  exists attrs strings,
    visitor h (call_value_multiple_strings a argv) w
    = Done (if byte_run_queries_fail h (va_value a) then -1 else 0)
        (after_element
           (Element "value" attrs
              (strings ++ value_byte_runs_nodes h (va_value a))) w)
    /\ lookup "type" attrs = Some [Chars "string-list"]
    /\ has_attr "value" attrs = false
    /\ has_attr "value_encoding" attrs = false
    /\ Forall2 carries argv strings
    /\ children_named "string"
         (strings ++ value_byte_runs_nodes h (va_value a)) = strings.
Proof.
  intros K F.
  destruct (visitor_value_returns h (call_value_multiple_strings a argv) w)
    as (e & V & E); [discriminate | split; assumption |].
  cbn [value_element] in V. injection V as <-.
  cbn [callback_result empty_none_or_other] in E.
  eexists _, _. split; [exact E |].
  unfold start_value_attributes. cbn [app].
  split; [reflexivity |].
  split; [destruct (key_attribute_cases (va_key a))
            as [-> | [[s ->] | [s ->]]]; reflexivity |].
  split; [destruct (key_attribute_cases (va_key a))
            as [-> | [[s ->] | [s ->]]]; reflexivity |].
  split; [apply string_elements_carry; exact F |].
  unfold children_named. rewrite filter_app.
  fold (children_named "string" (map string_element argv)).
  fold (children_named "string" (value_byte_runs_nodes h (va_value a))).
  rewrite children_named_string_elements, children_named_string_byte_runs.
  apply app_nil_r.
Qed.

Lemma X5_witness_two_strings :
  fits_int (va_key (example_args 5001 hive_t_multiple_strings 12 "List"))
  /\ Forall fits_int ["one"; String "009" "two"]
  /\ exists attrs strings,
       visitor example_hive
         (call_value_multiple_strings
            (example_args 5001 hive_t_multiple_strings 12 "List")
            ["one"; String "009" "two"]) initial_world
       = Done (if byte_run_queries_fail example_hive
                    (va_value
                       (example_args 5001 hive_t_multiple_strings 12 "List"))
               then -1 else 0)
           (after_element
              (Element "value" attrs
                 (strings
                  ++ value_byte_runs_nodes example_hive
                       (va_value
                          (example_args 5001 hive_t_multiple_strings 12
                             "List")))) initial_world)
       /\ lookup "type" attrs = Some [Chars "string-list"]
       /\ has_attr "value" attrs = false
       /\ has_attr "value_encoding" attrs = false
       /\ Forall2 carries ["one"; String "009" "two"] strings
       /\ children_named "string"
            (strings
             ++ value_byte_runs_nodes example_hive
                  (va_value
                     (example_args 5001 hive_t_multiple_strings 12 "List")))
          = strings.
Proof.
  split; [vm_compute; discriminate |].
  split; [repeat constructor; vm_compute; discriminate |].
  apply (X5_value_multiple_strings example_hive
           (example_args 5001 hive_t_multiple_strings 12 "List")
           ["one"; String "009" "two"] initial_world).
  - vm_compute. discriminate.
  - repeat constructor; vm_compute; discriminate.
Defined.

Lemma printf_i32_reads v :
  c_string (printf_i32 v) = printf_i32 v
  /\ read_decimal (printf_i32 v) = Some (wrap_signed 32 v).
Proof. exact (printf_d_reads v). Qed.

Lemma printf_i64_reads v :
  c_string (printf_i64 v) = printf_i64 v
  /\ read_decimal (printf_i64 v) = Some (wrap_signed 64 v).
Proof.
  unfold printf_i64. split;
    [apply c_string_no_NUL, no_NUL_dec_of_Z | apply read_decimal_dec_of_Z].
Qed.

Lemma integer_attributes key type text :
  let attrs :=
    start_value_attributes key type None ++ [("value", [Chars text])] in
  lookup "type" attrs = Some [Chars (c_string type)]
  /\ lookup "value" attrs = Some [Chars text]
  /\ has_attr "value_encoding" attrs = false.
Proof.
  unfold start_value_attributes. cbn [app].
  destruct (key_attribute_cases key) as [-> | [[s ->] | [s ->]]];
    repeat split; reflexivity.
Qed.

(** X6: the integer callbacks. [value_dword] and [value_qword] return
    for every key whose length fits an [int], and for every type tag
    and length: the element has type "int32" (or "int64"), no
    [value_encoding], and a [value] attribute that is the decimal
    numeral of the number taken as a signed 32-bit (64-bit) integer, so
    that a number in that range is read back from it unchanged. *)
Theorem X6_integer_values (h : hive_h) (a : value_args) (v : Z)
  (w : world) :
  fits_int (va_key a) ->
  (exists attrs text,
     visitor h (call_value_dword a v) w
     = Done (if byte_run_queries_fail h (va_value a) then -1 else 0)
         (after_element
            (Element "value" attrs (value_byte_runs_nodes h (va_value a)))
            w)
     /\ lookup "type" attrs = Some [Chars "int32"]
     /\ lookup "value" attrs = Some [Chars text]
     /\ has_attr "value_encoding" attrs = false
     /\ read_decimal text = Some (wrap_signed 32 v)
     /\ (- 2 ^ 31 <= v < 2 ^ 31 -> read_decimal text = Some v))
  /\ (exists attrs text,
        visitor h (call_value_qword a v) w
        = Done (if byte_run_queries_fail h (va_value a) then -1 else 0)
            (after_element
               (Element "value" attrs
                  (value_byte_runs_nodes h (va_value a))) w)
        /\ lookup "type" attrs = Some [Chars "int64"]
        /\ lookup "value" attrs = Some [Chars text]
        /\ has_attr "value_encoding" attrs = false
        /\ read_decimal text = Some (wrap_signed 64 v)
        /\ (- 2 ^ 63 <= v < 2 ^ 63 -> read_decimal text = Some v)).
Proof.
  intros K. split.
  - destruct (visitor_value_returns h (call_value_dword a v) w)
      as (e & V & E); [discriminate | exact K |].
    cbn [value_element] in V. injection V as <-.
    cbn [callback_result empty_none_or_other] in E.
    rewrite (proj1 (printf_i32_reads v)) in E.
    eexists _, (printf_i32 v). split; [exact E |].
    destruct (integer_attributes (va_key a) "int32" (printf_i32 v))
      as (T & L & N).
    split; [exact T |]. split; [exact L |]. split; [exact N |].
    split; [apply printf_i32_reads |].
    intros R. rewrite (proj2 (printf_i32_reads v)), wrap_signed_32 by exact R.
    reflexivity.
  - destruct (visitor_value_returns h (call_value_qword a v) w)
      as (e & V & E); [discriminate | exact K |].
    cbn [value_element] in V. injection V as <-.
    cbn [callback_result empty_none_or_other] in E.
    rewrite (proj1 (printf_i64_reads v)) in E.
    eexists _, (printf_i64 v). split; [exact E |].
    destruct (integer_attributes (va_key a) "int64" (printf_i64 v))
      as (T & L & N).
    split; [exact T |]. split; [exact L |]. split; [exact N |].
    split; [apply printf_i64_reads |].
    intros R. rewrite (proj2 (printf_i64_reads v)), wrap_signed_64 by exact R.
    reflexivity.
Qed.

Lemma X6_witness_all_ones :
  fits_int (va_key (example_args 5000 hive_t_dword 4 "Foo"))
  /\ (exists attrs text,
        visitor example_hive
          (call_value_dword (example_args 5000 hive_t_dword 4 "Foo")
             4294967295) initial_world
        = Done (if byte_run_queries_fail example_hive
                     (va_value (example_args 5000 hive_t_dword 4 "Foo"))
                then -1 else 0)
            (after_element
               (Element "value" attrs
                  (value_byte_runs_nodes example_hive
                     (va_value (example_args 5000 hive_t_dword 4 "Foo"))))
               initial_world)
        /\ lookup "type" attrs = Some [Chars "int32"]
        /\ lookup "value" attrs = Some [Chars text]
        /\ has_attr "value_encoding" attrs = false
        /\ read_decimal text = Some (wrap_signed 32 4294967295)
        /\ (- 2 ^ 31 <= 4294967295 < 2 ^ 31 ->
            read_decimal text = Some 4294967295))
  /\ (exists attrs text,
        visitor example_hive
          (call_value_qword (example_args 5000 hive_t_dword 4 "Foo")
             4294967295) initial_world
        = Done (if byte_run_queries_fail example_hive
                     (va_value (example_args 5000 hive_t_dword 4 "Foo"))
                then -1 else 0)
            (after_element
               (Element "value" attrs
                  (value_byte_runs_nodes example_hive
                     (va_value (example_args 5000 hive_t_dword 4 "Foo"))))
               initial_world)
        /\ lookup "type" attrs = Some [Chars "int64"]
        /\ lookup "value" attrs = Some [Chars text]
        /\ has_attr "value_encoding" attrs = false
        /\ read_decimal text = Some (wrap_signed 64 4294967295)
        /\ (- 2 ^ 63 <= 4294967295 < 2 ^ 63 ->
            read_decimal text = Some 4294967295)).
Proof.
  split; [vm_compute; discriminate |].
  apply (X6_integer_values example_hive
           (example_args 5000 hive_t_dword 4 "Foo") 4294967295
           initial_world).
  vm_compute. discriminate.
Defined.

Lemma base64_attributes key type b :
  let attrs :=
    start_value_attributes key type (Some "base64")
    ++ [("value", [Base64 b])] in
  lookup "type" attrs = Some [Chars (c_string type)]
  /\ lookup "value_encoding" attrs = Some [Chars "base64"]
  /\ lookup "value" attrs = Some [Base64 b].
Proof.
  unfold start_value_attributes. cbn [app].
  destruct (key_attribute_cases key) as [-> | [[s ->] | [s ->]]];
    repeat split; reflexivity.
Qed.

(** X7: [value_binary] writes its data as base64 whatever they are.
    With a key that fits an [int] and a length from 0 to [INT_MAX], a
    call with a data pointer that is not NULL returns for every type
    tag: the element has type "binary", [value_encoding] "base64", a
    [value] attribute holding the first [len] bytes of the data, and
    the byte runs of the value as its children, also when the length
    is 0. A call with a NULL data pointer makes the program exit with a
    failure. *)
Theorem X7_value_binary (h : hive_h) (a : value_args) (w : world) :
  fits_int (va_key a) ->
  0 <= va_len a <= INT_MAX ->
  (forall d, exists attrs,
     visitor h (call_value_binary a (Some d)) w
     = Done (if byte_run_queries_fail h (va_value a) then -1 else 0)
         (after_element
            (Element "value" attrs (value_byte_runs_nodes h (va_value a)))
            w)
     /\ lookup "type" attrs = Some [Chars "binary"]
     /\ lookup "value_encoding" attrs = Some [Chars "base64"]
     /\ lookup "value" attrs
        = Some [Base64 (substring 0 (Z.to_nat (va_len a)) d)])
  /\ exists w', visitor h (call_value_binary a None) w = Exit_failure w'.
Proof.
  intros K L. split.
  - intros d.
    destruct (visitor_value_returns h (call_value_binary a (Some d)) w)
      as (e & V & E);
      [discriminate | repeat split; (assumption || discriminate || apply L) |].
    cbn [value_element value_element_base64] in V. injection V as <-.
    cbn [callback_result empty_none_or_other] in E.
    unfold base64_value, base64_of in E.
    rewrite size_t_to_int_small in E by exact L.
    eexists. split; [exact E |].
    apply (base64_attributes (va_key a) "binary").
  - cbn [visitor]. unfold apply_value, value_binary.
    unfold bind at 1. rewrite start_value_returns by exact K.
    exec. eexists. reflexivity.
Qed.

Lemma X7_witness_empty_binary :
  fits_int (va_key (example_args 5000 hive_t_binary 0 "Bin"))
  /\ 0 <= va_len (example_args 5000 hive_t_binary 0 "Bin") <= INT_MAX
  /\ (forall d, exists attrs,
        visitor example_hive
          (call_value_binary (example_args 5000 hive_t_binary 0 "Bin")
             (Some d)) initial_world
        = Done (if byte_run_queries_fail example_hive
                     (va_value (example_args 5000 hive_t_binary 0 "Bin"))
                then -1 else 0)
            (after_element
               (Element "value" attrs
                  (value_byte_runs_nodes example_hive
                     (va_value (example_args 5000 hive_t_binary 0 "Bin"))))
               initial_world)
        /\ lookup "type" attrs = Some [Chars "binary"]
        /\ lookup "value_encoding" attrs = Some [Chars "base64"]
        /\ lookup "value" attrs
           = Some [Base64
                     (substring 0
                        (Z.to_nat
                           (va_len
                              (example_args 5000 hive_t_binary 0 "Bin")))
                        d)])
  /\ exists w',
       visitor example_hive
         (call_value_binary (example_args 5000 hive_t_binary 0 "Bin") None)
         initial_world = Exit_failure w'.
Proof.
  split; [vm_compute; discriminate |].
  split; [vm_compute; split; discriminate |].
  apply (X7_value_binary example_hive
           (example_args 5000 hive_t_binary 0 "Bin") initial_world).
  - vm_compute. discriminate.
  - vm_compute. split; discriminate.
Defined.

(* ================================================================== *)
(** ** Every element of the document *)
(* ================================================================== *)

(** A property of the name and the attributes of an element that holds
    of each kind of element the program writes holds of every element
    of the document. *)

Section Every.

Variable P : string -> list attribute -> Prop.
Variable h : hive_h.

Hypothesis P_hive : P "hive" [].
Hypothesis P_mtime : P "mtime" [].
Hypothesis P_byte_runs : P "byte_runs" [].
Hypothesis P_byte_run : forall offset len,
  P "byte_run" [("file_offset", [Chars offset]); ("len", [Chars len])].
Hypothesis P_string : forall data,
  P "string" (string_attribute "value" "value_encoding" (Some data)).
Hypothesis P_node : forall node name,
  P "node" (node_attributes h node name).
Hypothesis P_value : forall lone key type encoding rest,
  value_rest_shape lone encoding rest ->
  P "value" (start_value_attributes key type encoding ++ rest).

Lemma every_element_intro n a c :
  P n a -> Forall (every_element P) c -> every_element P (Element n a c).
Proof.
  intros H F. unfold every_element. cbn [elements].
  constructor; [exact H |].
  clear H. induction F as [| x c Hx F IH]; cbn [flat_map]; [constructor |].
  apply Forall_app. split; [exact Hx | exact IH].
Qed.

Lemma every_mtime_nodes ticks : Forall (every_element P) (mtime_nodes ticks).
Proof.
  unfold mtime_nodes. destruct (0 <=? ticks); [| constructor].
  destruct (timestamp_string ticks); [| constructor].
  constructor; [| constructor].
  apply every_element_intro; [exact P_mtime |].
  repeat constructor.
Qed.

Lemma every_byte_run offset len : every_element P (byte_run offset len).
Proof.
  apply every_element_intro; [apply P_byte_run | constructor].
Qed.

Lemma every_value_byte_runs value :
  Forall (every_element P) (value_byte_runs_nodes h value).
Proof.
  unfold value_byte_runs_nodes.
  destruct (hivex_value_struct_length h value) as [e1 l1].
  destruct (hivex_value_data_cell_offset h value) as [e2 [off l2]].
  destruct (negb (e1 =? 0) || negb (e2 =? 0)); [constructor |].
  constructor; [| constructor].
  apply every_element_intro; [exact P_byte_runs |].
  constructor; [apply every_byte_run |].
  destruct (4 <? l2); [| constructor].
  constructor; [apply every_byte_run | constructor].
Qed.

Lemma every_node_children node :
  Forall (every_element P) (node_children h node).
Proof.
  unfold node_children, node_byte_runs_nodes. apply Forall_app.
  split; [apply every_mtime_nodes |].
  destruct (hivex_node_struct_length h node) as [e l].
  destruct (negb (e =? 0)); [constructor |].
  constructor; [| constructor].
  apply every_element_intro; [exact P_byte_runs |].
  constructor; [apply every_byte_run | constructor].
Qed.

Lemma every_value_element c e :
  value_element h c = Some e -> every_element P e.
Proof.
  intros V. apply value_element_inv in V.
  destruct V as (a & type & encoding & rest & argv & runs
                 & _ & -> & R & B).
  apply every_element_intro; [eapply P_value; exact R |].
  apply Forall_app. split.
  - apply Forall_forall. intros x X. apply in_map_iff in X.
    destruct X as (s & <- & _).
    apply every_element_intro; [apply P_string | constructor].
  - destruct B as [[-> _] | [-> _]];
      [apply every_value_byte_runs | constructor].
Qed.

Lemma every_close_start_tag ns :
  Forall (every_entry P) ns -> Forall (every_entry P) (close_start_tag ns).
Proof.
  intros F. destruct F as [| [n a c s] ps (S & A & C) F]; [constructor |].
  unfold close_start_tag. constructor; [| exact F].
  cbn in S. destruct (plain_cases s S) as [-> | ->];
    (split; [exact I | split; assumption]).
Qed.

Lemma every_emit x w :
  every_element P x -> every_written P w -> every_written P (emit x w).
Proof.
  intros X [N D]. unfold emit.
  destruct N as [| [n a c s] ps (S & A & C) N]; split; cbn.
  - constructor.
  - apply Forall_app. split; [exact D | constructor; [exact X | constructor]].
  - constructor; [| exact N]. split; [exact I |]. cbn. split; [exact A |].
    apply Forall_app. split; [exact C | constructor; [exact X | constructor]].
  - exact D.
Qed.

Lemma every_end_element w r w' :
  every_written P w ->
  xmlTextWriterEndElement w = (r, w') ->
  every_written P w'.
Proof.
  unfold xmlTextWriterEndElement.
  destruct w as [[| e ps] doc]; cbn [nodes document]; intros G.
  - intros [= <- <-]. exact G.
  - destruct G as [GN GD]. cbn [nodes document] in GN, GD.
    inversion GN as [| e' ps' (S & A & C) GP]; subst.
    assert (X : end_pending_attribute e = e).
    { destruct e as [n' a c s]. cbn in S.
      destruct (plain_cases s S) as [-> | ->]; reflexivity. }
    rewrite X. intros [= <- <-]. apply every_emit.
    + apply every_element_intro; [exact A | exact C].
    + split; [exact GP | exact GD].
Qed.

Lemma every_visitor c w r w' :
  every_written P (writer w) ->
  visitor h c w = Done r w' ->
  every_written P (writer w').
Proof.
  intros G H.
  destruct (value_call_args c) eqn:A.
  - apply visitor_value_emits in H; [| rewrite A; discriminate].
    destruct H as (e & V & ->). destruct G as [N D].
    cbn [after_element writer]. apply every_emit.
    + eapply every_value_element. exact V.
    + split; [apply every_close_start_tag; exact N | exact D].
  - destruct c as [nd name | nd name | | | | | | | |]; try discriminate;
      cbn [visitor] in H.
    + apply node_start_inv in H. subst w'. destruct G as [N D].
      split; cbn; [| exact D].
      constructor; [| apply every_close_start_tag; exact N].
      split; cbn; [destruct (node_children h nd); exact I |].
      split; [apply P_node | apply every_node_children].
    + unfold node_end, bind, XML_CHECK in H.
      destruct (xmlTextWriterEndElement (writer w)) as [r1 x1] eqn:E.
      destruct (r1 =? -1); [discriminate |].
      injection H as _ <-. cbn [with_writer writer].
      eapply every_end_element; [exact G | exact E].
Qed.

Lemma every_hivex_visit calls : forall w r w',
  every_written P (writer w) ->
  hivex_visit h calls w = Done r w' ->
  every_written P (writer w').
Proof.
  induction calls as [| c calls IH]; intros w r w' G; cbn [hivex_visit].
  - intros [= <- <-]. exact G.
  - unfold bind. destruct (visitor h c w) as [r1 w1 | |] eqn:V;
      try discriminate.
    pose proof (every_visitor c w r1 w1 G V) as G1.
    destruct (r1 =? -1); [intros [= <- <-]; exact G1 |].
    apply IH. exact G1.
Qed.

Lemma every_end_all n : forall w r w',
  every_written P w ->
  end_all n w = (r, w') ->
  every_written P w'.
Proof.
  induction n as [| n IH]; intros w r w' G; cbn [end_all].
  - intros [= <- <-]. exact G.
  - destruct (xmlTextWriterEndElement w) as [r1 w1] eqn:E.
    pose proof (every_end_element w r1 w1 G E) as G1.
    destruct (r1 <? 0); [intros [= <- <-]; exact G1 |].
    apply IH. exact G1.
Qed.

Lemma every_main calls fc r w' :
  main h calls (mk_world xmlNewTextWriter fc) = Done r w' ->
  Forall (every_element P) (document (writer w')).
Proof.
  unfold main. unfold bind at 1. cbn [XML_CHECK xmlTextWriterStartDocument
    xmlNewTextWriter writer nodes Z.eqb with_writer filetime_calls].
  rewrite start_element_step.
  cbn [writer nodes document filetime_calls close_start_tag].
  intros H. apply mtime_inv in H.
  unfold bind at 1 in H.
  destruct (hivex_visit h calls _) as [r1 w1 | |] eqn:V; try discriminate.
  apply every_hivex_visit in V.
  2:{ split; cbn; [| constructor]. constructor; [| constructor].
      split; cbn.
      - destruct (mtime_nodes _); exact I.
      - split; [exact P_hive | apply every_mtime_nodes]. }
  destruct (r1 =? -1); [discriminate |].
  destruct (hivex_close h =? -1); [discriminate |].
  unfold bind, XML_CHECK in H.
  destruct (xmlTextWriterEndElement (writer w1)) as [r2 x2] eqn:E2.
  destruct (r2 =? -1); [discriminate |].
  cbn [with_writer writer] in H.
  destruct (xmlTextWriterEndDocument x2) as [r3 x3] eqn:E3.
  destruct (r3 =? -1); [discriminate |].
  injection H as _ <-. cbn [with_writer writer].
  pose proof (every_end_element _ _ _ V E2) as G2.
  apply (every_end_all _ _ _ _ G2) in E3. apply E3.
Qed.

End Every.

(** The names of the attributes of a [value] element, in their order. *)
Lemma value_attribute_names lone key type encoding rest :
  value_rest_shape lone encoding rest ->
  In (attribute_names (start_value_attributes key type encoding ++ rest))
     value_attribute_orders.
Proof.
  unfold start_value_attributes.
  intros [(-> & -> & _) | [(-> & -> & _) | [(s & -> & -> & _)
          | [(s & -> & -> & _) | (s & -> & -> & _)]]]];
    destruct (key_attribute_cases key) as [-> | [[k ->] | [k ->]]];
    cbn; tauto.
Qed.

Lemma node_attribute_names h node name :
  In (attribute_names (node_attributes h node name))
     [[]; ["name"]; ["name_encoding"; "name"]; ["root"]; ["name"; "root"];
      ["name_encoding"; "name"; "root"]].
Proof.
  unfold node_attributes.
  destruct (string_attribute_cases "name" "name_encoding" name)
    as [-> | [[s ->] | [s ->]]];
    destruct (node =? hivex_root h); cbn; tauto.
Qed.

Lemma string_attribute_names data :
  In (attribute_names (string_attribute "value" "value_encoding" data))
     [[]; ["value"]; ["value_encoding"; "value"]].
Proof.
  destruct (string_attribute_cases "value" "value_encoding" data)
    as [-> | [[s ->] | [s ->]]]; cbn; tauto.
Qed.

Ltac each_order H :=
  cbn [In value_attribute_orders flat_map map app fst snd] in H;
  repeat (destruct H as [H | H]; [rewrite <- H; clear H |]);
  [.. | contradiction].

Ltac distinct := repeat constructor; cbn; intuition discriminate.

Ltac allowed :=
  eexists; split; [cbn; auto 10 |]; intros x; cbn; tauto.

(** X8: no element has two attributes of the same name. In the
    document of every run of [main] that ends well, and for every walk
    the library makes, the names of the attributes of each element are
    pairwise distinct. *)
Theorem X8_distinct_attribute_names (h : hive_h)
  (calls : list visitor_call) (fc : list Z) (r : Z) (w' : world) :
  main h calls (mk_world xmlNewTextWriter fc) = Done r w' ->
  Forall (every_element distinct_attributes) (document (writer w')).
Proof.
  apply every_main; unfold distinct_attributes.
  - constructor.
  - constructor.
  - constructor.
  - intros offset len. distinct.
  - intros data. pose proof (string_attribute_names (Some data)) as H.
    each_order H; distinct.
  - intros node name. pose proof (node_attribute_names h node name) as H.
    each_order H; distinct.
  - intros lone key type encoding rest R.
    pose proof (value_attribute_names lone key type encoding rest R) as H.
    each_order H; distinct.
Qed.

Lemma X8_witness_example_document :
  main example_hive example_walk (mk_world xmlNewTextWriter [])
  = Done 0 (final_world (main example_hive example_walk initial_world))
  /\ Forall (every_element distinct_attributes)
       (document
          (writer
             (final_world (main example_hive example_walk initial_world)))).
Proof.
  split; [vm_compute; reflexivity |].
  apply (X8_distinct_attribute_names example_hive example_walk [] 0
           (final_world (main example_hive example_walk initial_world))).
  vm_compute. reflexivity.
Defined.

(** X9: the vocabulary of the output. In the document of every run of
    [main] that ends well, every element is one of [hive], [mtime],
    [node], [byte_runs], [byte_run], [value] and [string], and has no
    attribute but those of its kind: none for [hive], [mtime] and
    [byte_runs]; [name], [name_encoding] and [root] for [node];
    [file_offset] and [len] for [byte_run]; [type], [value_encoding],
    [key], [key_encoding], [default] and [value] for [value]; [value]
    and [value_encoding] for [string]. *)
Theorem X9_vocabulary_of_the_document (h : hive_h)
  (calls : list visitor_call) (fc : list Z) (r : Z) (w' : world) :
  main h calls (mk_world xmlNewTextWriter fc) = Done r w' ->
  Forall (every_element in_vocabulary) (document (writer w')).
Proof.
  apply every_main; unfold in_vocabulary, vocabulary.
  - allowed.
  - allowed.
  - allowed.
  - intros offset len. allowed.
  - intros data. pose proof (string_attribute_names (Some data)) as H.
    each_order H; allowed.
  - intros node name. pose proof (node_attribute_names h node name) as H.
    each_order H; allowed.
  - intros lone key type encoding rest R.
    pose proof (value_attribute_names lone key type encoding rest R) as H.
    each_order H; allowed.
Qed.

Lemma X9_witness_example_document :
  main example_hive example_walk (mk_world xmlNewTextWriter [])
  = Done 0 (final_world (main example_hive example_walk initial_world))
  /\ Forall (every_element in_vocabulary)
       (document
          (writer
             (final_world (main example_hive example_walk initial_world)))).
Proof.
  split; [vm_compute; reflexivity |].
  apply (X9_vocabulary_of_the_document example_hive example_walk [] 0
           (final_world (main example_hive example_walk initial_world))).
  vm_compute. reflexivity.
Defined.

(* ================================================================== *)
(** ** The walk of a tree *)
(* ================================================================== *)

Lemma hive_tree_induction (Q : hive_tree -> Prop) :
  (forall node name values subkeys,
     Forall Q subkeys -> Q (Key node name values subkeys)) ->
  forall t, Q t.
Proof.
  intros H. fix IH 1. intros [node name values subkeys]. apply H.
  induction subkeys as [| t l IHl]; constructor; [apply IH | exact IHl].
Qed.

Lemma after_element_open e n a c s ps doc fc :
  plain s ->
  after_element e (W n a c s ps doc fc)
  = W n a (c ++ [e]) XML_TEXTWRITER_TEXT ps doc fc.
Proof.
  intros S. destruct (plain_cases s S) as [-> | ->]; reflexivity.
Qed.

Lemma after_tree_open h t n a c s ps doc fc :
  plain s ->
  after_tree h t (W n a c s ps doc fc)
  = W n a (c ++ [tree_element h t]) XML_TEXTWRITER_TEXT ps doc
      (fc ++ tree_ticks h t).
Proof.
  intros S. destruct (plain_cases s S) as [-> | ->]; reflexivity.
Qed.

Lemma hivex_visit_step h c rest w w1 :
  visitor h c w = Done 0 w1 ->
  hivex_visit h (c :: rest) w = hivex_visit h rest w1.
Proof.
  intros E. cbn [hivex_visit]. unfold bind. rewrite E. reflexivity.
Qed.

Lemma call_ready_value h c w1 w2 :
  value_call_args c <> None -> call_ready h c w1 -> call_ready h c w2.
Proof. destruct c; cbn; tauto. Qed.

(** The values of a node become children of its element, in the order
    of the calls. *)
Lemma visit_values h values : forall rest n a c s ps doc fc,
  Forall (value_ready h) values ->
  plain s ->
  exists s',
    plain s'
    /\ hivex_visit h (values ++ rest) (W n a c s ps doc fc)
       = hivex_visit h rest
           (W n a (c ++ value_elements h values) s' ps doc fc).
Proof.
  induction values as [| v values IH]; intros rest n a c s ps doc fc F S.
  - exists s. cbn [app value_elements flat_map]. rewrite app_nil_r. auto.
  - inversion F as [| v' values' (A & R & Z0) F']; subst.
    destruct (visitor_value_returns h v (W n a c s ps doc fc) A
                (call_ready_value h v _ _ A R)) as (e & V & E).
    rewrite Z0, after_element_open in E by exact S.
    cbn [app]. rewrite (hivex_visit_step _ _ _ _ _ E).
    destruct (IH rest n a (c ++ [e]) XML_TEXTWRITER_TEXT ps doc fc F' I)
      as (s' & S' & ->).
    exists s'. split; [exact S' |].
    unfold value_elements. cbn [flat_map]. rewrite V, <- app_assoc.
    reflexivity.
Qed.

(** The nodes below a node become children of its element, each with
    all that is below it, in the order of the walk. *)
Lemma visit_subkeys h subkeys : forall rest n a c s ps doc fc,
  Forall (fun t => forall rest w,
            hivex_visit h (walk t ++ rest) w
            = hivex_visit h rest (after_tree h t w)) subkeys ->
  plain s ->
  exists s',
    plain s'
    /\ hivex_visit h (flat_map walk subkeys ++ rest) (W n a c s ps doc fc)
       = hivex_visit h rest
           (W n a (c ++ map (tree_element h) subkeys) s' ps doc
              (fc ++ flat_map (tree_ticks h) subkeys)).
Proof.
  induction subkeys as [| t subkeys IH]; intros rest n a c s ps doc fc F S.
  - exists s. cbn [flat_map map app]. rewrite !app_nil_r. auto.
  - inversion F as [| t' l' Ht F']; subst.
    cbn [flat_map map]. rewrite <- app_assoc, Ht.
    rewrite after_tree_open by exact S.
    destruct (IH rest n a (c ++ [tree_element h t]) XML_TEXTWRITER_TEXT ps
                doc (fc ++ tree_ticks h t) F' I) as (s' & S' & ->).
    exists s'. split; [exact S' |].
    rewrite <- !app_assoc. reflexivity.
Qed.

Lemma node_end_open h node name n a c s ps doc fc :
  plain s ->
  node_end h node name (W n a c s ps doc fc)
  = Done 0 (mk_world (emit (Element n a c) (mk_writer ps doc)) fc).
Proof.
  intros S. unfold node_end.
  destruct (plain_cases s S) as [-> | ->]; reflexivity.
Qed.

(** The calls made for a tree add its element, finished, to the element
    that is open, and leave the walk to go on from there. *)
Lemma visit_tree h t :
  tree_ready h t ->
  forall rest w,
    hivex_visit h (walk t ++ rest) w
    = hivex_visit h rest (after_tree h t w).
Proof.
  induction t as [node name values subkeys IH] using hive_tree_induction.
  intros R rest w.
  inversion R as [node' name' values' subkeys' [F T] Q V K]; subst.
  destruct (node_start_returns h node name w F T) as (r & E).
  pose proof (visitor_result h (call_node_start node name) _ _ _ E) as Z0.
  cbn [callback_result] in Z0. rewrite Q in Z0. subst r.
  cbn [walk app].
  rewrite (hivex_visit_step h (call_node_start node name) _ w _ E).
  unfold after_node_start. rewrite <- !app_assoc.
  destruct (visit_values h values
              (flat_map walk subkeys ++ [call_node_end node name] ++ rest)
              "node" (node_attributes h node name) (node_children h node)
              (state_after (node_children h node))
              (close_start_tag (nodes (writer w))) (document (writer w))
              (filetime_calls w
               ++ (if 0 <=? hivex_node_timestamp h node
                   then [hivex_node_timestamp h node] else []))
              V) as (s1 & S1 & ->).
  { destruct (node_children h node); exact I. }
  destruct (visit_subkeys h subkeys ([call_node_end node name] ++ rest)
              "node" (node_attributes h node name)
              (node_children h node ++ value_elements h values) s1
              (close_start_tag (nodes (writer w))) (document (writer w))
              (filetime_calls w
               ++ (if 0 <=? hivex_node_timestamp h node
                   then [hivex_node_timestamp h node] else [])))
    as (s2 & S2 & ->); [| exact S1 |].
  { rewrite Forall_forall in IH, K |- *. intros t' I'.
    apply IH; [exact I' | apply K; exact I']. }
  cbn [app].
  rewrite (hivex_visit_step h (call_node_end node name) rest _ _
             (node_end_open h node name _ _ _ _ _ _ _ S2)).
  unfold after_tree, closed. cbn [tree_element tree_ticks].
  rewrite <- !app_assoc. reflexivity.
Qed.

(** X10: the calls made for a tree of the hive write one [node]
    element. When the library walks a node, its values and the nodes
    below it in depth-first order, and every callback is called with
    arguments it returns 0 for, the visit returns 0 and has added one
    finished element to the element that was open: a [node] element
    holding what [node_start] writes, then one [value] element for each
    value in the order of the calls, then the elements of the nodes
    below in their order, each built the same way. Nothing else of the
    writer changes, and the converter has been called with the
    timestamps of the nodes that are not negative, in the order in
    which the nodes were entered. *)
Theorem X10_walk_of_a_tree (h : hive_h) (t : hive_tree) (w : world) :
  tree_ready h t ->
  hivex_visit h (walk t) w
  = Done 0
      {| writer := emit (tree_element h t) (closed (writer w));
         filetime_calls := filetime_calls w ++ tree_ticks h t |}.
Proof.
  intros R. pose proof (visit_tree h t R [] w) as E.
  rewrite app_nil_r in E. exact E.
Qed.

Lemma example_tree_ready : tree_ready example_hive example_tree.
Proof.
  unfold example_tree. apply ready_key.
  - split; [intros s [= <-] |]; vm_compute; discriminate.
  - reflexivity.
  - repeat apply Forall_cons; try apply Forall_nil.
    + split; [discriminate |]. split; [vm_compute; discriminate |].
      reflexivity.
    + split; [discriminate |]. split; [| reflexivity].
      split; [discriminate |].
      split; [| intros s [= <-]]; vm_compute; discriminate.
  - apply Forall_cons; [| apply Forall_nil]. apply ready_key.
    + split; [intros s [= <-] |]; vm_compute; discriminate.
    + reflexivity.
    + apply Forall_cons; [| apply Forall_nil].
      split; [discriminate |]. split; [| reflexivity].
      split; [vm_compute; discriminate |].
      intros L. vm_compute in L. discriminate.
    + apply Forall_nil.
Qed.

Lemma X10_witness_example_tree :
  tree_ready example_hive example_tree
  /\ hivex_visit example_hive (walk example_tree) initial_world
     = Done 0
         {| writer :=
              emit (tree_element example_hive example_tree)
                (closed (writer initial_world));
            filetime_calls :=
              filetime_calls initial_world
              ++ tree_ticks example_hive example_tree |}.
Proof.
  split; [exact example_tree_ready |].
  apply (X10_walk_of_a_tree example_hive example_tree initial_world).
  exact example_tree_ready.
Defined.

(* ================================================================== *)
(** ** Runs of [main] *)
(* ================================================================== *)

(** X11: the document of a tree. When the library walks a tree for
    which every callback returns 0, the timestamp of the hive is a
    64-bit number and [hivex_close] does not fail, [main] returns
    [EXIT_SUCCESS] with every element closed, and the document is one
    [hive] element holding the [mtime] of the hive, when it has one,
    and the [node] element of the tree. *)
Theorem X11_document_of_a_tree (h : hive_h) (t : hive_tree)
  (fc : list Z) :
  tree_ready h t ->
  hivex_last_modified h <= INT64_MAX ->
  hivex_close h <> -1 ->
  main h (walk t) (mk_world xmlNewTextWriter fc)
  = Done EXIT_SUCCESS
      {| writer :=
           {| nodes := [];
              document :=
                [Element "hive" []
                   (mtime_nodes (hivex_last_modified h)
                    ++ [tree_element h t])] |};
         filetime_calls :=
           fc ++ (if 0 <=? hivex_last_modified h
                  then [hivex_last_modified h] else [])
           ++ tree_ticks h t |}.
Proof.
  intros R T C. unfold main. unfold bind at 1.
  cbn [XML_CHECK xmlTextWriterStartDocument xmlNewTextWriter writer nodes
       Z.eqb with_writer filetime_calls].
  rewrite start_element_step.
  cbn [writer nodes document filetime_calls close_start_tag].
  rewrite mtime_step by exact T.
  unfold bind at 1.
  pose proof (visit_tree h t R []) as V. rewrite app_nil_r in V.
  rewrite V. cbn [hivex_visit ret]. rewrite after_tree_open.
  2:{ destruct (mtime_nodes _); exact I. }
  destruct (Z.eqb_spec (hivex_close h) (-1)) as [X | _]; [contradiction |].
  unfold emit. exec. rewrite <- app_assoc. reflexivity.
Qed.

Lemma X11_witness_example_tree :
  tree_ready example_hive example_tree
  /\ hivex_last_modified example_hive <= INT64_MAX
  /\ hivex_close example_hive <> -1
  /\ main example_hive (walk example_tree) (mk_world xmlNewTextWriter [])
     = Done EXIT_SUCCESS
         {| writer :=
              {| nodes := [];
                 document :=
                   [Element "hive" []
                      (mtime_nodes (hivex_last_modified example_hive)
                       ++ [tree_element example_hive example_tree])] |};
            filetime_calls :=
              [] ++ (if 0 <=? hivex_last_modified example_hive
                     then [hivex_last_modified example_hive] else [])
              ++ tree_ticks example_hive example_tree |}.
Proof.
  split; [exact example_tree_ready |].
  split; [vm_compute; discriminate |].
  split; [discriminate |].
  apply (X11_document_of_a_tree example_hive example_tree []).
  - exact example_tree_ready.
  - vm_compute. discriminate.
  - discriminate.
Defined.

Lemma callback_result_cases h c :
  callback_result h c = 0 \/ callback_result h c = -1.
Proof.
  destruct c; cbn [callback_result empty_none_or_other];
    repeat match goal with
           | |- context [if ?b then _ else _] => destruct b
           end; auto.
Qed.

(** A visit that does not return -1 has had 0 from every callback. *)
Lemma hivex_visit_result h calls : forall w r w',
  hivex_visit h calls w = Done r w' ->
  r = -1 \/ (r = 0 /\ Forall (fun c => callback_result h c = 0) calls).
Proof.
  induction calls as [| c calls IH]; intros w r w'; cbn [hivex_visit].
  - intros [= <- _]. right. auto.
  - unfold bind. destruct (visitor h c w) as [r1 w1 | |] eqn:V;
      try discriminate.
    apply visitor_result in V. subst r1.
    destruct (callback_result_cases h c) as [E | E]; rewrite E.
    + cbn [Z.eqb]. intros H. apply IH in H.
      destruct H as [H | [H F]]; [left; exact H | right].
      split; [exact H | constructor; assumption].
    + cbn [Z.eqb]. intros [= <- _]. left. reflexivity.
Qed.

Lemma nodes_emit x w :
  List.length (nodes (emit x w)) = List.length (nodes w).
Proof. unfold emit. destruct (nodes w); reflexivity. Qed.

(** [xmlTextWriterEndDocument] leaves no element open. *)
Lemma end_all_closes n : forall w,
  List.length (nodes w) = n ->
  exists w', end_all n w = (0, w') /\ nodes w' = [].
Proof.
  induction n as [| n IH]; intros w L; cbn [end_all].
  - exists w. split; [reflexivity |].
    destruct (nodes w); [reflexivity | discriminate].
  - unfold xmlTextWriterEndElement.
    destruct (nodes w) as [| e ps] eqn:N; [discriminate |].
    cbn [Z.ltb Z.compare]. apply IH. rewrite nodes_emit.
    cbn [nodes]. cbn [List.length] in L. congruence.
Qed.

(** X12: when [main] ends well. A run of [main] that returns, for
    whatever walk the library makes, returns [EXIT_SUCCESS] and leaves
    no element of the document open; [hivex_close] has not failed, and
    every callback of the walk has returned 0, so that no length query
    for a byte run has failed: a run in which such a query or the
    close fails does not return. *)
Theorem X12_main_ends_well (h : hive_h) (calls : list visitor_call)
  (fc : list Z) (r : Z) (w' : world) :
  main h calls (mk_world xmlNewTextWriter fc) = Done r w' ->
  r = EXIT_SUCCESS
  /\ nodes (writer w') = []
  /\ hivex_close h <> -1
  /\ Forall (fun c => callback_result h c = 0) calls.
Proof.
  unfold main. unfold bind at 1. cbn [XML_CHECK xmlTextWriterStartDocument
    xmlNewTextWriter writer nodes Z.eqb with_writer filetime_calls].
  rewrite start_element_step.
  cbn [writer nodes document filetime_calls close_start_tag].
  intros H. apply mtime_inv in H.
  unfold bind at 1 in H.
  destruct (hivex_visit h calls _) as [r1 w1 | |] eqn:V; try discriminate.
  apply hivex_visit_result in V.
  destruct V as [-> | [-> F]]; [discriminate |].
  cbn [Z.eqb] in H.
  destruct (Z.eqb_spec (hivex_close h) (-1)) as [| C]; [discriminate |].
  unfold bind, XML_CHECK in H.
  destruct (xmlTextWriterEndElement (writer w1)) as [r2 x2].
  destruct (r2 =? -1); [discriminate |].
  cbn [with_writer writer] in H. unfold xmlTextWriterEndDocument in H.
  destruct (end_all_closes _ x2 eq_refl) as (x3 & E & N).
  rewrite E in H. cbn [Z.eqb] in H. injection H as <- <-.
  cbn [with_writer writer]. auto.
Qed.

Lemma X12_witness_example_walk :
  main example_hive example_walk (mk_world xmlNewTextWriter [])
  = Done 0 (final_world (main example_hive example_walk initial_world))
  /\ 0 = EXIT_SUCCESS
  /\ nodes (writer
              (final_world (main example_hive example_walk initial_world)))
     = []
  /\ hivex_close example_hive <> -1
  /\ Forall (fun c => callback_result example_hive c = 0) example_walk.
Proof.
  split; [vm_compute; reflexivity |].
  apply (X12_main_ends_well example_hive example_walk [] 0
           (final_world (main example_hive example_walk initial_world))).
  vm_compute. reflexivity.
Defined.

(* ================================================================== *)
(** ** Timestamps *)
(* ================================================================== *)

(** X13: one string for each second. For two tick counts that are not
    0 and lie in the years 1000 to 9999, [filetime_to_8601] returns the
    same string exactly when the two lie in the same second: the ticks
    within a second are dropped, and different seconds never share a
    string. *)
Theorem X13_one_string_per_second (t1 t2 : Z) (w : world) :
  t1 <> 0 -> t2 <> 0 ->
  -189657504010000000 < t1 < 2650467744000000000 ->
  -189657504010000000 < t2 < 2650467744000000000 ->
  exists s1 s2,
    filetime_to_8601 t1 w = Done (Some s1) (logged t1 w)
    /\ filetime_to_8601 t2 w = Done (Some s2) (logged t2 w)
    /\ (s1 = s2 <-> unix_second_of_ticks t1 = unix_second_of_ticks t2).
Proof.
  intros N1 N2 R1 R2.
  destruct (timestamp_string_strict t1 N1 R1) as (s1 & E1 & _ & I1).
  destruct (timestamp_string_strict t2 N2 R2) as (s2 & E2 & _ & I2).
  exists s1, s2.
  rewrite !filetime_to_8601_returns, E1, E2
    by (unfold INT64_MIN, INT64_MAX; lia).
  split; [reflexivity |]. split; [reflexivity |]. split.
  - intros S. rewrite S, I2 in I1. congruence.
  - intros U. revert E1 E2. unfold timestamp_string.
    destruct (Z.eqb_spec t1 0); [contradiction |].
    destruct (Z.eqb_spec t2 0); [contradiction |].
    change (Z.quot t1 WINDOWS_TICK - SEC_TO_UNIX_EPOCH)
      with (unix_second_of_ticks t1).
    change (Z.quot t2 WINDOWS_TICK - SEC_TO_UNIX_EPOCH)
      with (unix_second_of_ticks t2).
    rewrite U. intros ->. intros [= ->]. reflexivity.
Qed.

Lemma X13_witness_same_second :
  116444736000000000 <> 0
  /\ 116444736009999999 <> 0
  /\ -189657504010000000 < 116444736000000000 < 2650467744000000000
  /\ -189657504010000000 < 116444736009999999 < 2650467744000000000
  /\ exists s1 s2,
       filetime_to_8601 116444736000000000 initial_world
       = Done (Some s1) (logged 116444736000000000 initial_world)
       /\ filetime_to_8601 116444736009999999 initial_world
          = Done (Some s2) (logged 116444736009999999 initial_world)
       /\ (s1 = s2 <->
           unix_second_of_ticks 116444736000000000
           = unix_second_of_ticks 116444736009999999).
Proof.
  split; [discriminate |]. split; [discriminate |].
  split; [split; reflexivity |]. split; [split; reflexivity |].
  apply (X13_one_string_per_second 116444736000000000 116444736009999999
           initial_world).
  - discriminate.
  - discriminate.
  - split; reflexivity.
  - split; reflexivity.
Defined.

(* ================================================================== *)
(** ** Strings and untyped data *)
(* ================================================================== *)



Lemma value_other_type_no_NUL t type :
  value_other_type t = Some type -> c_string type = type.
Proof.
  unfold value_other_type.
  repeat match goal with
         | |- context [if ?b then _ else _] => destruct b
         end; intros [= <-]; reflexivity.
Qed.




Lemma optional_value_attributes key type rest :
  let attrs := start_value_attributes key type (Some "base64") ++ rest in
  lookup "type" attrs = Some [Chars (c_string type)]
  /\ lookup "value_encoding" attrs = Some [Chars "base64"]
  /\ lookup "value" attrs = lookup "value" rest
  /\ has_attr "value" attrs = has_attr "value" rest.
Proof.
  unfold start_value_attributes. cbn [app].
  destruct (key_attribute_cases key) as [-> | [[s ->] | [s ->]]];
    repeat split; reflexivity.
Qed.

Lemma value_element_optional_cases h value attrs v len e :
  (0 < len -> payload_ready v len) ->
  value_element_optional h value attrs v len = Some e ->
  exists rest children,
    e = Element "value" (attrs ++ rest) children
    /\ if 0 <? len
       then exists d,
              v = Some d
              /\ rest = [("value", [Base64 (substring 0 (Z.to_nat len) d)])]
              /\ children = value_byte_runs_nodes h value
       else rest = [] /\ children = [].
Proof.
  unfold value_element_optional, value_element_base64, base64_value,
    base64_of.
  intros R. destruct (Z.ltb_spec 0 len) as [L | L].
  - destruct (R L) as [N B]. destruct v as [d |]; [| contradiction].
    rewrite size_t_to_int_small by exact B.
    intros [= <-]. eexists _, _. split; [reflexivity |]. eauto.
  - intros [= <-]. exists [], []. rewrite app_nil_r. auto.
Qed.

(** X15: [value_none] and [value_other] write their data as base64, or
    nothing. With a key whose length fits an [int] and, for a length
    above 0, a data pointer that is not NULL and a length up to
    [INT_MAX], both return; [value_none] gives the type "none" and
    [value_other] the type its tag maps to, both announce the encoding
    "base64". With a length above 0 the [value] attribute holds the
    first [len] bytes of the data and the children are the byte runs
    of the value; with the length 0 there is no [value] attribute and
    no child, the library is not asked for lengths, and the callback
    returns 0. *)
Theorem X15_value_none_and_other (h : hive_h) (a : value_args)
  (v : option string) (w : world) :
  fits_int (va_key a) ->
  (0 < va_len a -> payload_ready v (va_len a)) ->
  (exists attrs children,
     visitor h (call_value_none a v) w
     = Done (callback_result h (call_value_none a v))
         (after_element (Element "value" attrs children) w)
     /\ lookup "type" attrs = Some [Chars "none"]
     /\ lookup "value_encoding" attrs = Some [Chars "base64"]
     /\ if 0 <? va_len a
        then exists d,
               v = Some d
               /\ lookup "value" attrs
                  = Some [Base64 (substring 0 (Z.to_nat (va_len a)) d)]
               /\ children = value_byte_runs_nodes h (va_value a)
        else has_attr "value" attrs = false
             /\ children = []
             /\ callback_result h (call_value_none a v) = 0)
  /\ (forall type,
        value_other_type (va_type a) = Some type ->
        exists attrs children,
          visitor h (call_value_other a v) w
          = Done (callback_result h (call_value_other a v))
              (after_element (Element "value" attrs children) w)
          /\ lookup "type" attrs = Some [Chars type]
          /\ lookup "value_encoding" attrs = Some [Chars "base64"]
          /\ if 0 <? va_len a
             then exists d,
                    v = Some d
                    /\ lookup "value" attrs
                       = Some [Base64
                                 (substring 0 (Z.to_nat (va_len a)) d)]
                    /\ children = value_byte_runs_nodes h (va_value a)
             else has_attr "value" attrs = false
                  /\ children = []
                  /\ callback_result h (call_value_other a v) = 0).
Proof.
  intros K R. split; [| intros type T].
  - destruct (visitor_value_returns h (call_value_none a v) w)
      as (e & V & E); [discriminate | split; assumption |].
    unfold value_element in V.
    apply value_element_optional_cases in V; [| exact R].
    destruct V as (rest & children & -> & C).
    eexists _, _. split; [exact E |].
    destruct (optional_value_attributes (va_key a) "none" rest)
      as (L1 & L2 & L3 & L4).
    split; [exact L1 |]. split; [exact L2 |]. rewrite L3, L4.
    cbn [callback_result empty_none_or_other].
    destruct (0 <? va_len a).
    + destruct C as (d & -> & -> & ->). eauto.
    + destruct C as (-> & ->). auto.
  - destruct (visitor_value_returns h (call_value_other a v) w)
      as (e & V & E); [discriminate | |].
    { cbn [call_ready]. rewrite T. repeat split;
        [discriminate | exact K | apply R; assumption..]. }
    unfold value_element in V. rewrite T in V.
    apply value_element_optional_cases in V; [| exact R].
    destruct V as (rest & children & -> & C).
    eexists _, _. split; [exact E |].
    destruct (optional_value_attributes (va_key a) type rest)
      as (L1 & L2 & L3 & L4).
    rewrite (value_other_type_no_NUL _ _ T) in L1.
    split; [exact L1 |]. split; [exact L2 |]. rewrite L3, L4.
    cbn [callback_result empty_none_or_other].
    destruct (0 <? va_len a).
    + destruct C as (d & -> & -> & ->). eauto.
    + destruct C as (-> & ->). auto.
Qed.

Lemma X15_witness_resource_list :
  fits_int (va_key (example_args 5001 hive_t_resource_list 3 "Res"))
  /\ payload_ready (Some "abcdef")
       (va_len (example_args 5001 hive_t_resource_list 3 "Res"))
  /\ (exists attrs children,
        visitor example_hive
          (call_value_none
             (example_args 5001 hive_t_resource_list 3 "Res")
             (Some "abcdef")) initial_world
        = Done (callback_result example_hive
                  (call_value_none
                     (example_args 5001 hive_t_resource_list 3 "Res")
                     (Some "abcdef")))
            (after_element (Element "value" attrs children) initial_world)
        /\ lookup "type" attrs = Some [Chars "none"]
        /\ lookup "value_encoding" attrs = Some [Chars "base64"]
        /\ if 0 <? va_len (example_args 5001 hive_t_resource_list 3 "Res")
           then exists d,
                  Some "abcdef" = Some d
                  /\ lookup "value" attrs
                     = Some [Base64
                               (substring 0
                                  (Z.to_nat
                                     (va_len
                                        (example_args 5001
                                           hive_t_resource_list 3 "Res")))
                                  d)]
                  /\ children
                     = value_byte_runs_nodes example_hive
                         (va_value
                            (example_args 5001 hive_t_resource_list 3
                               "Res"))
           else has_attr "value" attrs = false
                /\ children = []
                /\ callback_result example_hive
                     (call_value_none
                        (example_args 5001 hive_t_resource_list 3 "Res")
                        (Some "abcdef")) = 0)
  /\ (forall type,
        value_other_type
          (va_type (example_args 5001 hive_t_resource_list 3 "Res"))
        = Some type ->
        exists attrs children,
          visitor example_hive
            (call_value_other
               (example_args 5001 hive_t_resource_list 3 "Res")
               (Some "abcdef")) initial_world
          = Done (callback_result example_hive
                    (call_value_other
                       (example_args 5001 hive_t_resource_list 3 "Res")
                       (Some "abcdef")))
              (after_element (Element "value" attrs children)
                 initial_world)
          /\ lookup "type" attrs = Some [Chars type]
          /\ lookup "value_encoding" attrs = Some [Chars "base64"]
          /\ if 0 <? va_len
                       (example_args 5001 hive_t_resource_list 3 "Res")
             then exists d,
                    Some "abcdef" = Some d
                    /\ lookup "value" attrs
                       = Some [Base64
                                 (substring 0
                                    (Z.to_nat
                                       (va_len
                                          (example_args 5001
                                             hive_t_resource_list 3
                                             "Res")))
                                    d)]
                    /\ children
                       = value_byte_runs_nodes example_hive
                           (va_value
                              (example_args 5001 hive_t_resource_list 3
                                 "Res"))
             else has_attr "value" attrs = false
                  /\ children = []
                  /\ callback_result example_hive
                       (call_value_other
                          (example_args 5001 hive_t_resource_list 3 "Res")
                          (Some "abcdef")) = 0).
Proof.
  split; [vm_compute; discriminate |].
  split; [split; [discriminate | vm_compute; split; discriminate] |].
  apply (X15_value_none_and_other example_hive
           (example_args 5001 hive_t_resource_list 3 "Res")
           (Some "abcdef") initial_world).
  - vm_compute. discriminate.
  - intros _. split; [discriminate | vm_compute; split; discriminate].
Defined.

Lemma X16_witness_example_document :
  main example_hive example_walk (mk_world xmlNewTextWriter [])
  = Done 0 (final_world (main example_hive example_walk initial_world))
  /\ Forall good_node
       (document
          (writer
             (final_world (main example_hive example_walk initial_world)))).
Proof.
  split; [vm_compute; reflexivity |].
  apply (main_document_good example_hive example_walk [] 0
           (final_world (main example_hive example_walk initial_world))).
  vm_compute. reflexivity.
Defined.

(* ================================================================== *)
(** ** Byte runs of a value *)
(* ================================================================== *)

(** X17: what [value_byte_runs] records. When both length queries of
    the library succeed, the function returns 0 and has added one
    finished [byte_runs] element, whatever the writer held: its first
    [byte_run] has the offset of the value and the length of the value's
    structure, and a second one, with the offset and the length of the
    data cell, follows exactly when that length is above 4. When a query
    fails it returns -1 and writes nothing. The attributes are decimal
    numerals, and an offset or length up to [INT_MAX] reads back from
    its numeral unchanged. *)
Theorem X17_value_byte_runs (h : hive_h) (value : hive_value_h)
  (w : world) :
  value_byte_runs h value w
  = (if (fst (hivex_value_struct_length h value) =? 0)
        && (fst (hivex_value_data_cell_offset h value) =? 0)
     then
       Done 0
         (after_element
            (Element "byte_runs" []
               (Element "byte_run"
                  [("file_offset", [Chars (printf_d value)]);
                   ("len",
                    [Chars (printf_d
                              (snd (hivex_value_struct_length h value)))])]
                  []
                :: if 4 <? data_cell_length h value
                   then [Element "byte_run"
                           [("file_offset",
                             [Chars
                                (printf_d
                                   (fst (snd (hivex_value_data_cell_offset
                                                h value))))]);
                            ("len",
                             [Chars (printf_d (data_cell_length h value))])]
                           []]
                   else [])) w)
     else Done (-1) w)
  /\ forall x, 0 <= x <= INT_MAX -> read_decimal (printf_d x) = Some x.
Proof.
  split.
  - unfold value_byte_runs, data_cell_length, after_element, closed.
    destruct (hivex_value_struct_length h value) as [e1 l1].
    destruct (hivex_value_data_cell_offset h value) as [e2 [off l2]].
    cbn [fst snd]. destruct (e1 =? 0); cbn [negb andb]; [| reflexivity].
    destruct (e2 =? 0); cbn [negb]; [| reflexivity].
    destruct w as [[ns doc] fc].
    destruct (4 <? l2); unfold emit; exec;
      rewrite !(proj1 (printf_d_reads _)); reflexivity.
  - intros x H. rewrite (proj2 (printf_d_reads x)). f_equal.
    apply wrap_signed_32. unfold INT_MAX in H. lia.
Qed.
